(** * Cart totals, optimistic cart store and distance-based shipping

    A shallow embedding of the cart-to-order totals pipeline of the
    furniture marketplace:

    - [DistanceUtils]   server/src/utils/distanceUtils.ts
    - [ShippingUtils]   SERVICE/shippingUtils.ts (client fee table)
    - [ShippingTiers7]  the seven-tier client fee table
    - [Binary64]        JavaScript numbers as IEEE 754 doubles
    - [GeocodeResponse] the body of geocodeCity and coordinates that are
                        not finite
    - [CartModel]       the Mongoose cart schema
    - [CartController]  server/src/controllers/cart.controller.ts
    - [CartModel64], [CartController64]
                        addToCart with amounts as doubles and with the
                        failures of its awaited calls
    - [WholeNumbers]    whole-number carts read as carts of doubles
    - [CartStore]       the client-side zustand cart store
    - [CartStoreOps]    its other operations and the cart screen's buttons
    - [ShippingDescriptions], [Mirror], [CartFacts]
                        descriptions, the client list against the server
                        lines, and the notions the further properties are
                        stated with

    Number conventions.  In [CartController] and in the client store,
    currency amounts and quantities are whole numbers in the range where
    JavaScript numbers are exact, and no awaited call fails; they are
    modelled as [Z].  What depends on rounding, on fractions, on NaN or on
    a failing call is stated over [Binary64] and [CartController64], where
    a number is NaN, an infinity or a finite double and every sum and
    product is rounded to the nearest double.  In the fee tables a distance
    is a rational, comparisons being exact.  [DistanceUtils.calculateDistance]
    is the great-circle length over the real numbers rounded to hundredths;
    it stands for the number a quote carries, and nothing is claimed about
    the doubles the source's trigonometry returns. *)

From Stdlib Require Import ZArith QArith Qround Qabs Qreals Reals Lra Lqa Lia
  List String.
From stdpp Require Import gmap strings list fin_maps pretty.

Open Scope Z_scope.

(** ** server/src/utils/distanceUtils.ts *)

Module DistanceUtils.

Record Coordinates := mkCoordinates { latitude : Q; longitude : Q }.

(** The outside world of the shipping quote is the geocoding service.  A
    computation that may await [geocodeCity] is a finite tree whose nodes
    are the lookups it performs, each continuing with whatever the service
    answers ([None] is the source's [null]). *)
Inductive Geo (A : Type) : Type :=
| Ret (a : A)
| Geocode (city : string) (k : option Coordinates -> Geo A).
Arguments Ret {A} a.
Arguments Geocode {A} city k.

Fixpoint bind {A B : Type} (m : Geo A) (f : A -> Geo B) : Geo B :=
  match m with
  | Ret a => f a
  | Geocode city k => Geocode city (fun r => bind (k r) f)
  end.

Notation "'let_await' x := m 'in' f" := (bind m (fun x => f))
  (at level 10, x name, m at level 100, f at level 200).

(** [geocodeCity] resolves to coordinates or to [null]; transport errors
    are caught inside it and folded into [null], so one lookup is one
    event with an optional answer. *)
Definition geocodeCity (city : string) : Geo (option Coordinates) :=
  Geocode city (fun r => Ret r).

(** Running a computation against a service: [service n city] is the
    answer given to the [n]-th lookup when it asks for [city].  The run
    returns the result together with the lookups performed, in order. *)
Fixpoint run {A : Type} (service : nat -> string -> option Coordinates)
    (n : nat) (t : Geo A) : A * list (string * option Coordinates) :=
  match t with
  | Ret a => (a, [])
  | Geocode city k =>
      let r := service n city in
      let '(a, tr) := run service (S n) (k r) in
      (a, (city, r) :: tr)
  end.

Definition toRad (degrees : R) : R := (degrees * (PI / 180))%R.

(** [Math.atan2 y x] on the reals. *)
Definition Math_atan2 (y x : R) : R :=
  if Rlt_dec 0 x then atan (y / x)
  else if Rlt_dec x 0 then
    (if Rle_dec 0 y then atan (y / x) + PI else atan (y / x) - PI)%R
  else if Rlt_dec 0 y then (PI / 2)%R
  else if Rlt_dec y 0 then (- (PI / 2))%R
  else 0%R.

(** [Math.round x] is the integer floor (x + 1/2). *)
Definition Math_round (x : R) : Z := Zfloor (x + / 2).

(** The great-circle length before rounding: [R * c] of the source, over
    the real numbers.  The doubles of the source differ from it in the last
    places, and are NaN where [a] rounds above 1. *)
Definition haversine (coord1 coord2 : Coordinates) : R :=
  let R_ := 6371%R in
  let dLat := toRad (Q2R (latitude coord2) - Q2R (latitude coord1)) in
  let dLon := toRad (Q2R (longitude coord2) - Q2R (longitude coord1)) in
  let a :=
    (sin (dLat / 2) * sin (dLat / 2) +
     cos (toRad (Q2R (latitude coord1))) *
     cos (toRad (Q2R (latitude coord2))) *
     sin (dLon / 2) *
     sin (dLon / 2))%R in
  let c := (2 * Math_atan2 (sqrt a) (sqrt (1 - a)))%R in
  (R_ * c)%R.

(** [Math.round(distance * 100) / 100]: a number of hundredths. *)
Definition calculateDistance (coord1 coord2 : Coordinates) : Q :=
  Qmake (Math_round (haversine coord1 coord2 * 100)) 100.

Definition calculateShippingByDistance (distanceKm : Q) : Z :=
  if Qle_bool distanceKm 10 then 500
  else if Qle_bool distanceKm 25 then 800
  else if Qle_bool distanceKm 50 then 1200
  else if Qle_bool distanceKm 100 then 1800
  else 2500.

Record ShippingInfo := mkShippingInfo { distance : Q; fee : Z }.

(** JavaScript truthiness of an optional number: [undefined] and [0] are
    falsy. *)
Definition truthy (x : option Q) : bool :=
  match x with
  | Some q => negb (Qeq_bool q 0)
  | None => false
  end.

Definition getShippingInfo (sellerCity buyerCity : string)
    (sellerLat sellerLon : option Q) : Geo (option ShippingInfo) :=
  let_await sellerCoords :=
    (match sellerLat, sellerLon with
     | Some lat, Some lon =>
         if truthy sellerLat && truthy sellerLon
         then Ret (Some (mkCoordinates lat lon))
         else geocodeCity sellerCity
     | _, _ => geocodeCity sellerCity
     end) in
  match sellerCoords with
  | None => Ret None
  | Some sellerCoords =>
      let_await buyerCoords := geocodeCity buyerCity in
      match buyerCoords with
      | None => Ret None
      | Some buyerCoords =>
          let distance := calculateDistance sellerCoords buyerCoords in
          let shippingFee := calculateShippingByDistance distance in
          Ret (Some (mkShippingInfo distance shippingFee))
      end
  end.

End DistanceUtils.

(** ** SERVICE/shippingUtils.ts *)

Module ShippingUtils.

Definition calculateShipping (distanceKm : Q) : Z :=
  if Qle_bool distanceKm 10 then 500
  else if Qle_bool distanceKm 25 then 800
  else if Qle_bool distanceKm 50 then 1200
  else if Qle_bool distanceKm 100 then 1800
  else 2500.

End ShippingUtils.

(** ** The seven-tier client table (a second shippingUtils module) *)

Module ShippingTiers7.

Definition calculateShipping (distanceKm : Q) : Z :=
  if Qle_bool distanceKm 10 then 100
  else if Qle_bool distanceKm 30 then 500
  else if Qle_bool distanceKm 50 then 800
  else if Qle_bool distanceKm 70 then 1200
  else if Qle_bool distanceKm 100 then 1800
  else if Qle_bool distanceKm 200 then 2500
  else 3000.

End ShippingTiers7.

(** ** JavaScript numbers as IEEE 754 doubles *)

Module Binary64.

(** A JavaScript number: NaN, an infinity, or a finite double, given by
    its exact rational value (the operations below produce it in lowest
    terms).  The two zeros are not told apart: nothing modelled here
    divides by zero or reads the sign of a zero. *)
Inductive Number :=
| NaN
| Infinity (negative : bool)
| Finite (q : Q).

(** 2 to the power [e], for any integer [e]. *)
Definition pow2 (e : Z) : Q :=
  if 0 <=? e then inject_Z (2 ^ e) else 1 # Z.to_pos (2 ^ (- e)).

(** The integer part of the binary logarithm of a positive rational. *)
Definition floor_log2 (a : Q) : Z :=
  let l := Z.log2 (Qnum a) - Z.log2 (Zpos (Qden a)) in
  if Qle_bool (pow2 l) a then l else l - 1.

(** The nearest integer, a tie going to the even neighbour. *)
Definition round_half_even (x : Q) : Z :=
  let f := Qfloor x in
  match (x - inject_Z f ?= 1 # 2)%Q with
  | Lt => f
  | Gt => f + 1
  | Eq => if Z.even f then f else f + 1
  end.

(** The double an exact result is rounded to: the nearest number with 53
    significant bits, ties to even, with gradual underflow down to the
    spacing 2^-1074 and overflow to an infinity from 2^1024 - 2^970 on. *)
Definition round (x : Q) : Number :=
  let x := Qred x in
  if Qeq_bool x 0 then Finite 0
  else
    let e := Z.max (floor_log2 (Qabs x) - 52) (-1074) in
    let y := Qred (inject_Z (round_half_even (x / pow2 e)) * pow2 e) in
    if Qle_bool (pow2 1024) (Qabs y) then Infinity (Qnum y <? 0)
    else Finite y.

(** [x + y]. *)
Definition add (x y : Number) : Number :=
  match x, y with
  | NaN, _ | _, NaN => NaN
  | Infinity s, Infinity s' => if Bool.eqb s s' then Infinity s else NaN
  | Infinity s, Finite _ | Finite _, Infinity s => Infinity s
  | Finite a, Finite b => round (a + b)
  end.

(** [x * y]. *)
Definition mul (x y : Number) : Number :=
  match x, y with
  | NaN, _ | _, NaN => NaN
  | Infinity s, Infinity s' => Infinity (xorb s s')
  | Infinity s, Finite b | Finite b, Infinity s =>
      match (b ?= 0)%Q with
      | Eq => NaN
      | Lt => Infinity (negb s)
      | Gt => Infinity s
      end
  | Finite a, Finite b => round (a * b)
  end.

(** [x <= y]: false as soon as one side is NaN. *)
Definition leb (x y : Number) : bool :=
  match x, y with
  | NaN, _ | _, NaN => false
  | Infinity true, _ => true
  | _, Infinity false => true
  | Infinity false, _ => false
  | _, Infinity true => false
  | Finite a, Finite b => Qle_bool a b
  end.

(** [x < y]. *)
Definition ltb (x y : Number) : bool :=
  match x, y with
  | NaN, _ | _, NaN => false
  | _, _ => negb (leb y x)
  end.

Definition isNaN (x : Number) : bool :=
  match x with
  | NaN => true
  | _ => false
  end.

Definition isFinite (x : Number) : bool :=
  match x with
  | Finite _ => true
  | _ => false
  end.

(** [x || 0]: NaN and zero are falsy. *)
Definition or_zero (x : Number) : Number :=
  match x with
  | NaN => Finite 0
  | Finite q => if Qeq_bool q 0 then Finite 0 else x
  | Infinity _ => x
  end.

(** The double that is the whole number [z] (exact up to 2^53). *)
Definition whole (z : Z) : Number := Finite (inject_Z z).

#[global] Arguments round : simpl never.
#[global] Arguments add : simpl never.
#[global] Arguments mul : simpl never.
#[global] Arguments leb : simpl never.
#[global] Arguments ltb : simpl never.
#[global] Arguments or_zero : simpl never.
#[global] Arguments whole : simpl never.

End Binary64.

(** ** The geocoding response, and coordinates that are not finite *)

Module GeocodeResponse.

Import DistanceUtils.

(** What [response.data[0]] is when it is read: [null] or [undefined], on
    which reading [.lat] throws; or any other value, with the texts that
    [parseFloat] makes of its [lat] and [lon] properties (the text of a
    missing property is "undefined"). *)
Inductive FirstElement :=
| NullOrUndefined
| Value (lat lon : string).

(** The body of the response as the two tests of [geocodeCity] see it:
    falsy, of length 0, or anything else with its first element. *)
Inductive ResponseData :=
| Falsy
| Empty
| NonEmpty (first : FirstElement).

(** How the request of [geocodeCity] ends: it throws (timeout, network
    error, bad status), or it responds. *)
Inductive AxiosOutcome :=
| Threw
| Responded (data : ResponseData).

Record JsCoordinates := mkJsCoordinates {
  js_latitude : Binary64.Number;
  js_longitude : Binary64.Number
}.

(** The body of [geocodeCity] after the request.  [parseFloat] is the
    language's parser; the [catch] turns the failed property read into
    [null]. *)
Definition geocodeCity_from (parseFloat : string -> Binary64.Number)
    (outcome : AxiosOutcome) : option JsCoordinates :=
  match outcome with
  | Threw => None
  | Responded Falsy => None
  | Responded Empty => None
  | Responded (NonEmpty NullOrUndefined) => None
  | Responded (NonEmpty (Value lat lon)) =>
      Some (mkJsCoordinates (parseFloat lat) (parseFloat lon))
  end.

Definition finite_coordinates (c : JsCoordinates) : option Coordinates :=
  match js_latitude c, js_longitude c with
  | Binary64.Finite la, Binary64.Finite lo => Some (mkCoordinates la lo)
  | _, _ => None
  end.

(** [calculateDistance] as far as it is decided without evaluating the
    trigonometry in doubles.  A coordinate that is NaN or infinite makes a
    difference or a sine NaN, and NaN passes through every later
    operation, the rounding included.  What the doubles give on finite
    coordinates (a distance, or NaN when [a] rounds above 1) is left to
    [on_finite]. *)
Definition calculateDistance_js
    (on_finite : Coordinates -> Coordinates -> Binary64.Number)
    (coord1 coord2 : JsCoordinates) : Binary64.Number :=
  match finite_coordinates coord1, finite_coordinates coord2 with
  | Some c1, Some c2 => on_finite c1 c2
  | _, _ => Binary64.NaN
  end.

(** [calculateShippingByDistance] on any number. *)
Definition calculateShippingByDistance_js (distanceKm : Binary64.Number) : Z :=
  if Binary64.leb distanceKm (Binary64.whole 10) then 500
  else if Binary64.leb distanceKm (Binary64.whole 25) then 800
  else if Binary64.leb distanceKm (Binary64.whole 50) then 1200
  else if Binary64.leb distanceKm (Binary64.whole 100) then 1800
  else 2500.

(** The quote [getShippingInfo] builds once it has both coordinates. *)
Definition quote_js
    (on_finite : Coordinates -> Coordinates -> Binary64.Number)
    (sellerCoords buyerCoords : JsCoordinates) : Binary64.Number * Z :=
  let distance := calculateDistance_js on_finite sellerCoords buyerCoords in
  (distance, calculateShippingByDistance_js distance).

End GeocodeResponse.

(** ** The fee descriptions of the two client tables *)

Module ShippingDescriptions.

(** [getShippingDescription] of SERVICE/shippingUtils.ts.  The text that
    the template makes of [Math.round(distanceKm)] is the language's number
    formatting; it is taken as the parameter [rounded]. *)
Definition getShippingDescription (rounded : Q -> string) (distanceKm : Q)
    : string :=
  if Qle_bool distanceKm 10 then rounded distanceKm ++ "km (Local) - 500 KES"
  else if Qle_bool distanceKm 25 then
    rounded distanceKm ++ "km (Regional) - 800 KES"
  else if Qle_bool distanceKm 50 then
    rounded distanceKm ++ "km (Regional+) - 1200 KES"
  else if Qle_bool distanceKm 100 then
    rounded distanceKm ++ "km (Long Distance) - 1800 KES"
  else rounded distanceKm ++ "km (Extra Long) - 2500 KES".

(** [getShippingDescription] of the seven-tier module. *)
Definition getShippingDescription7 (rounded : Q -> string) (distanceKm : Q)
    : string :=
  if Qle_bool distanceKm 10 then rounded distanceKm ++ "km (Local) - 100 KES"
  else if Qle_bool distanceKm 30 then
    rounded distanceKm ++ "km (Regional) - 500 KES"
  else if Qle_bool distanceKm 50 then
    rounded distanceKm ++ "km (Regional+) - 800 KES"
  else if Qle_bool distanceKm 70 then
    rounded distanceKm ++ "km (Regional+) - 1200 KES"
  else if Qle_bool distanceKm 100 then
    rounded distanceKm ++ "km (Long Distance) - 1800 KES"
  else if Qle_bool distanceKm 200 then
    rounded distanceKm ++ "km (Extra Long) - 2500 KES"
  else rounded distanceKm ++ "km (Ultra Long) - 3000 KES".

End ShippingDescriptions.

(** ** The cart schema (models/cart.models) *)

Module CartModel.

(** A Mongo [ObjectId] is a 12-byte value; it is modelled by the number it
    encodes. *)
Abbreviation ObjectId := N (only parsing).

Record CartItem := mkCartItem {
  product : ObjectId;
  quantity : Z;
  price : Z
}.

(** A cart document.  The collection holds one cart per user and is
    modelled as a finite map keyed by the cart's [user] field, so the record
    carries the remaining fields. *)
Record Cart := mkCart {
  items : list CartItem;
  subTotal : Z;
  shipping : Z;
  total : Z
}.

(** [cartItemSchema]: quantity has [min: 1], price has [min: 0]. *)
Definition item_ok (it : CartItem) : bool :=
  (1 <=? quantity it) && (0 <=? price it).

(** [cartSchema]: every item passes the item schema and the three totals
    have [min: 0]. *)
Definition schema_ok (c : Cart) : bool :=
  forallb item_ok (items c)
  && (0 <=? subTotal c) && (0 <=? shipping c) && (0 <=? total c).

Inductive ValidationError := SchemaViolation.

(** [doc.validateSync()] returns the validation error, or nothing.  The
    whole document is checked against the schema; validation on [save()]
    is modelled the same way. *)
Definition validateSync (c : Cart) : option ValidationError :=
  if schema_ok c then None else Some SchemaViolation.

End CartModel.

(** ** The product catalog *)

Module ProductModel.

(** Modelled from the spec: the product model (models/product.models) is
    imported by the cart controller but is not among the sources.  The
    controller reads only [_id] and [price] of a catalog entry; [price] is
    [Some p] when the stored value is a proper number and [None] when it is
    not (wrong type or NaN), the case the controller rejects as an invalid
    price.  A catalog is a finite map from product id to entry. *)
Record Product := mkProduct {
  name : string;
  price : option Z
}.

End ProductModel.

(** ** server/src/controllers/cart.controller.ts *)

Module CartController.

Import CartModel.

(** *** Requests and responses *)

(** An id as it arrives in a request: a non-empty string that either is or
    is not a well-formed [ObjectId].  A well-formed id is taken in its
    canonical spelling, the one [toString()] gives back. *)
Inductive RawId :=
| Malformed
| WellFormed (oid : ObjectId).

(** [req.user], set by the authentication layer. *)
Record AuthUser := mkAuthUser {
  id : RawId;
  role : option string
}.

(** What [Number(v)] makes of a body field. *)
Inductive JsNumber :=
| NaN
| Num (z : Z).

(** The parts of a request the cart handlers read.  [req_user = None]
    stands for a missing user or a missing user id; a body or route field
    is [None] when it is absent (or empty). *)
Record Request := mkRequest {
  req_user : option AuthUser;
  req_params_id : option RawId;
  req_body_productId : option RawId;
  req_body_quantity : option JsNumber
}.

(** A JSON response: the status, and the [success], [message] and [cart]
    fields of the body.  [cart = None] when the body has no cart field,
    [Some None] when it is [null].  Population of the product references
    changes how items are rendered, not the cart, and is not modelled. *)
Record Response := mkResponse {
  status : Z;
  success : option bool;
  message : string;
  cart : option (option Cart)
}.

Inductive Thrown :=
| ThrownValidationError
| ThrownError.

(** *** Totals *)

Definition FREE_DELIVERY_THRESHOLD : Z := 50000.
Definition NORMAL_SHIPPING_FEE : Z := 1500.

Definition calculateShipping (subtotal : Z) : Z :=
  if subtotal <=? 0 then 0
  else if FREE_DELIVERY_THRESHOLD <=? subtotal then 0
  else NORMAL_SHIPPING_FEE.

Record PriceQuantity := mkPQ { pq_price : Z; pq_quantity : Z }.

Record Totals := mkTotals {
  totals_subTotal : Z;
  totals_shipping : Z;
  totals_total : Z
}.

Definition calculateTotals (items : list PriceQuantity) : Totals :=
  let subTotal :=
    fold_left (fun sum it => sum + pq_price it * pq_quantity it) items 0 in
  let shipping := calculateShipping subTotal in
  let total := subTotal + shipping in
  mkTotals subTotal shipping total.

(** [x || 0] on a number. *)
Definition or_zero (x : Z) : Z := if x =? 0 then 0 else x.

(** [Number(quantity)] where an absent field is [undefined]. *)
Definition Number_ (v : option JsNumber) : JsNumber :=
  match v with
  | None => NaN
  | Some n => n
  end.

Definition is_product (productId : ObjectId) (it : CartItem) : bool :=
  (product it =? productId)%N.

Definition set_quantity (it : CartItem) (q : Z) : CartItem :=
  mkCartItem (product it) q (price it).

Definition with_totals (its : list CartItem) (t : Totals) : Cart :=
  mkCart its (totals_subTotal t) (totals_shipping t) (totals_total t).

(** *** addToCart *)

(** The body of the [try] block.  The result is the response returned from
    inside the block or the exception that leaves it, with the cart
    collection as it then is. *)
Definition addToCart_try (products : gmap N ProductModel.Product)
    (userId productId : RawId) (qty : Z) (carts : gmap N Cart)
    : (Response + Thrown) * gmap N Cart :=
  match productId with
  | Malformed => (inr ThrownError, carts)
  | WellFormed pid =>
    match products !! pid with
    | None => (inl (mkResponse 400 (Some false) "Product not found" None), carts)
    | Some product_ =>
      match ProductModel.price product_ with
      | None =>
          (inl (mkResponse 400 (Some false) "Product has invalid price" None),
           carts)
      | Some product_price =>
        match userId with
        | Malformed =>
            (inl (mkResponse 400 (Some false) "Invalid user ID format" None),
             carts)
        | WellFormed userObjectId =>
          let built :=
            match carts !! userObjectId with
            | None =>
                let itemData := mkCartItem pid qty product_price in
                if price itemData <? 0 then inr ThrownError
                else if quantity itemData <=? 0 then inr ThrownError
                else
                  let totals :=
                    calculateTotals
                      [mkPQ (price itemData) (quantity itemData)] in
                  inl (mkCart [itemData]
                         (totals_subTotal totals) (totals_shipping totals)
                         (totals_total totals))
            | Some cart_ =>
                let merged :=
                  match list_find (fun it => is_product pid it = true)
                          (items cart_) with
                  | Some (itemIndex, item) =>
                      inl (<[itemIndex :=
                               set_quantity item (quantity item + qty)]>
                             (items cart_))
                  | None =>
                      let newItem := mkCartItem pid qty product_price in
                      if price newItem <? 0 then inr ThrownError
                      else inl (items cart_ ++ [newItem])
                  end in
                match merged with
                | inr e => inr e
                | inl items' =>
                    let totals :=
                      calculateTotals
                        (map (fun it => mkPQ (or_zero (price it))
                                             (or_zero (quantity it))) items') in
                    inl (with_totals items' totals)
                end
            end in
          match built with
          | inr e => (inr e, carts)
          | inl cart_ =>
              match validateSync cart_ with
              | Some _ => (inr ThrownValidationError, carts)
              | None =>
                  (inl (mkResponse 200 (Some true) "Item added to cart"
                          (Some (Some cart_))),
                   <[userObjectId := cart_]> carts)
              end
          end
        end
      end
    end
  end.

Definition addToCart (products : gmap N ProductModel.Product) (req : Request)
    (carts : gmap N Cart) : Response * gmap N Cart :=
  match req_user req with
  | None => (mkResponse 401 (Some false) "Authentication required" None, carts)
  | Some u =>
    match req_body_productId req with
    | None => (mkResponse 400 (Some false) "Product ID is required" None, carts)
    | Some productId =>
      match Number_ (Some (default (Num 1) (req_body_quantity req))) with
      | NaN =>
          (mkResponse 400 (Some false) "Quantity must be a positive number" None,
           carts)
      | Num qty =>
        if qty <=? 0 then
          (mkResponse 400 (Some false) "Quantity must be a positive number" None,
           carts)
        else if match role u with
                | Some r => negb (r =? "")%string && negb (r =? "buyer")%string
                | None => false
                end
        then (mkResponse 403 (Some false) "Need to be a buyer" None, carts)
        else
          match addToCart_try products (id u) productId qty carts with
          | (inl res, carts') => (res, carts')
          | (inr err, carts') =>
              let statusCode :=
                match err with
                | ThrownValidationError => 400
                | ThrownError => 500
                end in
              (mkResponse statusCode None "Server error" None, carts')
          end
      end
    end
  end.

(** *** updateCart *)

(** [cart.save()] validates before writing; a validation failure leaves the
    stored document as it was. *)
Definition save (userObjectId : ObjectId) (c : Cart) (carts : gmap N Cart)
    : option (gmap N Cart) :=
  match validateSync c with
  | Some _ => None
  | None => Some (<[userObjectId := c]> carts)
  end.

Definition updateCart (req : Request) (carts : gmap N Cart)
    : Response * gmap N Cart :=
  match req_user req with
  | None => (mkResponse 401 None "Authentication required" None, carts)
  | Some u =>
    match req_params_id req with
    | None => (mkResponse 400 None "Invalid product id" None, carts)
    | Some productId =>
      match id u, productId with
      | WellFormed userObjectId, WellFormed productObjectId =>
        (* Cart.findOne({ user, "items.product": productObjectId }) *)
        match
          match carts !! userObjectId with
          | Some c =>
              if existsb (is_product productObjectId) (items c)
              then Some c else None
          | None => None
          end
        with
        | None => (mkResponse 404 None "Cart item not found" None, carts)
        | Some cart_ =>
          match list_find (fun it => is_product productObjectId it = true)
                  (items cart_) with
          | None => (mkResponse 404 None "Cart item not found" None, carts)
          | Some (i, item) =>
            match Number_ (req_body_quantity req) with
            | NaN =>
                (* the number cast of the item fails when saving *)
                (mkResponse 500 None "Server Error" None, carts)
            | Num q =>
                let items' := <[i := set_quantity item q]> (items cart_) in
                let totals :=
                  calculateTotals
                    (map (fun it => mkPQ (price it) (quantity it)) items') in
                let cart' := with_totals items' totals in
                match save userObjectId cart' carts with
                | None => (mkResponse 500 None "Server Error" None, carts)
                | Some carts' =>
                    (mkResponse 200 (Some true) "" (Some (Some cart')), carts')
                end
            end
          end
        end
      | _, _ =>
          (* new mongoose.Types.ObjectId(...) throws *)
          (mkResponse 500 None "Server Error" None, carts)
      end
    end
  end.

(** *** removeItem *)

(** [$pull: { items: { product } }]. *)
Definition pull (productId : ObjectId) (its : list CartItem) : list CartItem :=
  List.filter (fun it => negb (is_product productId it)) its.

Definition removeItem (req : Request) (carts : gmap N Cart)
    : Response * gmap N Cart :=
  match req_user req with
  | None => (mkResponse 401 None "Authentication required" None, carts)
  | Some u =>
    match req_params_id req with
    | None => (mkResponse 400 None "Invalid product id" None, carts)
    | Some productId =>
      match id u, productId with
      | WellFormed userObjectId, WellFormed productObjectId =>
        (* Cart.findOneAndUpdate(..., { new: true }) writes the pulled list
           at once and returns the updated document *)
        match carts !! userObjectId with
        | None => (mkResponse 404 None "Cart not found" None, carts)
        | Some stored =>
            let pulled :=
              mkCart (pull productObjectId (items stored))
                (subTotal stored) (shipping stored) (total stored) in
            let carts1 := <[userObjectId := pulled]> carts in
            let totals :=
              calculateTotals
                (map (fun it => mkPQ (price it) (quantity it))
                   (items pulled)) in
            let cart' := with_totals (items pulled) totals in
            match save userObjectId cart' carts1 with
            | None => (mkResponse 500 None "Server Error" None, carts1)
            | Some carts' =>
                (mkResponse 200 (Some true) "" (Some (Some cart')), carts')
            end
        end
      | _, _ => (mkResponse 500 None "Server Error" None, carts)
      end
    end
  end.

(** *** getItems *)

Definition getItems (req : Request) (carts : gmap N Cart) : Response :=
  match req_user req with
  | None => mkResponse 401 None "Authentication required" None
  | Some u =>
    match id u with
    | Malformed => mkResponse 500 None "Server Error" None
    | WellFormed userObjectId =>
      match carts !! userObjectId with
      | None => mkResponse 200 (Some true) "No items in cart" (Some None)
      | Some cart_ =>
          if (length (items cart_) =? 0)%nat
          then mkResponse 200 (Some true) "No items in cart" (Some None)
          else mkResponse 200 (Some true) "" (Some (Some cart_))
      end
    end
  end.

(** *** The cart routes as one transition system *)

Inductive CartMutation :=
| AddToCart (products : gmap N ProductModel.Product)
| UpdateCart
| RemoveItem.

Definition mutate (op : CartMutation) (req : Request) (carts : gmap N Cart)
    : Response * gmap N Cart :=
  match op with
  | AddToCart products => addToCart products req carts
  | UpdateCart => updateCart req carts
  | RemoveItem => removeItem req carts
  end.

(** Cart collections that the routes can produce from an empty database.
    Carts are created by [addToCart] only, and every write goes through one
    of the three mutations. *)
Inductive Reachable : gmap N Cart -> Prop :=
| Reachable_empty : Reachable ∅
| Reachable_step op req carts :
    Reachable carts -> Reachable (snd (mutate op req carts)).

(** The sum the totals are to agree with. *)
Definition line_sum (its : list CartItem) : Z :=
  fold_left (fun sum it => sum + price it * quantity it) its 0.

Definition totals_agree (c : Cart) : Prop :=
  subTotal c = line_sum (items c)
  /\ shipping c = calculateShipping (subTotal c)
  /\ total c = subTotal c + shipping c.

(** The lines of a user's cart; no lines when the user has no cart. *)
Definition cart_lines (carts : gmap N Cart) (userObjectId : ObjectId)
    : list CartItem :=
  match carts !! userObjectId with
  | Some c => items c
  | None => []
  end.

(** What adding [qty] of a product priced [product_price] does to a list of
    lines: the first line of that product absorbs the quantity and keeps its
    price; without such a line a new one is appended. *)
Definition add_line (productId : ObjectId) (qty product_price : Z)
    (its : list CartItem) : list CartItem :=
  match list_find (fun it => is_product productId it = true) its with
  | Some (i, item) => <[i := set_quantity item (quantity item + qty)]> its
  | None => its ++ [mkCartItem productId qty product_price]
  end.

(** A request made by user [uid] about product [pid] in its body. *)
Definition request_of (uid pid : ObjectId) (req : Request) : Prop :=
  exists u,
    req_user req = Some u /\ id u = WellFormed uid
    /\ req_body_productId req = Some (WellFormed pid).

(** The quantity an [addToCart] request asks for ([quantity = 1] when the
    body has none). *)
Definition requested_quantity (req : Request) : Z :=
  match default (Num 1) (req_body_quantity req) with
  | NaN => 0
  | Num q => q
  end.

(** A mutation that stored cart [c'] for user [uid] and answered 200 with
    it. *)
Definition stored_ok (out : Response * gmap N Cart) (carts : gmap N Cart)
    (msg : string) (uid : N) (c' : Cart) : Prop :=
  out = (mkResponse 200 (Some true) msg (Some (Some c')), <[uid := c']> carts)
  /\ totals_agree c' /\ schema_ok c' = true.

(** Every stored cart passes the schema and carries totals that agree with
    its lines. *)
Definition carts_ok (carts : gmap N Cart) : Prop :=
  map_Forall (fun _ c => totals_agree c /\ schema_ok c = true) carts.

End CartController.

(** ** addToCart on doubles, with the failures of its awaited calls *)

(** The cart schema with amounts and quantities as doubles. *)
Module CartModel64.

Import Binary64.

Record CartItem := mkCartItem {
  product : N;
  quantity : Number;
  price : Number
}.

Record Cart := mkCart {
  items : list CartItem;
  subTotal : Number;
  shipping : Number;
  total : Number
}.

(** A Number path with [min: m]: NaN is not cast to a number, and a number
    passes when it is at least [m]. *)
Definition at_least (m : Z) (v : Number) : bool := leb (whole m) v.

Definition item_ok (it : CartItem) : bool :=
  at_least 1 (quantity it) && at_least 0 (price it).

Definition schema_ok (c : Cart) : bool :=
  forallb item_ok (items c)
  && at_least 0 (subTotal c) && at_least 0 (shipping c)
  && at_least 0 (total c).

Definition validateSync (c : Cart) : option CartModel.ValidationError :=
  if schema_ok c then None else Some CartModel.SchemaViolation.

End CartModel64.

Module ProductModel64.

(** Modelled from the spec: the product model (models/product.models) is
    not among the sources.  [price] is [None] when the stored value is not
    of type number, and the number otherwise. *)
Record Product := mkProduct {
  name : string;
  price : option Binary64.Number
}.

End ProductModel64.

Module CartController64.

Import Binary64 CartModel64.

(** The awaited call of one [addToCart] request that throws, if any:
    [Product.findById], [Cart.findOne], [cart.save()] (which then writes
    nothing) or [cart.populate]. *)
Inductive Fault :=
| NoFault
| FindProductThrows
| FindCartThrows
| SaveThrows
| PopulateThrows.

Definition is_fault (f g : Fault) : bool :=
  match f, g with
  | NoFault, NoFault
  | FindProductThrows, FindProductThrows
  | FindCartThrows, FindCartThrows
  | SaveThrows, SaveThrows
  | PopulateThrows, PopulateThrows => true
  | _, _ => false
  end.

(** The request: [req_body_quantity] is what [Number(quantity)] gives, and
    [None] when the body has no quantity. *)
Record Request := mkRequest {
  req_user : option CartController.AuthUser;
  req_body_productId : option CartController.RawId;
  req_body_quantity : option Number
}.

Record Response := mkResponse {
  status : Z;
  success : option bool;
  message : string;
  cart : option Cart
}.

Definition FREE_DELIVERY_THRESHOLD : Number := whole 50000.
Definition NORMAL_SHIPPING_FEE : Number := whole 1500.

Definition calculateShipping (subtotal : Number) : Number :=
  if leb subtotal (whole 0) then whole 0
  else if leb FREE_DELIVERY_THRESHOLD subtotal then whole 0
  else NORMAL_SHIPPING_FEE.

Record PriceQuantity := mkPQ { pq_price : Number; pq_quantity : Number }.

Record Totals := mkTotals {
  totals_subTotal : Number;
  totals_shipping : Number;
  totals_total : Number
}.

Definition calculateTotals (items : list PriceQuantity) : Totals :=
  let subTotal :=
    fold_left (fun sum it => add sum (mul (pq_price it) (pq_quantity it)))
      items (whole 0) in
  let shipping := calculateShipping subTotal in
  let total := add subTotal shipping in
  mkTotals subTotal shipping total.

Definition is_product (productId : N) (it : CartItem) : bool :=
  (product it =? productId)%N.

Definition set_quantity (it : CartItem) (q : Number) : CartItem :=
  mkCartItem (product it) q (price it).

Definition with_totals (its : list CartItem) (t : Totals) : Cart :=
  mkCart its (totals_subTotal t) (totals_shipping t) (totals_total t).

(** The cart the handler prepares between [Cart.findOne] and
    [validateSync]: a new cart with the one item, or the found cart with
    the quantity merged into the product's line or a line appended, and
    the totals recomputed. *)
Definition build (pid : N) (qty product_price : Number)
    (found : option Cart) : Cart + CartController.Thrown :=
  match found with
  | None =>
      let itemData := mkCartItem pid qty product_price in
      if ltb (price itemData) (whole 0) then inr CartController.ThrownError
      else if leb (quantity itemData) (whole 0)
      then inr CartController.ThrownError
      else
        let totals :=
          calculateTotals [mkPQ (price itemData) (quantity itemData)] in
        inl (with_totals [itemData] totals)
  | Some cart_ =>
      let merged :=
        match list_find (fun it => is_product pid it = true) (items cart_) with
        | Some (itemIndex, item) =>
            inl (<[itemIndex := set_quantity item (add (quantity item) qty)]>
                   (items cart_))
        | None =>
            let newItem := mkCartItem pid qty product_price in
            if ltb (price newItem) (whole 0)
            then inr CartController.ThrownError
            else inl (items cart_ ++ [newItem])
        end in
      match merged with
      | inr e => inr e
      | inl items' =>
          let totals :=
            calculateTotals
              (map (fun it => mkPQ (or_zero (price it)) (or_zero (quantity it)))
                 items') in
          inl (with_totals items' totals)
      end
  end.

(** The body of the [try] block: the response returned from inside it or
    the exception that leaves it, with the cart collection as it then
    is. *)
Definition addToCart_try (products : gmap N ProductModel64.Product)
    (fault : Fault) (userId productId : CartController.RawId) (qty : Number)
    (carts : gmap N Cart)
    : (Response + CartController.Thrown) * gmap N Cart :=
  match productId with
  | CartController.Malformed => (inr CartController.ThrownError, carts)
  | CartController.WellFormed pid =>
    if is_fault fault FindProductThrows
    then (inr CartController.ThrownError, carts)
    else
    match products !! pid with
    | None => (inl (mkResponse 400 (Some false) "Product not found" None), carts)
    | Some product_ =>
      match ProductModel64.price product_ with
      | None | Some NaN =>
          (inl (mkResponse 400 (Some false) "Product has invalid price" None),
           carts)
      | Some product_price =>
        match userId with
        | CartController.Malformed =>
            (inl (mkResponse 400 (Some false) "Invalid user ID format" None),
             carts)
        | CartController.WellFormed userObjectId =>
          if is_fault fault FindCartThrows
          then (inr CartController.ThrownError, carts)
          else
          match build pid qty product_price (carts !! userObjectId) with
          | inr e => (inr e, carts)
          | inl cart_ =>
              match validateSync cart_ with
              | Some _ => (inr CartController.ThrownValidationError, carts)
              | None =>
                  if is_fault fault SaveThrows
                  then (inr CartController.ThrownError, carts)
                  else if is_fault fault PopulateThrows
                  then (inr CartController.ThrownError,
                        <[userObjectId := cart_]> carts)
                  else
                    (inl (mkResponse 200 (Some true) "Item added to cart"
                            (Some cart_)),
                     <[userObjectId := cart_]> carts)
              end
          end
        end
      end
    end
  end.

Definition addToCart (products : gmap N ProductModel64.Product)
    (fault : Fault) (req : Request) (carts : gmap N Cart)
    : Response * gmap N Cart :=
  match req_user req with
  | None => (mkResponse 401 (Some false) "Authentication required" None, carts)
  | Some u =>
    match req_body_productId req with
    | None => (mkResponse 400 (Some false) "Product ID is required" None, carts)
    | Some productId =>
      let qty := default (whole 1) (req_body_quantity req) in
      if isNaN qty || leb qty (whole 0) then
        (mkResponse 400 (Some false) "Quantity must be a positive number" None,
         carts)
      else if match CartController.role u with
              | Some r => negb (r =? "")%string && negb (r =? "buyer")%string
              | None => false
              end
      then (mkResponse 403 (Some false) "Need to be a buyer" None, carts)
      else
        match addToCart_try products fault (CartController.id u) productId qty
                carts with
        | (inl res, carts') => (res, carts')
        | (inr err, carts') =>
            let statusCode :=
              match err with
              | CartController.ThrownValidationError => 400
              | CartController.ThrownError => 500
              end in
            (mkResponse statusCode None "Server error" None, carts')
        end
    end
  end.

(** One [addToCart] request in a sequence: the catalog of its moment, the
    call that throws during it (if any) and the request. *)
Record Call := mkCall {
  call_products : gmap N ProductModel64.Product;
  call_fault : Fault;
  call_request : Request
}.

Fixpoint addToCart_all (calls : list Call) (carts : gmap N Cart)
    : list Response * gmap N Cart :=
  match calls with
  | [] => ([], carts)
  | call :: rest =>
      let '(res, carts') :=
        addToCart (call_products call) (call_fault call) (call_request call)
          carts in
      let '(ress, carts'') := addToCart_all rest carts' in
      (res :: ress, carts'')
  end.

(** A request made by user [uid] about product [pid] in its body. *)
Definition request_of (uid pid : N) (req : Request) : Prop :=
  exists u,
    req_user req = Some u
    /\ CartController.id u = CartController.WellFormed uid
    /\ req_body_productId req = Some (CartController.WellFormed pid).

(** The quantity a request asks for ([quantity = 1] when the body has
    none). *)
Definition requested_quantity (req : Request) : Number :=
  default (whole 1) (req_body_quantity req).

(** The lines of a user's cart; no lines when the user has no cart. *)
Definition cart_lines (carts : gmap N Cart) (userObjectId : N)
    : list CartItem :=
  match carts !! userObjectId with
  | Some c => items c
  | None => []
  end.

End CartController64.

(** ** Whole-number carts read as carts of doubles *)

Module WholeNumbers.

(** The double reading of whole-number data: [CartController] holds
    amounts and quantities as integers, [CartController64] as doubles. *)
Definition item (it : CartModel.CartItem) : CartModel64.CartItem :=
  CartModel64.mkCartItem (CartModel.product it)
    (Binary64.whole (CartModel.quantity it))
    (Binary64.whole (CartModel.price it)).

Definition cart (c : CartModel.Cart) : CartModel64.Cart :=
  CartModel64.mkCart (map item (CartModel.items c))
    (Binary64.whole (CartModel.subTotal c))
    (Binary64.whole (CartModel.shipping c))
    (Binary64.whole (CartModel.total c)).

(** Lines whose quantities are doubles and whose amounts add up, shipping
    included, without leaving the range in which doubles are exact. *)
Definition in_exact_range (its : list CartModel.CartItem) : Prop :=
  Forall (fun it => CartModel.quantity it <= 2 ^ 53) its
  /\ CartController.line_sum its + CartController.NORMAL_SHIPPING_FEE
     <= 2 ^ 53.

End WholeNumbers.

(** ** The client cart store (zustand) *)

Module CartStore.

(** The client's [Product] and [CartItem] types come from the application's
    type declarations; the store reads [id] and [price] and copies the rest. *)
Record Product := mkProduct {
  id : string;
  name : string;
  description : string;
  price : Z;
  image : string;
  category : string;
  stock : Z
}.

Record CartItem := mkCartItem {
  product : Product;
  quantity : Z
}.

Record CartState := mkCartState {
  items : list CartItem;
  isLoading : bool;
  error : option string;
  userId : option string;
  buyerCity : string;
  shippingCost : Z
}.

(** [set({ items })] and [set({ error })]: a partial update keeps the other
    fields. *)
Definition set_items (its : list CartItem) (s : CartState) : CartState :=
  mkCartState its (isLoading s) (error s) (userId s) (buyerCity s)
    (shippingCost s).

Definition set_error (e : option string) (s : CartState) : CartState :=
  mkCartState (items s) (isLoading s) e (userId s) (buyerCity s)
    (shippingCost s).

(** How the awaited server call settles: it resolves, or it rejects with an
    error whose [message] may be missing. *)
Inductive Settled :=
| Fulfilled
| Rejected (message : option string).

(** [x || 0] on a number. *)
Definition or_zero (x : Z) : Z := if x =? 0 then 0 else x.

(** [s || fallback] on an optional string: a missing or empty string is
    falsy. *)
Definition or_string (s : option string) (fallback : string) : string :=
  match s with
  | Some m => if (m =? "")%string then fallback else m
  | None => fallback
  end.

(** The optimistic update of [addItem]: the function handed to [set].  It
    builds a new array and a new item object; the previous array is not
    written to, and no other store operation writes to an array in place,
    so item lists are modelled as values. *)
Definition addItem_optimistic (product_ : Product) (qty : Z)
    (state : CartState) : CartState :=
  match list_find (fun i => id (product i) = id product_) (items state) with
  | Some (idx, found) =>
      let next := <[idx := mkCartItem (product found)
                             (or_zero (quantity found) + qty)]> (items state) in
      set_items next state
  | None => set_items (items state ++ [mkCartItem product_ qty]) state
  end.

(** [addItem] up to its [await]: it remembers the current items and applies
    the optimistic update.  The result is the new store state and the
    remembered [prevItems]. *)
Definition addItem_begin (product_ : Product) (qty : option Z)
    (state : CartState) : CartState * list CartItem :=
  let prevItems := items state in
  (addItem_optimistic product_ (default 1 qty) state, prevItems).

(** [addItem] after its [await], run on the store state of that moment.
    The boolean tells whether the error is thrown on to the caller. *)
Definition addItem_resume (prevItems : list CartItem) (outcome : Settled)
    (state : CartState) : CartState * bool :=
  match outcome with
  | Fulfilled => (state, false)
  | Rejected message_ =>
      let s1 := set_items prevItems state in
      let s2 := set_error (Some (or_string message_ "Failed to add to cart")) s1 in
      (s2, true)
  end.

(** [addItem] when nothing else touches the store while the request is in
    flight. *)
Definition addItem (product_ : Product) (qty : option Z) (outcome : Settled)
    (state : CartState) : CartState * bool :=
  let '(state1, prevItems) := addItem_begin product_ qty state in
  addItem_resume prevItems outcome state1.

End CartStore.

(** ** The other operations of the client cart store *)

Module CartStoreOps.

Import CartStore.

(** What a [catch] clause receives: an [Error] object with its message, or
    some other thrown value. *)
Inductive Caught :=
| CaughtError (message : string)
| CaughtOther.

(** How the update request settles. *)
Inductive UpdateSettled :=
| UpdateFulfilled
| UpdateRejected (err : Caught).

Definition has_id (productId : string) (i : CartItem) : bool :=
  (id (product i) =? productId)%string.

(** [setQuantity] up to the request: the quantity is clamped to at least 1
    and written into every item of the product.  The result is the new
    state, the remembered items and the quantity sent to the server. *)
Definition setQuantity_begin (productId : string) (qty : Z)
    (state : CartState) : CartState * (list CartItem * Z) :=
  let nextQty := Z.max 1 qty in
  let prev := items state in
  (set_items
     (map (fun i => if has_id productId i
                    then mkCartItem (product i) nextQty else i) prev)
     state,
   (prev, nextQty)).

(** The [catch] handler of the update request, run on the store state of
    that moment: one [set] of both [items] and [error]. *)
Definition setQuantity_resume (prev : list CartItem) (outcome : UpdateSettled)
    (state : CartState) : CartState :=
  match outcome with
  | UpdateFulfilled => state
  | UpdateRejected err =>
      mkCartState prev (isLoading state)
        (Some match err with
              | CaughtError m => m
              | CaughtOther => "Failed to update cart"%string
              end)
        (userId state) (buyerCity state) (shippingCost state)
  end.

(** [removeItem] up to its [await]. *)
Definition removeItem_begin (productId : string) (state : CartState)
    : CartState * list CartItem :=
  let prev := items state in
  (set_items (List.filter (fun i => negb (has_id productId i)) (items state))
     state,
   prev).

(** [removeItem] after its [await]; unlike [addItem] it swallows the
    error. *)
Definition removeItem_resume (prev : list CartItem) (outcome : Settled)
    (state : CartState) : CartState :=
  match outcome with
  | Fulfilled => state
  | Rejected message_ =>
      set_error (Some (or_string message_ "Failed to remove from cart"))
        (set_items prev state)
  end.

Definition clear (state : CartState) : CartState := set_items [] state.

(** [x || 1] on a number. *)
Definition or_one (x : Z) : Z := if x =? 0 then 1 else x.

(** The derived [subtotal]. *)
Definition subtotal (state : CartState) : Z :=
  fold_left
    (fun sum it => sum + or_zero (price (product it)) * or_one (quantity it))
    (items state) 0.

(** The server payload as far as [mapServerCartToItems] reads it.  A field
    is [None] when it is missing or null; fields that are present are taken
    to have the type the server gives them. *)
Record ServerProduct := mkServerProduct {
  sp__id : option string;
  sp_id : option string;
  sp_name : option string;
  sp_description : option string;
  sp_price : option Z;
  sp_image : option string;
  sp_category : option string;
  sp_stock : option Z
}.

Record ServerItem := mkServerItem {
  si_product : option ServerProduct;
  si_quantity : option Z
}.

(** [payload?.cart?.items] and [payload?.items]. *)
Record ServerPayload := mkServerPayload {
  payload_cart_items : option (list ServerItem);
  payload_items : option (list ServerItem)
}.

Definition or_number (x : option Z) : Z :=
  match x with
  | Some z => or_zero z
  | None => 0
  end.

Definition mapServerCartToItems (payload : ServerPayload) : list CartItem :=
  let list_ :=
    match payload_cart_items payload with
    | Some l => l
    | None => default [] (payload_items payload)
    end in
  List.filter
    (fun it => negb (id (product it) =? "")%string)
    (map
       (fun it =>
          let p := default (mkServerProduct None None None None None None
                              None None) (si_product it) in
          let product_ :=
            mkProduct
              (or_string (sp__id p) (or_string (sp_id p) ""))
              (or_string (sp_name p) "")
              (or_string (sp_description p) "")
              (or_number (sp_price p))
              (or_string (sp_image p) "")
              (or_string (sp_category p) "")
              (or_number (sp_stock p)) in
          mkCartItem product_ (default 1 (si_quantity it)))
       list_).

(** How [getCart] settles. *)
Inductive FetchSettled :=
| FetchFulfilled (data : ServerPayload)
| FetchRejected (message : option string).

(** [fetchCart]: the loading flag is raised and the error cleared; then the
    mirror is replaced by the mapped payload, or emptied on failure. *)
Definition fetchCart (outcome : FetchSettled) (state : CartState)
    : CartState :=
  let loading :=
    mkCartState (items state) true None (userId state) (buyerCity state)
      (shippingCost state) in
  match outcome with
  | FetchFulfilled data =>
      mkCartState (mapServerCartToItems data) false (error loading)
        (userId loading) (buyerCity loading) (shippingCost loading)
  | FetchRejected message_ =>
      mkCartState [] false (Some (or_string message_ "Failed to fetch cart"))
        (userId loading) (buyerCity loading) (shippingCost loading)
  end.

(** *** components/cart/cart.tsx *)




End CartStoreOps.

(** ** The client mirror against the server lines *)

Module Mirror.

(** What the client mirror shows: product ids and quantities, in order. *)
Definition client_view (its : list CartStore.CartItem) : list (string * Z) :=
  map (fun i => (CartStore.id (CartStore.product i), CartStore.quantity i)) its.

(** The same reading of the server's lines, [key] being the text of an
    [ObjectId]. *)
Definition server_view (key : N -> string) (its : list CartModel.CartItem)
    : list (string * Z) :=
  map (fun it => (key (CartModel.product it), CartModel.quantity it)) its.

End Mirror.

(** ** Well-formed carts *)

Module CartFacts.

Import CartModel CartController.

(** Every line has a quantity of at least 1 and a price that is not
    negative: what the item schema demands. *)
Definition lines_valid (its : list CartItem) : Prop :=
  Forall (fun it => 1 <= quantity it /\ 0 <= price it) its.

(** A cart whose totals agree with its lines, whose lines are valid and in
    which no product has two lines. *)
Definition cart_well_formed (c : Cart) : Prop :=
  totals_agree c
  /\ lines_valid (items c)
  /\ NoDup (map product (items c)).

(** The quantity a cart holds of a product: that of its first line for the
    product, 0 when it has none. *)
Definition quantity_of (productId : ObjectId) (its : list CartItem) : Z :=
  match List.find (is_product productId) its with
  | Some it => quantity it
  | None => 0
  end.

(** The price a cart remembers for a product, if it has a line for it. *)
Definition price_of (productId : ObjectId) (its : list CartItem) : option Z :=
  match List.find (is_product productId) its with
  | Some it => Some (price it)
  | None => None
  end.

(** The lines of the other products, in order. *)
Definition other_lines (productId : ObjectId) (its : list CartItem)
    : list CartItem :=
  List.filter (fun it => negb (is_product productId it)) its.

(** The lines with the quantity of a product's line replaced. *)
Definition set_line (productId : ObjectId) (q : Z) (its : list CartItem)
    : list CartItem :=
  map (fun it => if is_product productId it then set_quantity it q else it) its.

End CartFacts.

(** ** Concrete data for the scenarios *)

Module Scenario.

Import CartModel CartController.

(** A catalog with one product, an oak chair priced 1000. *)
Definition catalog : gmap N ProductModel.Product :=
  {[ 7%N := ProductModel.mkProduct "Oak chair" (Some 1000) ]}.

Definition buyer : AuthUser := mkAuthUser (WellFormed 1) (Some "buyer"%string).

(** POST /cart with the chair and a quantity. *)
Definition add_chair (q : Z) : Request :=
  mkRequest (Some buyer) None (Some (WellFormed 7)) (Some (Num q)).

(** DELETE /cart/:id. *)
Definition remove_product (pid : N) : Request :=
  mkRequest (Some buyer) (Some (WellFormed pid)) None None.

(** GET /cart. *)
Definition get_cart : Request := mkRequest (Some buyer) None None None.

(** The collection after the buyer added two chairs to an empty database. *)
Definition two_chairs : gmap N Cart :=
  snd (addToCart catalog (add_chair 2) ∅).

(** ... and after the chairs were removed again. *)
Definition emptied : gmap N Cart :=
  snd (removeItem (remove_product 7) two_chairs).

(** The chair in a catalog priced in doubles, at 1000 and repriced to
    1200, and a request to add chairs. *)
Definition catalog64 : gmap N ProductModel64.Product :=
  {[ 7%N := ProductModel64.mkProduct "Oak chair" (Some (Binary64.whole 1000)) ]}.

Definition catalog64_repriced : gmap N ProductModel64.Product :=
  {[ 7%N := ProductModel64.mkProduct "Oak chair" (Some (Binary64.whole 1200)) ]}.

Definition add_chair64 (q : Binary64.Number) : CartController64.Request :=
  CartController64.mkRequest (Some buyer) (Some (WellFormed 7)) (Some q).

(** Two chairs added, then three more after the catalog was repriced. *)
Definition two_then_three : list CartController64.Call :=
  [CartController64.mkCall catalog64 CartController64.NoFault
     (add_chair64 (Binary64.whole 2));
   CartController64.mkCall catalog64_repriced CartController64.NoFault
     (add_chair64 (Binary64.whole 3))].

(** The collection of doubles after the buyer added two chairs to an
    empty database. *)
Definition two_chairs64 : gmap N CartModel64.Cart :=
  snd (CartController64.addToCart catalog64 CartController64.NoFault
         (add_chair64 (Binary64.whole 2)) ∅).

(** 2^53 chairs added, then one more. *)
Definition big_then_one : list CartController64.Call :=
  [CartController64.mkCall catalog64 CartController64.NoFault
     (add_chair64 (Binary64.whole (2 ^ 53)));
   CartController64.mkCall catalog64 CartController64.NoFault
     (add_chair64 (Binary64.whole 1))].

(** A catalog that also lists a pine table, and a request to add tables. *)
Definition catalog_with_table : gmap N ProductModel.Product :=
  <[ 8%N := ProductModel.mkProduct "Pine table" (Some 4500) ]> catalog.

Definition add_table (q : Z) : Request :=
  mkRequest (Some buyer) None (Some (WellFormed 8)) (Some (Num q)).

(** The chair as the client knows it, and a client store holding one. *)
Definition chair : CartStore.Product :=
  CartStore.mkProduct "7" "Oak chair" "" 1000 "" "chairs" 4.

Definition store_one_chair : CartStore.CartState :=
  CartStore.mkCartState [CartStore.mkCartItem chair 1] false None
    (Some "1"%string) "" 0.

(** The client store mirroring [two_chairs]. *)
Definition store_two_chairs : CartStore.CartState :=
  CartStore.mkCartState [CartStore.mkCartItem chair 2] false None
    (Some "1"%string) "" 0.

(** A geocoding service that knows Nairobi and nothing else. *)
Definition nairobi_only (n : nat) (city : string)
    : option DistanceUtils.Coordinates :=
  if (city =? "Nairobi")%string
  then Some (DistanceUtils.mkCoordinates (-1.2921) 36.8219)
  else None.

End Scenario.

(** * Properties *)

(** ** Fee tables *)

Lemma Qle_bool_false (x y : Q) : Qle_bool x y = false <-> (y < x)%Q.
Proof.
  rewrite <- not_true_iff_false, Qle_bool_iff. split.
  - apply Qnot_le_lt.
  - apply Qlt_not_le.
Qed.

(** Splits every band test of a fee table into the order fact it decides. *)
Ltac split_bands :=
  repeat match goal with
         | |- context [Qle_bool ?d ?t] =>
             let E := fresh "E" in
             destruct (Qle_bool d t) eqn:E;
             [apply Qle_bool_iff in E | apply Qle_bool_false in E]
         end.

(** C3 (bands).  The server fee is 500 up to 10 km, 800 above 10 and up to
    25, 1200 above 25 and up to 50, 1800 above 50 and up to 100, and 2500
    above 100; every band is closed on its upper bound.  The four boundary
    scenarios hold, and the fee never decreases when the distance grows. *)
Theorem calculateShippingByDistance_bands :
  (forall d : Q,
      ((d <= 10)%Q -> DistanceUtils.calculateShippingByDistance d = 500)
      /\ ((10 < d)%Q -> (d <= 25)%Q ->
          DistanceUtils.calculateShippingByDistance d = 800)
      /\ ((25 < d)%Q -> (d <= 50)%Q ->
          DistanceUtils.calculateShippingByDistance d = 1200)
      /\ ((50 < d)%Q -> (d <= 100)%Q ->
          DistanceUtils.calculateShippingByDistance d = 1800)
      /\ ((100 < d)%Q -> DistanceUtils.calculateShippingByDistance d = 2500))
  /\ DistanceUtils.calculateShippingByDistance 10 = 500
  /\ DistanceUtils.calculateShippingByDistance 10.01 = 800
  /\ DistanceUtils.calculateShippingByDistance 100 = 1800
  /\ DistanceUtils.calculateShippingByDistance 100.01 = 2500
  /\ (forall d1 d2 : Q,
        (d1 <= d2)%Q ->
        DistanceUtils.calculateShippingByDistance d1
        <= DistanceUtils.calculateShippingByDistance d2).
Proof.
  split; [| repeat split; try reflexivity].
  - intros d. unfold DistanceUtils.calculateShippingByDistance.
    repeat split; intros; split_bands; try reflexivity; exfalso; Lqa.lra.
  - intros d1 d2 Hle. unfold DistanceUtils.calculateShippingByDistance.
    split_bands; try lia; exfalso; Lqa.lra.
Qed.

Lemma calculateShippingByDistance_bands_witness :
  (7 <= 10)%Q
  /\ DistanceUtils.calculateShippingByDistance 7 = 500
  /\ (7 <= 30)%Q
  /\ DistanceUtils.calculateShippingByDistance 7
     <= DistanceUtils.calculateShippingByDistance 30.
Proof.
  destruct calculateShippingByDistance_bands as [Hb [_ [_ [_ [_ Hm]]]]].
  assert (H1 : (7 <= 10)%Q) by (unfold Qle; simpl; lia).
  assert (H2 : (7 <= 30)%Q) by (unfold Qle; simpl; lia).
  split; [exact H1 |].
  split; [exact (proj1 (Hb 7%Q) H1) |].
  split; [exact H2 |].
  exact (Hm 7%Q 30%Q H2).
Defined.

(** The server table and the table of SERVICE/shippingUtils.ts are the same
    function. *)
Lemma server_client_tables_agree (d : Q) :
  DistanceUtils.calculateShippingByDistance d
  = ShippingUtils.calculateShipping d.
Proof. reflexivity. Qed.

(** Where the seven-tier table and the server table agree: exactly on
    distances above 70 km and up to 200 km. *)
Lemma seven_tier_agrees_iff (d : Q) :
  ShippingTiers7.calculateShipping d
  = DistanceUtils.calculateShippingByDistance d
  <-> (70 < d)%Q /\ (d <= 200)%Q.
Proof.
  unfold ShippingTiers7.calculateShipping,
    DistanceUtils.calculateShippingByDistance.
  split.
  - split_bands; intros H; try discriminate H; split; Lqa.lra.
  - intros [Hlo Hhi]. split_bands; try reflexivity; exfalso; Lqa.lra.
Qed.

(** C4 as claimed fails: it is not the case that every two of the three
    tables differ on some distance, because the server table and the
    SERVICE/shippingUtils.ts table agree everywhere. *)
Lemma three_tables_pairwise_differ_false :
  ~ ((exists d, DistanceUtils.calculateShippingByDistance d
                <> ShippingUtils.calculateShipping d)
     /\ (exists d, DistanceUtils.calculateShippingByDistance d
                   <> ShippingTiers7.calculateShipping d)
     /\ (exists d, ShippingUtils.calculateShipping d
                   <> ShippingTiers7.calculateShipping d)).
Proof.
  intros [[d Hd] _]. apply Hd. reflexivity.
Qed.

(** C4 (amended).  The server table and the SERVICE/shippingUtils.ts table
    return the same fee on every distance; the seven-tier client table is
    inconsistent with each of them: at 5 km it charges 100 where they
    charge 500. *)
Theorem fee_tables_consistency :
  (forall d, DistanceUtils.calculateShippingByDistance d
             = ShippingUtils.calculateShipping d)
  /\ (exists d, DistanceUtils.calculateShippingByDistance d
                <> ShippingTiers7.calculateShipping d)
  /\ (exists d, ShippingUtils.calculateShipping d
                <> ShippingTiers7.calculateShipping d).
Proof.
  split; [intros d; reflexivity |].
  split; exists 5%Q; vm_compute; discriminate.
Qed.

(** ** Shipping quotes *)

(** The lookups a quote performs, by case: with a usable hint only the
    buyer city is looked up; otherwise the seller city first, and the buyer
    city only if the seller was found. *)
Lemma getShippingInfo_lookups service n sellerCity buyerCity sellerLat sellerLon :
  let lookups :=
    snd (DistanceUtils.run service n
           (DistanceUtils.getShippingInfo sellerCity buyerCity
              sellerLat sellerLon)) in
  if DistanceUtils.truthy sellerLat && DistanceUtils.truthy sellerLon
  then lookups = [(buyerCity, service n buyerCity)]
  else match service n sellerCity with
       | None => lookups = [(sellerCity, None)]
       | Some c =>
           lookups = [(sellerCity, Some c);
                      (buyerCity, service (S n) buyerCity)]
       end.
Proof.
  unfold DistanceUtils.getShippingInfo.
  destruct sellerLat as [lat |], sellerLon as [lon |]; simpl;
    try destruct (negb (Qeq_bool lat 0)); simpl;
    try destruct (negb (Qeq_bool lon 0)); simpl;
    try (destruct (service n buyerCity); reflexivity);
    destruct (service n sellerCity); simpl; try reflexivity;
    destruct (service (S n) buyerCity); reflexivity.
Qed.

(** C6.  Whenever a geocoding lookup performed for a quote answers
    not-found, be it the seller city (looked up when no usable hint was
    given) or the buyer city, [getShippingInfo] returns null. *)
Theorem getShippingInfo_not_found service sellerCity buyerCity
    sellerLat sellerLon city :
  In (city, None)
    (snd (DistanceUtils.run service 0
            (DistanceUtils.getShippingInfo sellerCity buyerCity
               sellerLat sellerLon))) ->
  fst (DistanceUtils.run service 0
         (DistanceUtils.getShippingInfo sellerCity buyerCity
            sellerLat sellerLon)) = None.
Proof.
  unfold DistanceUtils.getShippingInfo.
  destruct sellerLat as [lat |], sellerLon as [lon |]; simpl;
    try destruct (negb (Qeq_bool lat 0)); simpl;
    try destruct (negb (Qeq_bool lon 0)); simpl;
    try (destruct (service 0%nat buyerCity); simpl; intros H;
         [destruct H as [H | []]; discriminate H | reflexivity]);
    (destruct (service 0%nat sellerCity); simpl; [| reflexivity]);
    (destruct (service 1%nat buyerCity); simpl; [| reflexivity]);
    intros H; destruct H as [H | [H | []]]; discriminate H.
Qed.

Lemma getShippingInfo_not_found_witness :
  In ("Atlantis"%string, None)
    (snd (DistanceUtils.run Scenario.nairobi_only 0
            (DistanceUtils.getShippingInfo "Nairobi" "Atlantis" None None)))
  /\ fst (DistanceUtils.run Scenario.nairobi_only 0
            (DistanceUtils.getShippingInfo "Nairobi" "Atlantis" None None))
     = None.
Proof.
  assert (H : In ("Atlantis"%string, None)
    (snd (DistanceUtils.run Scenario.nairobi_only 0
            (DistanceUtils.getShippingInfo "Nairobi" "Atlantis" None None)))).
  { vm_compute. right. left. reflexivity. }
  split; [exact H |].
  exact (getShippingInfo_not_found Scenario.nairobi_only
           "Nairobi" "Atlantis" None None "Atlantis" H).
Defined.

(** With a hint whose two numbers are both non-zero the seller city is not
    looked up: the quote is one buyer lookup, computed from the hint. *)
Lemma getShippingInfo_hint_used sellerCity buyerCity (lat lon : Q) :
  Qeq_bool lat 0 = false ->
  Qeq_bool lon 0 = false ->
  DistanceUtils.getShippingInfo sellerCity buyerCity (Some lat) (Some lon)
  = DistanceUtils.Geocode buyerCity
      (fun buyerCoords =>
         match buyerCoords with
         | None => DistanceUtils.Ret None
         | Some b =>
             let d :=
               DistanceUtils.calculateDistance
                 (DistanceUtils.mkCoordinates lat lon) b in
             DistanceUtils.Ret
               (Some (DistanceUtils.mkShippingInfo d
                        (DistanceUtils.calculateShippingByDistance d)))
         end).
Proof.
  intros Hlat Hlon. unfold DistanceUtils.getShippingInfo. simpl.
  rewrite Hlat, Hlon. simpl.
  f_equal.
Qed.

(** C9 (evaluation at the failing input).  A seller on the equator has the
    saved coordinates (0, 36.8).  With that hint supplied the seller city is
    looked up all the same, the hint is dropped, and since the service does
    not know the city the quote is null without the buyer city ever being
    looked up. *)
Theorem getShippingInfo_zero_latitude_hint :
  DistanceUtils.run Scenario.nairobi_only 0
    (DistanceUtils.getShippingInfo "Equator Farm" "Nairobi"
       (Some 0%Q) (Some 36.8%Q))
  = (None, [("Equator Farm"%string, None)]).
Proof. vm_compute. reflexivity. Qed.

(** ** Cart totals *)

Section CartTotals.

Import CartModel CartController.

Lemma or_zero_id (x : Z) : or_zero x = x.
Proof. unfold or_zero. destruct (Z.eqb_spec x 0); congruence. Qed.

Lemma fold_left_price_quantity (g : CartItem -> PriceQuantity) its acc :
  (forall it, pq_price (g it) = price it /\ pq_quantity (g it) = quantity it) ->
  fold_left (fun sum it => sum + pq_price it * pq_quantity it) (map g its) acc
  = fold_left (fun sum it => sum + price it * quantity it) its acc.
Proof.
  intros Hg. revert acc.
  induction its as [| it its IH]; intros acc; simpl; [reflexivity |].
  destruct (Hg it) as [-> ->]. apply IH.
Qed.

Lemma calculateTotals_agree (g : CartItem -> PriceQuantity) its :
  (forall it, pq_price (g it) = price it /\ pq_quantity (g it) = quantity it) ->
  totals_agree (with_totals its (calculateTotals (map g its))).
Proof.
  intros Hg. unfold totals_agree, with_totals, calculateTotals, line_sum.
  simpl. rewrite (fold_left_price_quantity g its 0 Hg). auto.
Qed.

End CartTotals.


(** ** What each mutation does to the collection *)

Section Mutations.

Import CartModel CartController.

Lemma validateSync_None c : validateSync c = None -> schema_ok c = true.
Proof.
  unfold validateSync. destruct (schema_ok c); [reflexivity | discriminate].
Qed.

(** Closes a branch in which the handler answers an error and leaves the
    collection alone. *)
Ltac refused := left; simpl; split; [reflexivity | discriminate].

Lemma addToCart_cases products req carts :
  (snd (addToCart products req carts) = carts
   /\ status (fst (addToCart products req carts)) <> 200)
  \/ exists u uid pid prod pp c',
       req_user req = Some u /\ id u = WellFormed uid
       /\ req_body_productId req = Some (WellFormed pid)
       /\ 0 < requested_quantity req
       /\ products !! pid = Some prod /\ ProductModel.price prod = Some pp
       /\ items c'
          = add_line pid (requested_quantity req) pp (cart_lines carts uid)
       /\ stored_ok (addToCart products req carts) carts
            "Item added to cart" uid c'.
Proof.
  unfold addToCart, requested_quantity.
  destruct (req_user req) as [u |]; [| refused].
  destruct (req_body_productId req) as [productId |]; [| refused].
  simpl Number_.
  destruct (default (Num 1) (req_body_quantity req)) as [| qty]; [refused |].
  destruct (Z.leb_spec qty 0) as [| Hqty]; [refused |].
  match goal with
  | |- context [if ?b then _ else _] => destruct b; [refused |]
  end.
  unfold addToCart_try.
  destruct productId as [| pid]; [refused |].
  destruct (products !! pid) as [prod |] eqn:Hprod; [| refused].
  destruct (ProductModel.price prod) as [pp |] eqn:Hpp; [| refused].
  destruct (id u) as [| uid] eqn:Hid; [refused |].
  destruct (carts !! uid) as [stored |] eqn:Hstored.
  - destruct (list_find (fun it => is_product pid it = true) (items stored))
      as [[i item] |] eqn:Hfind.
    + match goal with
      | |- context [validateSync ?c] =>
          destruct (validateSync c) eqn:Hval; [refused |];
          right; exists u, uid, pid, prod, pp, c
      end.
      unfold cart_lines, add_line, stored_ok.
      rewrite Hstored. simpl. rewrite Hfind.
      do 8 (split; [first [reflexivity | assumption] |]).
      split; [| apply validateSync_None, Hval].
      apply (calculateTotals_agree
               (fun it => mkPQ (or_zero (price it)) (or_zero (quantity it)))).
      intros it. simpl. rewrite !or_zero_id. auto.
    + simpl price.
      destruct (Z.ltb_spec pp 0) as [| Hpp0]; [refused |].
      match goal with
      | |- context [validateSync ?c] =>
          destruct (validateSync c) eqn:Hval; [refused |];
          right; exists u, uid, pid, prod, pp, c
      end.
      unfold cart_lines, add_line, stored_ok.
      rewrite Hstored. simpl. rewrite Hfind.
      do 8 (split; [first [reflexivity | assumption] |]).
      split; [| apply validateSync_None, Hval].
      apply (calculateTotals_agree
               (fun it => mkPQ (or_zero (price it)) (or_zero (quantity it)))).
      intros it. simpl. rewrite !or_zero_id. auto.
  - simpl price. simpl quantity.
    destruct (Z.ltb_spec pp 0) as [| Hpp0]; [refused |].
    destruct (Z.leb_spec qty 0) as [| _]; [refused |].
    match goal with
    | |- context [validateSync ?c] =>
        destruct (validateSync c) eqn:Hval; [refused |];
        right; exists u, uid, pid, prod, pp, c
    end.
    unfold cart_lines, add_line, stored_ok. rewrite Hstored. simpl.
    do 8 (split; [first [reflexivity | assumption] |]).
    split; [| apply validateSync_None, Hval].
    unfold totals_agree, calculateTotals, line_sum. simpl. auto.
Qed.

Lemma updateCart_cases req carts :
  (snd (updateCart req carts) = carts
   /\ status (fst (updateCart req carts)) <> 200)
  \/ exists u uid c',
       req_user req = Some u /\ id u = WellFormed uid
       /\ stored_ok (updateCart req carts) carts "" uid c'.
Proof.
  unfold updateCart.
  destruct (req_user req) as [u |]; [| refused].
  destruct (req_params_id req) as [productId |]; [| refused].
  destruct (id u) as [| uid] eqn:Hid; [refused |].
  destruct productId as [| pid]; [refused |].
  destruct (carts !! uid) as [stored |]; [| refused].
  destruct (existsb (is_product pid) (items stored)); [| refused].
  destruct (list_find (fun it => is_product pid it = true) (items stored))
    as [[i item] |]; [| refused].
  destruct (Number_ (req_body_quantity req)) as [| q]; [refused |].
  unfold save.
  match goal with
  | |- context [validateSync ?c] =>
      destruct (validateSync c) eqn:Hval; [refused |];
      right; exists u, uid, c
  end.
  unfold stored_ok.
  do 3 (split; [first [reflexivity | assumption] |]).
  split; [| apply validateSync_None, Hval].
  apply (calculateTotals_agree (fun it => mkPQ (price it) (quantity it))).
  intros it. simpl. auto.
Qed.

(** [removeItem] writes twice.  When it does not answer 200 the collection
    is as before, unless the cart was found and the recomputed document
    failed validation: then the pulled list stays stored. *)
Lemma removeItem_cases req carts :
  (status (fst (removeItem req carts)) <> 200
   /\ (snd (removeItem req carts) = carts
       \/ exists uid pid stored,
            carts !! uid = Some stored
            /\ schema_ok
                 (with_totals (pull pid (items stored))
                    (calculateTotals
                       (map (fun it => mkPQ (price it) (quantity it))
                          (pull pid (items stored))))) = false))
  \/ exists u uid pid c',
       req_user req = Some u /\ id u = WellFormed uid
       /\ req_params_id req = Some (WellFormed pid)
       /\ items c' = pull pid (cart_lines carts uid)
       /\ stored_ok (removeItem req carts) carts "" uid c'.
Proof.
  unfold removeItem.
  destruct (req_user req) as [u |];
    [| left; simpl; split; [discriminate | left; reflexivity]].
  destruct (req_params_id req) as [productId |];
    [| left; simpl; split; [discriminate | left; reflexivity]].
  destruct (id u) as [| uid] eqn:Hid;
    [left; simpl; split; [discriminate | left; reflexivity] |].
  destruct productId as [| pid];
    [left; simpl; split; [discriminate | left; reflexivity] |].
  destruct (carts !! uid) as [stored |] eqn:Hstored;
    [| left; simpl; split; [discriminate | left; reflexivity]].
  unfold save, validateSync.
  match goal with
  | |- context [schema_ok ?c] => destruct (schema_ok c) eqn:Hval
  end.
  - right.
    match goal with
    | H : schema_ok ?c = true |- _ => exists u, uid, pid, c
    end.
    unfold stored_ok, cart_lines. rewrite Hstored.
    do 4 (split; [first [reflexivity | assumption] |]).
    split; [rewrite insert_insert_eq; reflexivity |].
    split; [| exact Hval].
    apply (calculateTotals_agree (fun it => mkPQ (price it) (quantity it))).
    intros it. simpl. auto.
  - left. simpl. split; [discriminate |].
    right. exists uid, pid, stored. split; [exact Hstored | exact Hval].
Qed.

Lemma line_sum_from its acc :
  fold_left (fun sum it => sum + price it * quantity it) its acc
  = acc + line_sum its.
Proof.
  unfold line_sum. revert acc.
  induction its as [| it its IH]; intros acc; simpl; [lia |].
  rewrite IH, (IH (0 + _)). lia.
Qed.

(** [line_sum] is the sum over the lines of price times quantity. *)
Lemma line_sum_spec its :
  line_sum its = foldr Z.add 0 (map (fun it => price it * quantity it) its).
Proof.
  induction its as [| it its IH]; [reflexivity |].
  unfold line_sum in *. simpl. rewrite line_sum_from.
  unfold line_sum. rewrite IH. lia.
Qed.


End Mutations.


(** ** The invariant of reachable cart collections *)

Section Invariant.

Import CartModel CartController.

Lemma calculateShipping_nonneg s : 0 <= calculateShipping s.
Proof.
  unfold calculateShipping, FREE_DELIVERY_THRESHOLD, NORMAL_SHIPPING_FEE.
  destruct (s <=? 0); [lia |]. destruct (50000 <=? s); lia.
Qed.

Lemma line_sum_nonneg its : forallb item_ok its = true -> 0 <= line_sum its.
Proof.
  rewrite line_sum_spec.
  induction its as [| it its IH]; simpl; [lia |].
  intros H. apply andb_prop in H as [Hit Hits].
  unfold item_ok in Hit. apply andb_prop in Hit as [Hq Hp].
  specialize (IH Hits). nia.
Qed.

Lemma pull_item_ok pid its :
  forallb item_ok its = true -> forallb item_ok (pull pid its) = true.
Proof.
  unfold pull. induction its as [| it its IH]; simpl; [reflexivity |].
  intros H. apply andb_prop in H as [Hit Hits].
  destruct (negb (is_product pid it)); simpl; [rewrite Hit |]; auto.
Qed.

Lemma pull_absent pid its :
  ~ In pid (map product its) -> pull pid its = its.
Proof.
  unfold pull, is_product. induction its as [| it its IH]; [reflexivity |].
  intros H. cbn [List.filter].
  destruct (N.eqb_spec (product it) pid) as [Heq | Hne]; cbn [negb].
  - exfalso. apply H. left. exact Heq.
  - rewrite IH; [reflexivity |]. intros Hin. apply H. right. exact Hin.
Qed.

Lemma recomputed_schema_ok its :
  forallb item_ok its = true ->
  schema_ok
    (with_totals its
       (calculateTotals (map (fun it => mkPQ (price it) (quantity it)) its)))
  = true.
Proof.
  intros Hits.
  unfold schema_ok, with_totals, calculateTotals. simpl.
  rewrite (fold_left_price_quantity _ its 0) by (intros it; simpl; auto).
  fold (line_sum its).
  pose proof (line_sum_nonneg its Hits).
  pose proof (calculateShipping_nonneg (line_sum its)).
  rewrite Hits.
  repeat (apply andb_true_intro; split); try reflexivity; apply Z.leb_le; lia.
Qed.

Lemma recomputed_same c :
  totals_agree c ->
  with_totals (items c)
    (calculateTotals (map (fun it => mkPQ (price it) (quantity it)) (items c)))
  = c.
Proof.
  intros (Hs & Hsh & Ht).
  pose proof (calculateTotals_agree
                (fun it => mkPQ (price it) (quantity it)) (items c)) as Hag.
  destruct Hag as (Hs' & Hsh' & Ht'); [intros it; simpl; auto |].
  destruct c as [its s sh t]. simpl in *.
  unfold with_totals in *. simpl in *.
  f_equal; congruence.
Qed.

Lemma stored_ok_preserves out carts msg uid c' :
  stored_ok out carts msg uid c' -> carts_ok carts -> carts_ok (snd out).
Proof.
  intros (-> & Hag & Hok) Hinv. simpl.
  apply map_Forall_insert_2; auto.
Qed.

Lemma mutate_preserves op req carts :
  carts_ok carts -> carts_ok (snd (mutate op req carts)).
Proof.
  intros Hinv. destruct op as [products | |]; simpl.
  - destruct (addToCart_cases products req carts)
      as [[-> _] | (u & uid & pid & prod & pp & c & _ & _ & _ & _ & _ & _
                    & _ & Hok)]; [exact Hinv |].
    exact (stored_ok_preserves _ _ _ _ _ Hok Hinv).
  - destruct (updateCart_cases req carts)
      as [[-> _] | (u & uid & c & _ & _ & Hok)]; [exact Hinv |].
    exact (stored_ok_preserves _ _ _ _ _ Hok Hinv).
  - destruct (removeItem_cases req carts)
      as [[_ [-> | (uid & pid & stored & Hst & Hbad)]]
         | (u & uid & pid & c & _ & _ & _ & _ & Hok)].
    + exact Hinv.
    + exfalso. destruct (Hinv uid stored Hst) as [_ Hschema].
      unfold schema_ok in Hschema.
      apply andb_prop in Hschema as [Hschema _].
      apply andb_prop in Hschema as [Hschema _].
      apply andb_prop in Hschema as [Hits _].
      rewrite (recomputed_schema_ok _ (pull_item_ok pid _ Hits)) in Hbad.
      discriminate Hbad.
    + exact (stored_ok_preserves _ _ _ _ _ Hok Hinv).
Qed.

(** In every reachable collection each stored cart is schema-valid and its
    totals are those of its lines: stored totals are never stale. *)
Lemma reachable_carts_ok carts : Reachable carts -> carts_ok carts.
Proof.
  induction 1 as [| op req carts _ IH].
  - apply map_Forall_empty.
  - apply mutate_preserves, IH.
Qed.

(** Removing a product that is not in a well-formed cart answers 200 with
    the cart as stored and leaves the collection as it was. *)
Lemma removeItem_absent_noop carts uid c pid role bodyId bodyQty :
  carts_ok carts ->
  carts !! uid = Some c ->
  ~ In pid (map product (items c)) ->
  removeItem
    (mkRequest (Some (mkAuthUser (WellFormed uid) role))
       (Some (WellFormed pid)) bodyId bodyQty) carts
  = (mkResponse 200 (Some true) "" (Some (Some c)), carts).
Proof.
  intros Hinv Hc Habs.
  destruct (Hinv uid c Hc) as [Hag Hschema].
  unfold removeItem. simpl. rewrite Hc.
  rewrite (pull_absent pid (items c) Habs).
  rewrite (recomputed_same c Hag).
  unfold save, validateSync. rewrite Hschema.
  assert (Hsame : mkCart (items c) (subTotal c) (shipping c) (total c) = c)
    by (destruct c; reflexivity).
  rewrite Hsame, insert_insert_eq, (insert_id carts uid c Hc).
  reflexivity.
Qed.

Lemma removeItem_404 req carts :
  status (fst (removeItem req carts)) = 404 ->
  exists u uid,
    req_user req = Some u /\ id u = WellFormed uid /\ carts !! uid = None.
Proof.
  unfold removeItem.
  destruct (req_user req) as [u |]; [| simpl; discriminate].
  destruct (req_params_id req) as [productId |]; [| simpl; discriminate].
  destruct (id u) as [| uid] eqn:Hid; [simpl; discriminate |].
  destruct productId as [| pid]; [simpl; discriminate |].
  destruct (carts !! uid) as [stored |] eqn:Hstored.
  - unfold save. destruct (validateSync _); simpl; discriminate.
  - intros _. exists u, uid. auto.
Qed.

End Invariant.

(** C7.  In a reachable collection, removing a product that is not among
    the lines of the user's cart answers 200 with that cart and changes
    nothing: lines, subtotal, shipping and total stay as stored.  The
    answer 404 is given only when the user has no cart. *)
Theorem removeItem_absent_product :
  (forall carts uid c pid role bodyId bodyQty,
      CartController.Reachable carts ->
      carts !! uid = Some c ->
      ~ In pid (map CartModel.product (CartModel.items c)) ->
      CartController.removeItem
        (CartController.mkRequest
           (Some (CartController.mkAuthUser (CartController.WellFormed uid) role))
           (Some (CartController.WellFormed pid)) bodyId bodyQty) carts
      = (CartController.mkResponse 200 (Some true) "" (Some (Some c)), carts))
  /\ (forall req carts,
        CartController.status (fst (CartController.removeItem req carts)) = 404 ->
        exists u uid,
          CartController.req_user req = Some u
          /\ CartController.id u = CartController.WellFormed uid
          /\ carts !! uid = None).
Proof.
  split.
  - intros carts uid c pid role bodyId bodyQty Hreach Hc Habs.
    apply removeItem_absent_noop; auto using reachable_carts_ok.
  - apply removeItem_404.
Qed.

Lemma two_chairs_reachable : CartController.Reachable Scenario.two_chairs.
Proof.
  exact (CartController.Reachable_step
           (CartController.AddToCart Scenario.catalog) (Scenario.add_chair 2)
           ∅ CartController.Reachable_empty).
Qed.

Lemma removeItem_absent_product_witness :
  Scenario.two_chairs !! 1%N
  = Some (CartModel.mkCart [CartModel.mkCartItem 7 2 1000] 2000 1500 3500)
  /\ ~ In 9%N [7%N]
  /\ CartController.removeItem (Scenario.remove_product 9) Scenario.two_chairs
     = (CartController.mkResponse 200 (Some true) ""
          (Some (Some (CartModel.mkCart [CartModel.mkCartItem 7 2 1000]
                         2000 1500 3500))),
        Scenario.two_chairs).
Proof.
  assert (Hc : Scenario.two_chairs !! 1%N
               = Some (CartModel.mkCart [CartModel.mkCartItem 7 2 1000]
                         2000 1500 3500))
    by (vm_compute; reflexivity).
  assert (Habs : ~ In 9%N [7%N]) by (intros [H | []]; discriminate H).
  split; [exact Hc |]. split; [exact Habs |].
  exact (proj1 removeItem_absent_product Scenario.two_chairs 1%N _ 9%N
           (Some "buyer"%string) None None two_chairs_reachable Hc Habs).
Defined.


(** ** Reading the cart *)

(** An emptied cart is reachable: add two chairs, then remove the chair. *)
Lemma emptied_reachable :
  CartController.Reachable Scenario.emptied
  /\ Scenario.emptied !! 1%N = Some (CartModel.mkCart [] 0 0 0).
Proof.
  split.
  - exact (CartController.Reachable_step CartController.RemoveItem
             (Scenario.remove_product 7) _ two_chairs_reachable).
  - vm_compute. reflexivity.
Qed.

(** C10.  For a user whose cart document exists with an empty item list,
    [getItems] gives the very response it gives when the user has no cart
    document: 200, success, [cart: null]. *)
Theorem getItems_empty_as_absent req u uid c
    (carts_absent carts_emptied : gmap N CartModel.Cart) :
  CartController.req_user req = Some u ->
  CartController.id u = CartController.WellFormed uid ->
  carts_absent !! uid = None ->
  carts_emptied !! uid = Some c ->
  CartModel.items c = [] ->
  CartController.getItems req carts_emptied
  = CartController.mkResponse 200 (Some true) "No items in cart" (Some None)
  /\ CartController.getItems req carts_absent
     = CartController.getItems req carts_emptied.
Proof.
  intros Hu Hid Habs Hemp Hits.
  unfold CartController.getItems.
  rewrite Hu, Hid, Habs, Hemp, Hits. simpl. auto.
Qed.

Lemma getItems_empty_as_absent_witness :
  CartController.getItems Scenario.get_cart Scenario.emptied
  = CartController.mkResponse 200 (Some true) "No items in cart" (Some None)
  /\ CartController.getItems Scenario.get_cart ∅
     = CartController.getItems Scenario.get_cart Scenario.emptied.
Proof.
  apply (getItems_empty_as_absent Scenario.get_cart Scenario.buyer 1%N
           (CartModel.mkCart [] 0 0 0) ∅ Scenario.emptied).
  - reflexivity.
  - reflexivity.
  - reflexivity.
  - vm_compute. reflexivity.
  - reflexivity.
Defined.

(** ** Repeated adds of one product *)

Section Binary64Exact.

Import Binary64.

Lemma Qred_inject_Z z : Qred (inject_Z z) = inject_Z z.
Proof.
  unfold Qred, inject_Z.
  pose proof (Z.ggcd_gcd z 1) as Hg.
  pose proof (Z.ggcd_correct_divisors z 1) as Hd.
  destruct (Z.ggcd z 1) as [g [n d]]. simpl in Hg, Hd.
  rewrite Z.gcd_1_r in Hg. subst g. destruct Hd as [Hn Hd].
  rewrite Z.mul_1_l in Hn, Hd. subst n d. reflexivity.
Qed.

(** Rounding depends on the value only, not on how the fraction is
    written. *)
Lemma round_comp (a b : Q) : (a == b)%Q -> round a = round b.
Proof. intros H. unfold round. rewrite (Qred_complete a b H). reflexivity. Qed.

Lemma round_half_even_Z (q : Q) (k : Z) :
  (q == inject_Z k)%Q -> round_half_even q = k.
Proof.
  intros H. unfold round_half_even.
  rewrite (Qfloor_comp q (inject_Z k) H), Qfloor_Z.
  assert (Hc : (q - inject_Z k ?= 1 # 2)%Q = Lt).
  { apply Qlt_alt. rewrite H. unfold Qminus. rewrite Qplus_opp_r.
    reflexivity. }
  rewrite Hc. reflexivity.
Qed.

Lemma pow2_nonneg e : 0 <= e -> pow2 e = inject_Z (2 ^ e).
Proof. intros H. unfold pow2. apply Z.leb_le in H. rewrite H. reflexivity. Qed.

Lemma pow2_neg e : e < 0 -> pow2 e = 1 # Z.to_pos (2 ^ (- e)).
Proof. intros H. unfold pow2. apply Z.leb_gt in H. rewrite H. reflexivity. Qed.

(** Scaling a whole number by a power of two that is at most 1 gives a
    whole number, and scaling back returns it. *)
Lemma scaled_back (z e : Z) :
  e <= 0 ->
  (inject_Z z / pow2 e == inject_Z (z * 2 ^ (- e)))%Q
  /\ (inject_Z (z * 2 ^ (- e)) * pow2 e == inject_Z z)%Q.
Proof.
  intros He.
  assert (Hp : 0 < 2 ^ (- e)) by (apply Z.pow_pos_nonneg; lia).
  assert (Hq : (pow2 e == / inject_Z (2 ^ (- e)))%Q).
  { destruct (Z.eq_dec e 0) as [-> | Hne].
    - reflexivity.
    - rewrite pow2_neg by lia. unfold Qeq, Qinv, inject_Z. simpl.
      destruct (2 ^ (- e)) as [| p | p] eqn:E; try lia.
      simpl. reflexivity. }
  assert (Hnz : ~ (inject_Z (2 ^ (- e)) == 0)%Q).
  { unfold Qeq, inject_Z. simpl. lia. }
  split.
  - rewrite Hq, inject_Z_mult. field. exact Hnz.
  - rewrite Hq, inject_Z_mult. field. exact Hnz.
Qed.

(** Whole numbers up to 2^53 in magnitude are doubles: rounding leaves
    them as they are. *)
Lemma round_whole (z : Z) : Z.abs z <= 2 ^ 53 -> round (inject_Z z) = whole z.
Proof.
  intros Hz. destruct (Z.eq_dec z 0) as [-> | Hnz]; [reflexivity |].
  destruct (Z.eq_dec (Z.abs z) (2 ^ 53)) as [Hmax | Hlt].
  { destruct (Z.abs_eq_or_opp z) as [E | E]; rewrite E in Hmax.
    - rewrite Hmax. vm_compute. reflexivity.
    - assert (z = - 2 ^ 53) as -> by lia. vm_compute. reflexivity. }
  assert (Hpos : 0 < Z.abs z) by lia.
  pose proof (Z.log2_spec (Z.abs z) Hpos) as [Hlo Hhi].
  pose proof (Z.log2_nonneg (Z.abs z)) as Hl0.
  assert (Hl : Z.log2 (Z.abs z) <= 52).
  { assert (Z.log2 (Z.abs z) < 53); [| lia].
    apply Z.log2_lt_pow2; lia. }
  unfold round. rewrite Qred_inject_Z.
  assert (Hne : Qeq_bool (inject_Z z) 0 = false).
  { unfold Qeq_bool, inject_Z. simpl. apply Z.eqb_neq. lia. }
  rewrite Hne.
  assert (Hfl : floor_log2 (Qabs (inject_Z z)) = Z.log2 (Z.abs z)).
  { unfold floor_log2. simpl. rewrite Z.sub_0_r.
    rewrite pow2_nonneg by exact Hl0.
    unfold Qle_bool, inject_Z. simpl. rewrite !Z.mul_1_r.
    apply Z.leb_le in Hlo. rewrite Hlo. reflexivity. }
  rewrite Hfl.
  set (e := Z.max (Z.log2 (Z.abs z) - 52) (-1074)).
  assert (He : e <= 0) by (unfold e; lia).
  destruct (scaled_back z e He) as [Hdiv Hmul].
  rewrite (round_half_even_Z _ _ Hdiv).
  rewrite (Qred_complete _ _ Hmul), Qred_inject_Z.
  assert (Hov : Qle_bool (pow2 1024) (Qabs (inject_Z z)) = false).
  { apply not_true_iff_false. intros H. apply Qle_bool_iff in H.
    rewrite pow2_nonneg in H by lia.
    unfold Qle, inject_Z in H. simpl in H. rewrite !Z.mul_1_r in H.
    assert (2 ^ 53 < 2 ^ 1024) by (apply Z.pow_lt_mono_r; lia). lia. }
  rewrite Hov. reflexivity.
Qed.

Lemma add_whole (x y : Z) :
  Z.abs (x + y) <= 2 ^ 53 -> add (whole x) (whole y) = whole (x + y).
Proof.
  intros H. unfold add, whole.
  rewrite (round_comp _ (inject_Z (x + y)))
    by (rewrite inject_Z_plus; reflexivity).
  apply round_whole, H.
Qed.

Lemma mul_whole (x y : Z) :
  Z.abs (x * y) <= 2 ^ 53 -> mul (whole x) (whole y) = whole (x * y).
Proof.
  intros H. unfold mul, whole.
  rewrite (round_comp _ (inject_Z (x * y)))
    by (rewrite inject_Z_mult; reflexivity).
  apply round_whole, H.
Qed.

Lemma leb_whole (x y : Z) : leb (whole x) (whole y) = (x <=? y).
Proof.
  unfold leb, whole, Qle_bool, inject_Z. simpl. rewrite !Z.mul_1_r.
  reflexivity.
Qed.

Lemma ltb_whole (x y : Z) : ltb (whole x) (whole y) = (x <? y).
Proof.
  unfold ltb. change (negb (leb (whole y) (whole x)) = (x <? y)).
  rewrite leb_whole. rewrite Z.ltb_antisym. reflexivity.
Qed.

Lemma or_zero_whole (z : Z) : or_zero (whole z) = whole z.
Proof.
  unfold or_zero, whole.
  destruct (Qeq_bool (inject_Z z) 0) eqn:E; [| reflexivity].
  apply Qeq_bool_eq in E. unfold Qeq, inject_Z in E. simpl in E.
  assert (z = 0) as -> by lia. reflexivity.
Qed.

End Binary64Exact.

(** Rounding at work: 0.1 + 0.2 is the double above 0.3, and 2^53 + 1 is
    2^53. *)
Example round_examples :
  Binary64.add (Binary64.round (1 # 10)) (Binary64.round (2 # 10))
  = Binary64.Finite (1351079888211149 # 4503599627370496)
  /\ Binary64.round (3 # 10)
     = Binary64.Finite (5404319552844595 # 18014398509481984)
  /\ Binary64.add (Binary64.whole (2 ^ 53)) (Binary64.whole 1)
     = Binary64.whole (2 ^ 53).
Proof. repeat split; vm_compute; reflexivity. Qed.

Section RepeatedAdds64.

Import Binary64 CartModel64 CartController64.

Lemma addToCart_all_cons64 call rest carts :
  addToCart_all (call :: rest) carts
  = (fst (addToCart (call_products call) (call_fault call) (call_request call)
            carts)
       :: fst (addToCart_all rest
                 (snd (addToCart (call_products call) (call_fault call)
                         (call_request call) carts))),
     snd (addToCart_all rest
            (snd (addToCart (call_products call) (call_fault call)
                    (call_request call) carts)))).
Proof.
  simpl.
  destruct (addToCart (call_products call) (call_fault call)
              (call_request call) carts) as [res carts'].
  simpl. destruct (addToCart_all rest carts') as [ress carts'']. reflexivity.
Qed.

(** A 200 answer of [addToCart]: the request passed the guards, the cart
    the handler prepared passed validation, and it is what the collection
    now holds for the user. *)
Lemma addToCart_200 uid pid products fault req carts :
  request_of uid pid req ->
  status (fst (addToCart products fault req carts)) = 200 ->
  exists prod pp c',
    products !! pid = Some prod
    /\ ProductModel64.price prod = Some pp
    /\ leb (requested_quantity req) (whole 0) = false
    /\ build pid (requested_quantity req) pp (carts !! uid) = inl c'
    /\ snd (addToCart products fault req carts) = <[uid := c']> carts.
Proof.
  intros (u & Hu & Hid & Hpid) Hok.
  unfold addToCart in Hok |- *. rewrite Hu, Hpid in Hok |- *.
  fold (requested_quantity req) in Hok |- *.
  destruct (isNaN (requested_quantity req)); [discriminate Hok |].
  destruct (leb (requested_quantity req) (whole 0)) eqn:Hq;
    [discriminate Hok |].
  simpl orb in Hok |- *. cbv iota in Hok |- *.
  destruct (match CartController.role u with
            | Some r => negb (r =? "")%string && negb (r =? "buyer")%string
            | None => false
            end); [discriminate Hok |].
  unfold addToCart_try in Hok |- *. rewrite Hid in Hok |- *.
  destruct (is_fault fault FindProductThrows); [discriminate Hok |].
  destruct (products !! pid) as [prod |] eqn:Hprod; [| discriminate Hok].
  destruct (ProductModel64.price prod) as [pp |] eqn:Hpp; [| discriminate Hok].
  destruct pp as [| s | q]; [discriminate Hok | |];
    (destruct (is_fault fault FindCartThrows); [discriminate Hok |];
     match type of Hok with
     | context [build ?a ?b ?c ?d] =>
         destruct (build a b c d) as [c' | e] eqn:Hb;
           [| destruct e; discriminate Hok]
     end;
     destruct (validateSync c'); [discriminate Hok |];
     destruct (is_fault fault SaveThrows); [discriminate Hok |];
     destruct (is_fault fault PopulateThrows); [discriminate Hok |];
     eexists prod, _, c';
     do 4 (split; [first [reflexivity | eassumption] |]); reflexivity).
Qed.

Lemma ok_positive uid pid products fault req carts q :
  request_of uid pid req ->
  status (fst (addToCart products fault req carts)) = 200 ->
  requested_quantity req = whole q ->
  0 < q.
Proof.
  intros Hreq Hok Hq.
  destruct (addToCart_200 uid pid products fault req carts Hreq Hok)
    as (_ & _ & _ & _ & _ & Hpos & _).
  rewrite Hq, leb_whole in Hpos. apply Z.leb_gt in Hpos. exact Hpos.
Qed.

Lemma all_positive uid pid (calls : list Call) : forall carts (qs : list Z),
  Forall (fun call => request_of uid pid (call_request call)) calls ->
  Forall (fun res => status res = 200) (fst (addToCart_all calls carts)) ->
  map (fun call => requested_quantity (call_request call)) calls
  = map whole qs ->
  Forall (fun q => 0 < q) qs.
Proof.
  induction calls as [| call rest IH]; intros carts qs Hreq Hok Hqs.
  - destruct qs; [constructor | discriminate Hqs].
  - destruct qs as [| q qs]; [discriminate Hqs |].
    simpl in Hqs. injection Hqs as Hq Hqs.
    rewrite addToCart_all_cons64 in Hok. simpl in Hok.
    apply Forall_cons in Hreq as [Hreq1 Hreq].
    apply Forall_cons in Hok as [Hok1 Hok].
    apply Forall_cons. split.
    + eapply ok_positive; eauto.
    + eapply IH; eauto.
Qed.

Lemma sum_nonneg (qs : list Z) :
  Forall (fun q => 0 < q) qs -> 0 <= foldr Z.add 0 qs.
Proof.
  induction 1 as [| q qs Hq _ IH]; simpl; lia.
Qed.

(** The cart prepared for a user without lines. *)
Lemma build_first pid (q p : Z) found c' :
  found = None \/ (exists c0, found = Some c0 /\ items c0 = []) ->
  0 < q -> p * q <= 2 ^ 53 ->
  build pid (whole q) (whole p) found = inl c' ->
  0 <= p
  /\ items c' = [mkCartItem pid (whole q) (whole p)]
  /\ subTotal c' = whole (p * q).
Proof.
  intros Hfound Hq Hb Hbuild.
  assert (Hp : ltb (whole p) (whole 0) = false -> 0 <= p).
  { rewrite ltb_whole. intros H. apply Z.ltb_ge in H. exact H. }
  assert (Hsub : 0 <= p ->
          add (whole 0) (mul (whole p) (whole q)) = whole (p * q)).
  { intros Hp0. rewrite mul_whole by nia. rewrite add_whole by (simpl; nia).
    reflexivity. }
  destruct Hfound as [-> | (c0 & -> & Hits)]; unfold build in Hbuild.
  - cbn [price quantity] in Hbuild.
    destruct (ltb (whole p) (whole 0)) eqn:Hlt; [discriminate Hbuild |].
    destruct (leb (whole q) (whole 0)); [discriminate Hbuild |].
    injection Hbuild as <-. specialize (Hp eq_refl).
    split; [exact Hp |]. split; [reflexivity |].
    unfold with_totals, calculateTotals.
    cbn [subTotal totals_subTotal fold_left pq_price pq_quantity price quantity].
    apply Hsub, Hp.
  - rewrite Hits in Hbuild.
    cbn [list_find price quantity app] in Hbuild.
    destruct (ltb (whole p) (whole 0)) eqn:Hlt; [discriminate Hbuild |].
    injection Hbuild as <-. specialize (Hp eq_refl).
    split; [exact Hp |]. split; [reflexivity |].
    unfold with_totals, calculateTotals.
    cbn [subTotal totals_subTotal fold_left map pq_price pq_quantity price
         quantity].
    rewrite !or_zero_whole. apply Hsub, Hp.
Qed.

(** The cart prepared when the user's only line is one of the product. *)
Lemma build_merge pid (q0 q p : Z) pp c0 c' :
  items c0 = [mkCartItem pid (whole q0) (whole p)] ->
  0 <= p -> 0 < q0 -> 0 < q -> q0 + q <= 2 ^ 53 -> p * (q0 + q) <= 2 ^ 53 ->
  build pid (whole q) pp (Some c0) = inl c' ->
  items c' = [mkCartItem pid (whole (q0 + q)) (whole p)]
  /\ subTotal c' = whole (p * (q0 + q)).
Proof.
  intros Hits Hp Hq0 Hq Hsum Hprod Hbuild.
  unfold build in Hbuild. rewrite Hits in Hbuild.
  cbn [list_find] in Hbuild. unfold is_product in Hbuild.
  cbn [product] in Hbuild. rewrite N.eqb_refl in Hbuild.
  destruct (decide (true = true)) as [_ | Hn]; [| congruence].
  cbn [list_insert quantity] in Hbuild.
  change (<[0%nat := ?x]> [?y]) with [x] in Hbuild.
  injection Hbuild as <-.
  unfold set_quantity, with_totals.
  cbn [items subTotal product quantity price].
  rewrite add_whole by lia. split; [reflexivity |].
  unfold calculateTotals.
  cbn [totals_subTotal fold_left map pq_price pq_quantity price quantity].
  rewrite !or_zero_whole. rewrite mul_whole by nia.
  rewrite add_whole by (simpl; nia). reflexivity.
Qed.

Lemma addToCart_all_merges64 uid pid (calls : list Call) :
  forall carts c0 (q0 p : Z) (qs : list Z),
  carts !! uid = Some c0 ->
  items c0 = [mkCartItem pid (whole q0) (whole p)] ->
  subTotal c0 = whole (p * q0) ->
  0 <= p -> 0 < q0 ->
  Forall (fun call => request_of uid pid (call_request call)) calls ->
  Forall (fun res => status res = 200) (fst (addToCart_all calls carts)) ->
  map (fun call => requested_quantity (call_request call)) calls
  = map whole qs ->
  Forall (fun q => 0 < q) qs ->
  q0 + foldr Z.add 0 qs <= 2 ^ 53 ->
  p * (q0 + foldr Z.add 0 qs) <= 2 ^ 53 ->
  exists c,
    snd (addToCart_all calls carts) !! uid = Some c
    /\ items c = [mkCartItem pid (whole (q0 + foldr Z.add 0 qs)) (whole p)]
    /\ subTotal c = whole (p * (q0 + foldr Z.add 0 qs)).
Proof.
  induction calls as [| call rest IH];
    intros carts c0 q0 p qs Hc0 Hits Hsub Hp Hq0 Hreq Hok Hqs Hpos Hsum Hprod.
  - destruct qs; [| discriminate Hqs]. simpl. rewrite Z.add_0_r.
    exists c0. auto.
  - destruct qs as [| q qs]; [discriminate Hqs |].
    simpl in Hqs. injection Hqs as Hq Hqs.
    assert (Hq' : requested_quantity (call_request call) = whole q)
      by (unfold whole; f_equal; exact Hq).
    clear Hq.
    rewrite addToCart_all_cons64 in Hok |- *. simpl in Hok |- *.
    apply Forall_cons in Hreq as [Hreq1 Hreq].
    apply Forall_cons in Hok as [Hok1 Hok].
    apply Forall_cons in Hpos as [Hq Hpos].
    pose proof (sum_nonneg qs Hpos) as Hrest.
    simpl in Hsum, Hprod.
    destruct (addToCart_200 uid pid _ _ _ carts Hreq1 Hok1)
      as (prod & pp & c' & _ & _ & _ & Hbuild & Heq).
    rewrite Hc0, Hq' in Hbuild.
    destruct (build_merge pid q0 q p pp c0 c' Hits Hp Hq0 Hq) as [Hits' Hsub'];
      [lia | nia | exact Hbuild |].
    rewrite Heq in Hok |- *.
    destruct (IH (<[uid := c']> carts) c' (q0 + q) p qs
                (lookup_insert_eq carts uid c') Hits' Hsub' Hp ltac:(lia)
                Hreq Hok Hqs Hpos ltac:(lia) ltac:(nia))
      as (c & Hc & Hitsc & Hsubc).
    exists c. split; [exact Hc |].
    replace (q0 + (q + foldr Z.add 0 qs)) with (q0 + q + foldr Z.add 0 qs)
      by lia.
    auto.
Qed.

End RepeatedAdds64.

(** C2.  Start from a user without cart lines and let the user add the
    same product any number of times, every request answering 200, with
    whole-number quantities and a whole-number catalog price at the first
    add, the quantities summing to at most 2^53 and the price times that
    sum being at most 2^53.  Then the cart has exactly one line, for that
    product; its quantity is the sum of the quantities added (each of them
    positive), its price is the catalog price at the first add, whatever
    the catalog says later, and the subtotal is that price times the
    summed quantity. *)
Theorem repeated_adds_merge_exact uid pid call1 rest carts prod (p : Z)
    (qs : list Z) :
  CartController64.cart_lines carts uid = [] ->
  Forall (fun call =>
            CartController64.request_of uid pid
              (CartController64.call_request call)) (call1 :: rest) ->
  Forall (fun res => CartController64.status res = 200)
    (fst (CartController64.addToCart_all (call1 :: rest) carts)) ->
  CartController64.call_products call1 !! pid = Some prod ->
  ProductModel64.price prod = Some (Binary64.whole p) ->
  map (fun call =>
         CartController64.requested_quantity
           (CartController64.call_request call)) (call1 :: rest)
  = map Binary64.whole qs ->
  foldr Z.add 0 qs <= 2 ^ 53 ->
  p * foldr Z.add 0 qs <= 2 ^ 53 ->
  exists c,
    snd (CartController64.addToCart_all (call1 :: rest) carts) !! uid = Some c
    /\ Forall (fun q => 0 < q) qs
    /\ CartModel64.items c
       = [CartModel64.mkCartItem pid (Binary64.whole (foldr Z.add 0 qs))
            (Binary64.whole p)]
    /\ CartModel64.subTotal c = Binary64.whole (p * foldr Z.add 0 qs).
Proof.
  intros Hempty Hreq Hok Hprod Hprice Hqs Hsum Hbound.
  pose proof (all_positive uid pid _ carts qs Hreq Hok Hqs) as Hpos.
  destruct qs as [| q qs]; [discriminate Hqs |].
  simpl in Hqs. injection Hqs as Hq Hqs.
  assert (Hq' : CartController64.requested_quantity
                  (CartController64.call_request call1) = Binary64.whole q)
    by (unfold Binary64.whole; f_equal; exact Hq).
  clear Hq.
  rewrite addToCart_all_cons64 in Hok |- *. simpl in Hok |- *.
  apply Forall_cons in Hreq as [Hreq1 Hreq].
  apply Forall_cons in Hok as [Hok1 Hok].
  pose proof Hpos as Hpos'.
  apply Forall_cons in Hpos' as [Hq Hposr].
  pose proof (sum_nonneg qs Hposr) as Hrest.
  simpl in Hsum, Hbound.
  destruct (addToCart_200 uid pid _ _ _ carts Hreq1 Hok1)
    as (prod' & pp & c' & Hprod' & Hpp & _ & Hbuild & Heq).
  assert (prod' = prod) by congruence. subst prod'.
  assert (pp = Binary64.whole p) by congruence. subst pp.
  rewrite Hq' in Hbuild.
  assert (Hfound : carts !! uid = None
                   \/ exists c0, carts !! uid = Some c0
                                 /\ CartModel64.items c0 = []).
  { unfold CartController64.cart_lines in Hempty.
    destruct (carts !! uid) as [c0 |]; [right; eauto | left; reflexivity]. }
  assert (Hp0 : 0 <= p -> p * q <= 2 ^ 53) by (intros; nia).
  assert (Hp : 0 <= p).
  { destruct (Z_lt_le_dec p 0) as [Hneg | Hge]; [| exact Hge].
    destruct (build_first pid q p _ c' Hfound Hq ltac:(nia) Hbuild)
      as [H _]. exact H. }
  destruct (build_first pid q p _ c' Hfound Hq (Hp0 Hp) Hbuild)
    as (_ & Hits' & Hsub').
  rewrite Heq in Hok |- *.
  destruct (addToCart_all_merges64 uid pid rest (<[uid := c']> carts) c' q p qs
              (lookup_insert_eq carts uid c') Hits' Hsub' Hp Hq Hreq Hok Hqs
              Hposr ltac:(lia) ltac:(nia))
    as (c & Hc & Hitsc & Hsubc).
  exists c. split; [exact Hc |]. split; [exact Hpos |].
  simpl. auto.
Qed.

Lemma repeated_adds_merge_exact_witness :
  exists c,
    snd (CartController64.addToCart_all Scenario.two_then_three ∅) !! 1%N
    = Some c
    /\ Forall (fun q => 0 < q) [2; 3]
    /\ CartModel64.items c
       = [CartModel64.mkCartItem 7 (Binary64.whole (foldr Z.add 0 [2; 3]))
            (Binary64.whole 1000)]
    /\ CartModel64.subTotal c
       = Binary64.whole (1000 * foldr Z.add 0 [2; 3]).
Proof.
  apply (repeated_adds_merge_exact 1%N 7%N
           (CartController64.mkCall Scenario.catalog64 CartController64.NoFault
              (Scenario.add_chair64 (Binary64.whole 2)))
           [CartController64.mkCall Scenario.catalog64_repriced
              CartController64.NoFault
              (Scenario.add_chair64 (Binary64.whole 3))]
           ∅ (ProductModel64.mkProduct "Oak chair" (Some (Binary64.whole 1000)))
           1000 [2; 3]).
  - reflexivity.
  - repeat constructor; exists Scenario.buyer; repeat split; reflexivity.
  - vm_compute. repeat constructor.
  - vm_compute. reflexivity.
  - reflexivity.
  - reflexivity.
  - apply Z.leb_le. vm_compute. reflexivity.
  - apply Z.leb_le. vm_compute. reflexivity.
Defined.

(** The scenario of the specification: a product priced 1000 added twice,
    2 then 3 (the second time after a reprice to 1200), gives one line of
    quantity 5 at price 1000 and a subtotal of 5000. *)
Example two_then_three_cart :
  snd (CartController64.addToCart_all Scenario.two_then_three ∅) !! 1%N
  = Some (CartModel64.mkCart
            [CartModel64.mkCartItem 7 (Binary64.whole 5) (Binary64.whole 1000)]
            (Binary64.whole 5000) (Binary64.whole 1500) (Binary64.whole 6500)).
Proof. vm_compute. reflexivity. Qed.

(** C2 as claimed fails beyond 2^53: after adds of 2^53 chairs and of 1
    chair, both answered 200, the line holds 2^53 chairs and the subtotal
    is 1000 * 2^53, whereas the sum of the quantities added is 2^53 + 1.
    The second add was absorbed by the rounding of [item.quantity + qty]. *)
Lemma repeated_adds_round_above_2_53 :
  Forall (fun res => CartController64.status res = 200)
    (fst (CartController64.addToCart_all Scenario.big_then_one ∅))
  /\ map (fun call =>
            CartController64.requested_quantity
              (CartController64.call_request call)) Scenario.big_then_one
     = map Binary64.whole [2 ^ 53; 1]
  /\ (exists c,
        snd (CartController64.addToCart_all Scenario.big_then_one ∅) !! 1%N
        = Some c
        /\ CartModel64.items c
           = [CartModel64.mkCartItem 7 (Binary64.whole (2 ^ 53))
                (Binary64.whole 1000)]
        /\ CartModel64.subTotal c = Binary64.whole (1000 * 2 ^ 53))
  /\ ~ (exists c,
          snd (CartController64.addToCart_all Scenario.big_then_one ∅) !! 1%N
          = Some c
          /\ CartModel64.items c
             = [CartModel64.mkCartItem 7
                  (Binary64.whole (foldr Z.add 0 [2 ^ 53; 1]))
                  (Binary64.whole 1000)]).
Proof.
  assert (Hc : snd (CartController64.addToCart_all Scenario.big_then_one ∅)
               !! 1%N
               = Some (CartModel64.mkCart
                         [CartModel64.mkCartItem 7 (Binary64.whole (2 ^ 53))
                            (Binary64.whole 1000)]
                         (Binary64.whole (1000 * 2 ^ 53)) (Binary64.whole 0)
                         (Binary64.whole (1000 * 2 ^ 53))))
    by (vm_compute; reflexivity).
  split; [vm_compute; repeat constructor |].
  split; [reflexivity |].
  split.
  - eexists. split; [exact Hc |]. split; reflexivity.
  - intros (c & Hc' & Hits). rewrite Hc in Hc'. injection Hc' as <-.
    vm_compute in Hits. discriminate Hits.
Qed.
(** X2.  What a refused [addToCart] leaves behind.  A request that is not
    answered 200 leaves the cart collection as it was, with one exception:
    when populating the saved cart throws, the answer is 500 although the
    cart was saved, exactly as it is saved for the 200 answer the same
    request gets when nothing throws. *)
Theorem addToCart_refusal_and_store products fault req carts :
  CartController64.status
    (fst (CartController64.addToCart products fault req carts)) <> 200 ->
  snd (CartController64.addToCart products fault req carts) = carts
  \/ (fault = CartController64.PopulateThrows
      /\ CartController64.status
           (fst (CartController64.addToCart products fault req carts)) = 500
      /\ CartController64.status
           (fst (CartController64.addToCart products CartController64.NoFault
                   req carts)) = 200
      /\ snd (CartController64.addToCart products fault req carts)
         = snd (CartController64.addToCart products CartController64.NoFault
                  req carts)).
Proof.
  unfold CartController64.addToCart, CartController64.addToCart_try.
  destruct (CartController64.req_user req) as [u |]; [| left; reflexivity].
  destruct (CartController64.req_body_productId req) as [productId |];
    [| left; reflexivity].
  cbv zeta.
  destruct (Binary64.isNaN _ || Binary64.leb _ _); [left; reflexivity |].
  destruct (match CartController.role u with
            | Some r => negb (r =? "")%string && negb (r =? "buyer")%string
            | None => false
            end); [left; reflexivity |].
  destruct productId as [| pid]; [left; reflexivity |].
  destruct (products !! pid) as [prod |];
    [| destruct fault; left; reflexivity].
  destruct (ProductModel64.price prod) as [[| s | q] |];
    try (destruct fault; left; reflexivity);
    (destruct (CartController.id u) as [| uid];
       [destruct fault; left; reflexivity |];
     match goal with
     | |- context [CartController64.build ?a ?b ?c ?d] =>
         destruct (CartController64.build a b c d) as [c' | e]
     end;
     [| destruct fault; left; reflexivity];
     destruct (CartModel64.validateSync c');
       [destruct fault; left; reflexivity |];
     destruct fault; simpl; intros Hne;
       first [left; reflexivity | contradiction | right; auto]).
Qed.

Lemma addToCart_refusal_and_store_witness :
  snd (CartController64.addToCart Scenario.catalog64
         CartController64.PopulateThrows
         (Scenario.add_chair64 (Binary64.whole 2)) ∅) = ∅
  \/ (CartController64.PopulateThrows = CartController64.PopulateThrows
      /\ CartController64.status
           (fst (CartController64.addToCart Scenario.catalog64
                   CartController64.PopulateThrows
                   (Scenario.add_chair64 (Binary64.whole 2)) ∅)) = 500
      /\ CartController64.status
           (fst (CartController64.addToCart Scenario.catalog64
                   CartController64.NoFault
                   (Scenario.add_chair64 (Binary64.whole 2)) ∅)) = 200
      /\ snd (CartController64.addToCart Scenario.catalog64
                CartController64.PopulateThrows
                (Scenario.add_chair64 (Binary64.whole 2)) ∅)
         = snd (CartController64.addToCart Scenario.catalog64
                  CartController64.NoFault
                  (Scenario.add_chair64 (Binary64.whole 2)) ∅)).
Proof.
  apply (addToCart_refusal_and_store Scenario.catalog64
           CartController64.PopulateThrows
           (Scenario.add_chair64 (Binary64.whole 2)) ∅).
  vm_compute. discriminate.
Defined.

(** The exception really occurs: with populate throwing, the add of two
    chairs to an empty database answers 500 and the cart is stored. *)
Example populate_failure_keeps_the_write :
  CartController64.status
    (fst (CartController64.addToCart Scenario.catalog64
            CartController64.PopulateThrows
            (Scenario.add_chair64 (Binary64.whole 2)) ∅)) = 500
  /\ snd (CartController64.addToCart Scenario.catalog64
            CartController64.PopulateThrows
            (Scenario.add_chair64 (Binary64.whole 2)) ∅) !! 1%N
     = Some (CartModel64.mkCart
               [CartModel64.mkCartItem 7 (Binary64.whole 2)
                  (Binary64.whole 1000)]
               (Binary64.whole 2000) (Binary64.whole 1500)
               (Binary64.whole 3500)).
Proof. split; vm_compute; reflexivity. Qed.

(** ** The optimistic client store *)

(** C8.  When the server request of an optimistic [addItem] fails, the
    failure handler puts back the item list the store held before the
    mutation, whatever the store holds at that moment: the list is equal to
    the earlier one (hence of the same length, with the same products and
    quantities).  This holds when nothing touched the store in between, and
    also for any state [mid] left by other store operations meanwhile.  The
    failure reason is recorded and the error is thrown on. *)
Theorem addItem_failure_restores product_ qty message_ state :
  CartStore.items
    (fst (CartStore.addItem product_ qty (CartStore.Rejected message_) state))
  = CartStore.items state
  /\ CartStore.error
       (fst (CartStore.addItem product_ qty (CartStore.Rejected message_) state))
     = Some (CartStore.or_string message_ "Failed to add to cart")
  /\ snd (CartStore.addItem product_ qty (CartStore.Rejected message_) state)
     = true
  /\ forall mid,
       CartStore.items
         (fst (CartStore.addItem_resume
                 (snd (CartStore.addItem_begin product_ qty state))
                 (CartStore.Rejected message_) mid))
       = CartStore.items state.
Proof.
  unfold CartStore.addItem, CartStore.addItem_begin, CartStore.addItem_resume.
  simpl. auto.
Qed.

(** The optimistic state really differs before the failure arrives: a
    second chair shows in the store, and the rejection takes it back. *)
Example addItem_rollback_chair :
  CartStore.items
    (fst (CartStore.addItem_begin Scenario.chair (Some 1)
            Scenario.store_one_chair))
  = [CartStore.mkCartItem Scenario.chair 2]
  /\ CartStore.items
       (fst (CartStore.addItem Scenario.chair (Some 1)
               (CartStore.Rejected (Some "Network Error"%string))
               Scenario.store_one_chair))
     = [CartStore.mkCartItem Scenario.chair 1].
Proof. split; vm_compute; reflexivity. Qed.

(** * Further properties of the cart routes *)

Section Isolation.

Import CartModel CartController.

Lemma removeItem_other_user req carts (uid' : N) :
  (forall u, req_user req = Some u -> id u <> WellFormed uid') ->
  snd (removeItem req carts) !! uid' = carts !! uid'.
Proof.
  intros Hother. unfold removeItem.
  destruct (req_user req) as [u |]; [| reflexivity].
  specialize (Hother u eq_refl).
  destruct (req_params_id req) as [productId |]; [| reflexivity].
  destruct (id u) as [| uid]; [reflexivity |].
  destruct productId as [| pid]; [reflexivity |].
  destruct (carts !! uid) as [stored |]; [| reflexivity].
  assert (uid <> uid') by congruence.
  unfold save. destruct (validateSync _); simpl.
  - rewrite lookup_insert_ne by assumption. reflexivity.
  - rewrite !lookup_insert_ne by assumption. reflexivity.
Qed.

Lemma stored_ok_other_user out carts msg uid c' (uid' : N) :
  stored_ok out carts msg uid c' -> uid <> uid' ->
  snd out !! uid' = carts !! uid'.
Proof.
  intros (-> & _) Hne. simpl. apply lookup_insert_ne, Hne.
Qed.

End Isolation.

(** X1.  A cart mutation touches the cart of the requesting user only: the
    cart stored for any other user is the same after the request as
    before, whatever the request and whatever its outcome. *)
Theorem mutation_leaves_other_users op req (carts : gmap N CartModel.Cart)
    (other : N) :
  (forall u, CartController.req_user req = Some u ->
             CartController.id u <> CartController.WellFormed other) ->
  snd (CartController.mutate op req carts) !! other = carts !! other.
Proof.
  intros Hother. destruct op as [products | |]; simpl.
  - destruct (addToCart_cases products req carts)
      as [[-> _] | (u & uid & pid & prod & pp & c & Hu & Hid & _ & _ & _ & _
                    & _ & Hok)]; [reflexivity |].
    apply (stored_ok_other_user _ _ _ _ _ _ Hok).
    intros ->. exact (Hother u Hu Hid).
  - destruct (updateCart_cases req carts)
      as [[-> _] | (u & uid & c & Hu & Hid & Hok)]; [reflexivity |].
    apply (stored_ok_other_user _ _ _ _ _ _ Hok).
    intros ->. exact (Hother u Hu Hid).
  - apply removeItem_other_user, Hother.
Qed.

Lemma mutation_leaves_other_users_witness :
  snd (CartController.mutate CartController.RemoveItem
         (Scenario.remove_product 7) Scenario.two_chairs) !! 2%N
  = Scenario.two_chairs !! 2%N.
Proof.
  apply (mutation_leaves_other_users CartController.RemoveItem
           (Scenario.remove_product 7) Scenario.two_chairs 2%N).
  intros u Hu Hid. injection Hu as <-. discriminate Hid.
Defined.

Lemma addToCart_failed_unchanged products req carts :
  CartController.status (fst (CartController.addToCart products req carts))
  <> 200 ->
  snd (CartController.addToCart products req carts) = carts.
Proof.
  intros Hfail.
  destruct (addToCart_cases products req carts)
    as [[Hsame _] | (u & uid & pid & prod & pp & c & _ & _ & _ & _ & _ & _
                     & _ & Heq & _)]; [exact Hsame |].
  rewrite Heq in Hfail. simpl in Hfail. congruence.
Qed.

Lemma updateCart_failed_unchanged req carts :
  CartController.status (fst (CartController.updateCart req carts)) <> 200 ->
  snd (CartController.updateCart req carts) = carts.
Proof.
  intros Hfail.
  destruct (updateCart_cases req carts)
    as [[Hsame _] | (u & uid & c & _ & _ & Heq & _)]; [exact Hsame |].
  rewrite Heq in Hfail. simpl in Hfail. congruence.
Qed.

Lemma removeItem_failed_unchanged req carts :
  CartController.Reachable carts ->
  CartController.status (fst (CartController.removeItem req carts)) <> 200 ->
  snd (CartController.removeItem req carts) = carts.
Proof.
  intros Hreach Hfail.
  destruct (removeItem_cases req carts)
    as [[_ [Hsame | (uid & pid & stored & Hst & Hbad)]]
       | (u & uid & pid & c & _ & _ & _ & _ & Heq & _)].
  - exact Hsame.
  - exfalso.
    destruct (reachable_carts_ok carts Hreach uid stored Hst) as [_ Hschema].
    unfold CartModel.schema_ok in Hschema.
    apply andb_prop in Hschema as [Hschema _].
    apply andb_prop in Hschema as [Hschema _].
    apply andb_prop in Hschema as [Hits _].
    rewrite (recomputed_schema_ok _ (pull_item_ok pid _ Hits)) in Hbad.
    discriminate Hbad.
  - rewrite Heq in Hfail. simpl in Hfail. congruence.
Qed.

(** ** Lines of a cart *)

Section Lines.

Import CartModel CartController CartFacts.

(** Case analysis on the search for the first line of a product. *)
Lemma find_line_ind pid
    (Q : list CartItem -> option (nat * CartItem) -> Prop) :
  Q [] None ->
  (forall it its, is_product pid it = true -> Q (it :: its) (Some (0%nat, it))) ->
  (forall it its r,
      is_product pid it = false -> Q its r ->
      Q (it :: its) (prod_map S (fun x => x) <$> r)) ->
  forall its, Q its (list_find (fun it => is_product pid it = true) its).
Proof.
  intros Hnil Hhit Hmiss. induction its as [| it its IH]; [exact Hnil |].
  cbn. destruct (decide (is_product pid it = true)) as [Hp | Hp].
  - apply Hhit, Hp.
  - apply not_true_is_false in Hp.
    destruct (list_find _ its) as [[i x] |]; cbn;
      exact (Hmiss it its _ Hp IH).
Qed.

Lemma line_sum_cons it its :
  line_sum (it :: its) = price it * quantity it + line_sum its.
Proof. rewrite !line_sum_spec. reflexivity. Qed.

Lemma line_sum_app its its' :
  line_sum (its ++ its') = line_sum its + line_sum its'.
Proof.
  induction its as [| it its IH]; [reflexivity |].
  simpl. rewrite !line_sum_cons, IH. lia.
Qed.

(** What the search finds, and what changing the quantity of the line found
    does to the cart. *)
Lemma found_line pid its i item q :
  list_find (fun it => is_product pid it = true) its = Some (i, item) ->
  product item = pid
  /\ In item its
  /\ List.find (is_product pid) its = Some item
  /\ map product (<[i := set_quantity item q]> its) = map product its
  /\ map price (<[i := set_quantity item q]> its) = map price its
  /\ List.find (is_product pid) (<[i := set_quantity item q]> its)
     = Some (set_quantity item q)
  /\ other_lines pid (<[i := set_quantity item q]> its) = other_lines pid its
  /\ line_sum (<[i := set_quantity item q]> its)
     = line_sum its + price item * (q - quantity item)
  /\ (forall P : CartItem -> Prop,
        Forall P its -> P (set_quantity item q) ->
        Forall P (<[i := set_quantity item q]> its)).
Proof.
  revert i item.
  pattern its, (list_find (fun it => is_product pid it = true) its).
  apply find_line_ind; clear its.
  - discriminate.
  - intros it its Hp i item [= <- <-].
    assert (Hq : is_product pid (set_quantity it q) = true) by exact Hp.
    unfold other_lines.
    change (<[0%nat := set_quantity it q]> (it :: its))
      with (set_quantity it q :: its).
    cbn [List.find List.filter map].
    rewrite Hp, Hq. cbn [negb].
    repeat split; try reflexivity.
    + unfold is_product in Hp. apply N.eqb_eq in Hp. exact Hp.
    + left. reflexivity.
    + rewrite !line_sum_cons. simpl. lia.
    + intros P HP Hnew. apply Forall_cons in HP as [_ HP].
      apply Forall_cons. split; assumption.
  - intros it its r Hp IH i item Hr.
    destruct r as [[j x] |]; [| discriminate].
    injection Hr as <- <-.
    destruct (IH j x eq_refl)
      as (Hprod & Hin & Hfind & Hmp & Hmpr & Hfind' & Hoth & Hsum & Hall).
    unfold other_lines in *.
    change (<[S j := set_quantity x q]> (it :: its))
      with (it :: <[j := set_quantity x q]> its).
    cbn [List.find List.filter map]. rewrite Hp. cbn [negb].
    rewrite Hmp, Hmpr, Hfind, Hfind', Hoth.
    repeat split; try reflexivity; try assumption.
    + right. exact Hin.
    + rewrite !line_sum_cons, Hsum. lia.
    + intros P HP Hnew. apply Forall_cons in HP as [Hit HP].
      apply Forall_cons. split; [exact Hit | apply Hall; assumption].
Qed.

(** When the search finds nothing the product has no line. *)
Lemma no_line pid its :
  list_find (fun it => is_product pid it = true) its = None ->
  ~ In pid (map product its)
  /\ List.find (is_product pid) its = None
  /\ other_lines pid its = its
  /\ existsb (is_product pid) its = false.
Proof.
  pattern its, (list_find (fun it => is_product pid it = true) its).
  apply find_line_ind; clear its.
  - intros _. repeat split; auto.
  - discriminate.
  - intros it its r Hp IH Hr.
    destruct r as [[j x] |]; [discriminate |].
    destruct (IH eq_refl) as (Hin & Hfind & Hoth & Hex).
    unfold other_lines in *. cbn [List.find List.filter map existsb].
    rewrite Hp, Hfind, Hoth, Hex. cbn [negb].
    repeat split; try reflexivity.
    intros [Heq | Hin']; [| exact (Hin Hin')].
    unfold is_product in Hp. apply N.eqb_neq in Hp. exact (Hp Heq).
Qed.

Lemma find_app_new pid its it :
  List.find (is_product pid) its = None ->
  is_product pid it = true ->
  List.find (is_product pid) (its ++ [it]) = Some it
  /\ other_lines pid (its ++ [it]) = its.
Proof.
  intros Hnone Hp. unfold other_lines.
  induction its as [| x its IH]; simpl in *.
  - rewrite Hp. auto.
  - destruct (is_product pid x) eqn:Hx; [discriminate |]. simpl.
    destruct (IH Hnone) as [-> ->]. auto.
Qed.

Lemma schema_ok_lines_valid c :
  schema_ok c = true <->
  lines_valid (items c)
  /\ 0 <= subTotal c /\ 0 <= shipping c /\ 0 <= total c.
Proof.
  unfold schema_ok, lines_valid, item_ok.
  rewrite !andb_true_iff, !Z.leb_le, forallb_forall, List.Forall_forall.
  split.
  - intros [[[H ?] ?] ?]. repeat split; try assumption.
    + specialize (H x H3). apply andb_true_iff in H as [H _].
      apply Z.leb_le, H.
    + specialize (H x H3). apply andb_true_iff in H as [_ H].
      apply Z.leb_le, H.
  - intros (H & ? & ? & ?). repeat split; try assumption.
    intros x Hx. destruct (H x Hx) as [Hq Hp].
    apply andb_true_iff. split; apply Z.leb_le; assumption.
Qed.

End Lines.

(** ** What a successful mutation does to the lines *)

Section Effects.

Import CartModel CartController CartFacts.

Lemma updateCart_detail req carts :
  status (fst (updateCart req carts)) = 200 ->
  exists u uid pid stored i item q c',
    req_user req = Some u /\ id u = WellFormed uid
    /\ req_params_id req = Some (WellFormed pid)
    /\ req_body_quantity req = Some (Num q)
    /\ carts !! uid = Some stored
    /\ list_find (fun it => is_product pid it = true) (items stored)
       = Some (i, item)
    /\ items c' = <[i := set_quantity item q]> (items stored)
    /\ stored_ok (updateCart req carts) carts "" uid c'.
Proof.
  unfold updateCart.
  destruct (req_user req) as [u |]; [| simpl; discriminate].
  destruct (req_params_id req) as [productId |]; [| simpl; discriminate].
  destruct (id u) as [| uid] eqn:Hid; [simpl; discriminate |].
  destruct productId as [| pid]; [simpl; discriminate |].
  destruct (carts !! uid) as [stored |] eqn:Hst; [| simpl; discriminate].
  destruct (existsb (is_product pid) (items stored)); [| simpl; discriminate].
  destruct (list_find (fun it => is_product pid it = true) (items stored))
    as [[i item] |] eqn:Hfind; [| simpl; discriminate].
  destruct (req_body_quantity req) as [[| q] |]; simpl Number_;
    [simpl; discriminate | | simpl; discriminate].
  unfold save.
  match goal with
  | |- context [validateSync ?c] =>
      destruct (validateSync c) eqn:Hval; [simpl; discriminate |];
      intros _; exists u, uid, pid, stored, i, item, q, c
  end.
  unfold stored_ok. rewrite Hst.
  do 8 (split; [first [reflexivity | assumption] |]).
  split; [| apply validateSync_None, Hval].
  apply (calculateTotals_agree (fun it => mkPQ (price it) (quantity it))).
  intros it. simpl. auto.
Qed.

Lemma NoDup_products_app its it :
  NoDup (map product its) -> ~ In (product it) (map product its) ->
  NoDup (map product (its ++ [it])).
Proof.
  intros Hnd Hnew. rewrite map_app. simpl.
  apply NoDup_app. split; [exact Hnd |]. split.
  - intros x Hx Hx'. apply list_elem_of_In in Hx.
    apply list_elem_of_In in Hx'. destruct Hx' as [<- | []]. exact (Hnew Hx).
  - apply NoDup_singleton.
Qed.

Lemma NoDup_products_pull pid its :
  NoDup (map product its) -> NoDup (map product (pull pid its)).
Proof.
  unfold pull. induction its as [| it its IH]; simpl; [auto |].
  intros Hnd. apply NoDup_cons in Hnd as [Hnotin Hnd].
  destruct (negb (is_product pid it)); simpl; [| auto].
  apply NoDup_cons. split; [| auto].
  intros Hin. apply Hnotin.
  apply list_elem_of_In in Hin. apply list_elem_of_In.
  apply in_map_iff in Hin as (x & Hx & Hxin).
  apply in_map_iff. exists x. split; [exact Hx |].
  apply filter_In in Hxin as [Hxin _]. exact Hxin.
Qed.

Lemma add_line_NoDup pid qty pp its :
  NoDup (map product its) -> NoDup (map product (add_line pid qty pp its)).
Proof.
  intros Hnd. unfold add_line.
  destruct (list_find (fun it => is_product pid it = true) its)
    as [[i item] |] eqn:Hfind.
  - destruct (found_line pid its i item (quantity item + qty) Hfind)
      as (_ & _ & _ & -> & _). exact Hnd.
  - destruct (no_line pid its Hfind) as (Hnotin & _).
    apply NoDup_products_app; assumption.
Qed.

(** The lines of the carts of a reachable collection never list a product
    twice. *)
Lemma reachable_distinct carts :
  Reachable carts ->
  map_Forall (fun _ c => NoDup (map product (items c))) carts.
Proof.
  induction 1 as [| op req carts Hreach IH]; [apply map_Forall_empty |].
  destruct (Z.eq_dec (status (fst (mutate op req carts))) 200) as [Hok | Hfail].
  2: { destruct op as [products | |]; simpl in Hfail |- *.
       - rewrite (addToCart_failed_unchanged products req carts Hfail).
         exact IH.
       - rewrite (updateCart_failed_unchanged req carts Hfail). exact IH.
       - rewrite (removeItem_failed_unchanged req carts Hreach Hfail).
         exact IH. }
  destruct op as [products | |]; simpl in *.
  - destruct (addToCart_cases products req carts)
      as [[_ Hne] | (u & uid & pid & prod & pp & c & _ & _ & _ & _ & _ & _
                     & Hits & Heq & _)]; [contradiction |].
    rewrite Heq. simpl. apply map_Forall_insert_2; [| exact IH].
    rewrite Hits. apply add_line_NoDup.
    unfold cart_lines. destruct (carts !! uid) as [c0 |] eqn:Hc0.
    + exact (IH uid c0 Hc0).
    + apply NoDup_nil_2.
  - destruct (updateCart_detail req carts Hok)
      as (u & uid & pid & stored & i & item & q & c & _ & _ & _ & _ & Hst
          & Hfind & Hits & Heq & _).
    rewrite Heq. simpl. apply map_Forall_insert_2; [| exact IH].
    rewrite Hits.
    destruct (found_line pid (items stored) i item q Hfind)
      as (_ & _ & _ & -> & _).
    exact (IH uid stored Hst).
  - destruct (removeItem_cases req carts)
      as [[Hne _] | (u & uid & pid & c & _ & _ & _ & Hits & Heq & _)];
      [contradiction |].
    rewrite Heq. simpl. apply map_Forall_insert_2; [| exact IH].
    rewrite Hits. apply NoDup_products_pull.
    unfold cart_lines. destruct (carts !! uid) as [c0 |] eqn:Hc0.
    + exact (IH uid c0 Hc0).
    + apply NoDup_nil_2.
Qed.

End Effects.



Section Outcomes.

Import CartModel CartController CartFacts.

Lemma lines_valid_forallb its :
  forallb item_ok its = true <-> lines_valid its.
Proof.
  unfold lines_valid, item_ok.
  rewrite forallb_forall, List.Forall_forall.
  split; intros H x Hx; specialize (H x Hx).
  - apply andb_true_iff in H as [Hq Hp]. split; apply Z.leb_le; assumption.
  - destruct H as [Hq Hp]. apply andb_true_iff. split; apply Z.leb_le; assumption.
Qed.

Lemma reachable_lines_valid carts uid c :
  Reachable carts -> carts !! uid = Some c -> forallb item_ok (items c) = true.
Proof.
  intros Hreach Hc.
  destruct (reachable_carts_ok carts Hreach uid c Hc) as [_ Hok].
  apply schema_ok_lines_valid in Hok as (Hlines & _).
  apply lines_valid_forallb, Hlines.
Qed.

(** Validation passes for a cart whose totals were just computed from valid
    lines, whichever way the lines were read. *)
Lemma computed_schema_ok (g : CartItem -> PriceQuantity) its :
  (forall it, pq_price (g it) = price it /\ pq_quantity (g it) = quantity it) ->
  forallb item_ok its = true ->
  schema_ok (with_totals its (calculateTotals (map g its))) = true.
Proof.
  intros Hg Hits.
  unfold schema_ok, with_totals, calculateTotals. simpl.
  rewrite (fold_left_price_quantity g its 0 Hg).
  fold (line_sum its).
  pose proof (line_sum_nonneg its Hits).
  pose proof (calculateShipping_nonneg (line_sum its)).
  rewrite Hits.
  repeat (apply andb_true_intro; split); try reflexivity; apply Z.leb_le; lia.
Qed.

Lemma with_totals_explicit (g : CartItem -> PriceQuantity) its :
  (forall it, pq_price (g it) = price it /\ pq_quantity (g it) = quantity it) ->
  with_totals its (calculateTotals (map g its))
  = mkCart its (line_sum its) (calculateShipping (line_sum its))
      (line_sum its + calculateShipping (line_sum its)).
Proof.
  intros Hg. unfold with_totals, calculateTotals. simpl.
  rewrite (fold_left_price_quantity g its 0 Hg). reflexivity.
Qed.

Lemma find_existsb pid its :
  existsb (is_product pid) its = true
  <-> List.find (is_product pid) its <> None.
Proof.
  induction its as [| it its IH]; simpl.
  - split; [discriminate | congruence].
  - destruct (is_product pid it); simpl; [| exact IH].
    split; [discriminate | reflexivity].
Qed.

Lemma list_find_find pid its :
  List.find (is_product pid) its
  = snd <$> list_find (fun it => is_product pid it = true) its.
Proof.
  destruct (list_find (fun it => is_product pid it = true) its)
    as [[i item] |] eqn:Hfind.
  - destruct (found_line pid its i item 0 Hfind) as (_ & _ & -> & _).
    reflexivity.
  - destruct (no_line pid its Hfind) as (_ & -> & _). reflexivity.
Qed.


Lemma other_lines_absent pid its :
  ~ In pid (map product (other_lines pid its)).
Proof.
  unfold other_lines. intros Hin.
  apply in_map_iff in Hin as (x & Hx & Hxin).
  apply filter_In in Hxin as [_ Hneg].
  unfold is_product in Hneg. rewrite Hx, N.eqb_refl in Hneg. discriminate.
Qed.

End Outcomes.

Section Results.

Import CartModel CartController CartFacts.

Lemma set_line_absent pid q its :
  ~ In pid (map product its) -> set_line pid q its = its.
Proof.
  unfold set_line. induction its as [| it its IH]; [reflexivity |].
  intros H. cbn [map].
  destruct (is_product pid it) eqn:Hp.
  - exfalso. apply H. left. unfold is_product in Hp.
    apply N.eqb_eq in Hp. exact Hp.
  - rewrite IH; [reflexivity |]. intros Hin. apply H. right. exact Hin.
Qed.

Lemma insert_found_set_line pid q its i item :
  list_find (fun it => is_product pid it = true) its = Some (i, item) ->
  NoDup (map product its) ->
  <[i := set_quantity item q]> its = set_line pid q its.
Proof.
  revert i item.
  pattern its, (list_find (fun it => is_product pid it = true) its).
  apply find_line_ind; clear its.
  - discriminate.
  - intros it its Hp i item [= <- <-] Hnd.
    change (<[0%nat := set_quantity it q]> (it :: its))
      with (set_quantity it q :: its).
    unfold set_line. cbn [map]. rewrite Hp.
    simpl in Hnd. apply NoDup_cons in Hnd as [Hnotin _].
    unfold is_product in Hp. apply N.eqb_eq in Hp. rewrite Hp in Hnotin.
    fold (set_line pid q its). rewrite set_line_absent; [reflexivity |].
    intros Hin. apply Hnotin, list_elem_of_In, Hin.
  - intros it its r Hp IH i item Hr Hnd.
    destruct r as [[j x] |]; [| discriminate].
    injection Hr as <- <-.
    change (<[S j := set_quantity x q]> (it :: its))
      with (it :: <[j := set_quantity x q]> its).
    simpl in Hnd. apply NoDup_cons in Hnd as [_ Hnd].
    rewrite (IH j x eq_refl Hnd).
    unfold set_line. cbn [map]. rewrite Hp. reflexivity.
Qed.

End Results.

(** What [removeItem] computes for a user who has a cart. *)
Lemma removeItem_computed carts uid c pid role bodyId bodyQty :
  CartController.Reachable carts ->
  carts !! uid = Some c ->
  let rest := CartFacts.other_lines pid (CartModel.items c) in
  let s := CartController.line_sum rest in
  let c' :=
    CartModel.mkCart rest s (CartController.calculateShipping s)
      (s + CartController.calculateShipping s) in
  CartController.removeItem
    (CartController.mkRequest
       (Some (CartController.mkAuthUser (CartController.WellFormed uid) role))
       (Some (CartController.WellFormed pid)) bodyId bodyQty) carts
  = (CartController.mkResponse 200 (Some true) "" (Some (Some c')),
     <[uid := c']> carts).
Proof.
  intros Hreach Hc rest s c'.
  pose proof (reachable_lines_valid carts uid c Hreach Hc) as Hvalid.
  unfold CartController.removeItem. simpl. rewrite Hc.
  change (CartController.pull pid (CartModel.items c)) with rest.
  assert (Hg : forall it,
    CartController.pq_price
      (CartController.mkPQ (CartModel.price it) (CartModel.quantity it))
    = CartModel.price it
    /\ CartController.pq_quantity
         (CartController.mkPQ (CartModel.price it) (CartModel.quantity it))
       = CartModel.quantity it) by (intros it; simpl; auto).
  pose proof (computed_schema_ok _ rest Hg
                (pull_item_ok pid _ Hvalid)) as Hok.
  simpl CartModel.items.
  rewrite (with_totals_explicit _ rest Hg) in Hok |- *.
  unfold CartController.save, CartModel.validateSync.
  fold s in Hok |- *. fold c' in Hok |- *. rewrite Hok.
  rewrite insert_insert_eq. reflexivity.
Qed.



Section UpdateOutcomes.

Import CartModel CartController CartFacts.

Lemma price_of_found pid its unit :
  price_of pid its = Some unit ->
  exists i item,
    list_find (fun it => is_product pid it = true) its = Some (i, item)
    /\ price item = unit
    /\ existsb (is_product pid) its = true.
Proof.
  unfold price_of. intros H.
  assert (Hex : existsb (is_product pid) its = true).
  { apply find_existsb. destruct (List.find (is_product pid) its);
      [discriminate | discriminate H]. }
  rewrite list_find_find in H.
  destruct (list_find (fun it => is_product pid it = true) its)
    as [[i item] |]; [| discriminate H].
  simpl in H. injection H as H. exists i, item. auto.
Qed.

Lemma cart_lines_some carts uid pid unit :
  price_of pid (cart_lines carts uid) = Some unit ->
  exists c, carts !! uid = Some c /\ cart_lines carts uid = items c.
Proof.
  unfold cart_lines. destruct (carts !! uid) as [c |]; [eauto |].
  discriminate.
Qed.

End UpdateOutcomes.



(** X7.  [updateCart] refuses without writing: it answers 404 when the
    user's cart has no line for the product (or the user has no cart), and
    500 when the line exists but the quantity sent is missing, not a number
    or below 1, which the item schema rejects on save. *)
Theorem updateCart_refusals carts uid pid role bodyId qv :
  let req :=
    CartController.mkRequest
      (Some (CartController.mkAuthUser (CartController.WellFormed uid) role))
      (Some (CartController.WellFormed pid)) bodyId qv in
  (CartFacts.price_of pid (CartController.cart_lines carts uid) = None ->
   CartController.updateCart req carts
   = (CartController.mkResponse 404 None "Cart item not found" None, carts))
  /\ (CartFacts.price_of pid (CartController.cart_lines carts uid) <> None ->
      (forall q, qv = Some (CartController.Num q) -> q < 1) ->
      CartController.updateCart req carts
      = (CartController.mkResponse 500 None "Server Error" None, carts)).
Proof.
  intros req. split.
  - intros Hnone. unfold CartController.updateCart, req. simpl.
    unfold CartController.cart_lines in Hnone.
    destruct (carts !! uid) as [c |]; [| reflexivity].
    unfold CartFacts.price_of in Hnone.
    destruct (existsb (CartController.is_product pid) (CartModel.items c))
      eqn:Hex; [| reflexivity].
    apply find_existsb in Hex.
    destruct (List.find (CartController.is_product pid) (CartModel.items c));
      [discriminate Hnone | contradiction].
  - intros Hsome Hbad.
    destruct (CartFacts.price_of pid (CartController.cart_lines carts uid))
      as [unit |] eqn:Hunit; [clear Hsome | contradiction].
    destruct (cart_lines_some carts uid pid unit Hunit) as (c & Hc & Hlines).
    rewrite Hlines in Hunit.
    destruct (price_of_found pid _ unit Hunit) as (i & item & Hfind & _ & Hex).
    unfold CartController.updateCart, req. simpl. rewrite Hc, Hex, Hfind.
    destruct qv as [[| q] |]; simpl; try reflexivity.
    specialize (Hbad q eq_refl).
    unfold CartController.save, CartModel.validateSync.
    match goal with
    | |- context [CartModel.schema_ok ?x] =>
        destruct (CartModel.schema_ok x) eqn:Hok; [| reflexivity]
    end.
    exfalso.
    apply schema_ok_lines_valid in Hok as (Hlv & _). simpl in Hlv.
    destruct (found_line pid _ i item q Hfind)
      as (_ & _ & _ & _ & _ & Hfind' & _).
    apply find_some in Hfind' as [Hin _].
    unfold CartFacts.lines_valid in Hlv. rewrite List.Forall_forall in Hlv.
    destruct (Hlv _ Hin) as [Hq1 _]. simpl in Hq1. lia.
Qed.

Lemma updateCart_refusals_witness :
  CartController.updateCart
    (CartController.mkRequest (Some Scenario.buyer)
       (Some (CartController.WellFormed 9)) None
       (Some (CartController.Num 3))) Scenario.two_chairs
  = (CartController.mkResponse 404 None "Cart item not found" None,
     Scenario.two_chairs)
  /\ CartController.updateCart
       (CartController.mkRequest (Some Scenario.buyer)
          (Some (CartController.WellFormed 7)) None
          (Some (CartController.Num 0))) Scenario.two_chairs
     = (CartController.mkResponse 500 None "Server Error" None,
        Scenario.two_chairs).
Proof.
  split.
  - apply (proj1 (updateCart_refusals Scenario.two_chairs 1%N 9%N
                    (Some "buyer"%string) None
                    (Some (CartController.Num 3)))).
    vm_compute. reflexivity.
  - apply (proj2 (updateCart_refusals Scenario.two_chairs 1%N 7%N
                    (Some "buyer"%string) None
                    (Some (CartController.Num 0)))).
    + vm_compute. discriminate.
    + intros q Hq. injection Hq as <-. lia.
Defined.

(** X9.  The refusals of [addToCart], in the order the handler checks
    them; none of them writes.  No user: 401.  No product id: 400.  A
    quantity that is not a positive number: 400, whatever the role and the
    product.  A role other than "buyer": 403.  Then, for a well-formed
    product id: a product missing from the catalog: 400; a catalog price
    that is not a number: 400. *)
Theorem addToCart_refusals products (carts : gmap N CartModel.Cart) :
  (forall req,
      CartController.req_user req = None ->
      CartController.addToCart products req carts
      = (CartController.mkResponse 401 (Some false)
           "Authentication required" None, carts))
  /\ (forall req u,
        CartController.req_user req = Some u ->
        CartController.req_body_productId req = None ->
        CartController.addToCart products req carts
        = (CartController.mkResponse 400 (Some false)
             "Product ID is required" None, carts))
  /\ (forall req u p,
        CartController.req_user req = Some u ->
        CartController.req_body_productId req = Some p ->
        CartController.requested_quantity req <= 0 ->
        CartController.addToCart products req carts
        = (CartController.mkResponse 400 (Some false)
             "Quantity must be a positive number" None, carts))
  /\ (forall req u p r,
        CartController.req_user req = Some u ->
        CartController.req_body_productId req = Some p ->
        0 < CartController.requested_quantity req ->
        CartController.role u = Some r ->
        r <> ""%string -> r <> "buyer"%string ->
        CartController.addToCart products req carts
        = (CartController.mkResponse 403 (Some false)
             "Need to be a buyer" None, carts))
  /\ (forall req u pid,
        CartController.req_user req = Some u ->
        CartController.req_body_productId req
        = Some (CartController.WellFormed pid) ->
        0 < CartController.requested_quantity req ->
        (CartController.role u = None
         \/ CartController.role u = Some "buyer"%string) ->
        (products !! pid = None ->
         CartController.addToCart products req carts
         = (CartController.mkResponse 400 (Some false)
              "Product not found" None, carts))
        /\ (forall prod,
              products !! pid = Some prod ->
              ProductModel.price prod = None ->
              CartController.addToCart products req carts
              = (CartController.mkResponse 400 (Some false)
                   "Product has invalid price" None, carts))).
Proof.
  unfold CartController.addToCart, CartController.requested_quantity.
  repeat split.
  - intros req ->. reflexivity.
  - intros req u -> ->. reflexivity.
  - intros req u p -> -> Hq. simpl CartController.Number_.
    destruct (default _ _) as [| qty]; [reflexivity |].
    destruct (Z.leb_spec qty 0); [reflexivity | lia].
  - intros req u p r -> -> Hq Hr Hne Hnb. simpl CartController.Number_.
    destruct (default _ _) as [| qty]; [lia |].
    destruct (Z.leb_spec qty 0); [lia |].
    rewrite Hr.
    apply String.eqb_neq in Hne, Hnb. rewrite Hne, Hnb. reflexivity.
  - intros Hnone. rewrite H, H0. simpl CartController.Number_.
    destruct (default _ _) as [| qty]; [lia |].
    destruct (Z.leb_spec qty 0); [lia |].
    destruct H2 as [-> | ->]; simpl; rewrite Hnone; reflexivity.
  - intros prod Hprod Hprice. rewrite H, H0. simpl CartController.Number_.
    destruct (default _ _) as [| qty]; [lia |].
    destruct (Z.leb_spec qty 0); [lia |].
    destruct H2 as [-> | ->]; simpl; rewrite Hprod, Hprice; reflexivity.
Qed.

Lemma addToCart_refusals_witness :
  CartController.addToCart Scenario.catalog
    (CartController.mkRequest
       (Some (CartController.mkAuthUser (CartController.WellFormed 3)
                (Some "seller"%string)))
       None (Some (CartController.WellFormed 7))
       (Some (CartController.Num 0))) Scenario.two_chairs
  = (CartController.mkResponse 400 (Some false)
       "Quantity must be a positive number" None, Scenario.two_chairs)
  /\ CartController.addToCart Scenario.catalog
       (CartController.mkRequest
          (Some (CartController.mkAuthUser (CartController.WellFormed 3)
                   (Some "seller"%string)))
          None (Some (CartController.WellFormed 7))
          (Some (CartController.Num 1))) Scenario.two_chairs
     = (CartController.mkResponse 403 (Some false)
          "Need to be a buyer" None, Scenario.two_chairs).
Proof.
  destruct (addToCart_refusals Scenario.catalog Scenario.two_chairs)
    as (_ & _ & Hqty & Hrole & _).
  split.
  - eapply (Hqty _ _ (CartController.WellFormed 7)); [reflexivity .. |].
    vm_compute. discriminate.
  - eapply (Hrole _ _ (CartController.WellFormed 7) "seller"%string);
      [reflexivity | reflexivity | vm_compute; reflexivity | reflexivity
      | discriminate | discriminate].
Defined.

(** ** How the routes compose *)

Section Composition.

Import CartModel CartController CartFacts.

Lemma add_line_nonempty pid qty pp its : add_line pid qty pp its <> [].
Proof.
  unfold add_line.
  destruct (list_find (fun it => is_product pid it = true) its)
    as [[i item] |] eqn:Hfind.
  - destruct (found_line pid its i item 0 Hfind) as (_ & Hin & _).
    intros Hnil. apply (f_equal length) in Hnil.
    rewrite length_insert in Hnil. destruct its; [destruct Hin | discriminate].
  - destruct its; discriminate.
Qed.

Lemma well_formed_request req u uid pid :
  req_user req = Some u -> id u = WellFormed uid ->
  req_params_id req = Some (WellFormed pid) ->
  req = mkRequest (Some (mkAuthUser (WellFormed uid) (role u)))
          (Some (WellFormed pid)) (req_body_productId req)
          (req_body_quantity req).
Proof.
  destruct req as [ru rp rb rq], u as [i r]. simpl. intros -> -> ->.
  reflexivity.
Qed.

End Composition.

(** X10.  Read after write: when [addToCart] answers 200, a following
    [getItems] by the same user answers 200 with the very cart the add
    returned, never with [null]. *)
Theorem addToCart_then_getItems products req carts :
  CartController.status (fst (CartController.addToCart products req carts))
  = 200 ->
  CartController.getItems req
    (snd (CartController.addToCart products req carts))
  = CartController.mkResponse 200 (Some true) ""
      (CartController.cart
         (fst (CartController.addToCart products req carts)))
  /\ CartController.cart (fst (CartController.addToCart products req carts))
     <> Some None.
Proof.
  intros Hok.
  destruct (addToCart_cases products req carts)
    as [[_ Hne] | (u & uid & pid & prod & pp & c & Hu & Hid & _ & _ & _ & _
                   & Hits & Heq & _)]; [contradiction |].
  rewrite Heq. simpl. split; [| discriminate].
  unfold CartController.getItems. rewrite Hu, Hid, lookup_insert_eq.
  destruct (CartModel.items c) as [| it its] eqn:Hc; [| reflexivity].
  exfalso. symmetry in Hits. exact (add_line_nonempty _ _ _ _ Hits).
Qed.

Lemma addToCart_then_getItems_witness :
  CartController.getItems (Scenario.add_chair 2) Scenario.two_chairs
  = CartController.mkResponse 200 (Some true) ""
      (CartController.cart
         (fst (CartController.addToCart Scenario.catalog
                 (Scenario.add_chair 2) ∅)))
  /\ CartController.cart
       (fst (CartController.addToCart Scenario.catalog
               (Scenario.add_chair 2) ∅)) <> Some None.
Proof.
  apply (addToCart_then_getItems Scenario.catalog (Scenario.add_chair 2) ∅).
  vm_compute. reflexivity.
Defined.

(** X11.  Removing the only product of a cart does not delete the cart: in
    a reachable collection the cart stays stored with no lines and all
    totals 0, and [getItems] then reports it as [null]. *)
Theorem removeItem_last_product carts uid c pid role bodyId bodyQty :
  CartController.Reachable carts ->
  carts !! uid = Some c ->
  CartFacts.other_lines pid (CartModel.items c) = [] ->
  let req :=
    CartController.mkRequest
      (Some (CartController.mkAuthUser (CartController.WellFormed uid) role))
      (Some (CartController.WellFormed pid)) bodyId bodyQty in
  snd (CartController.removeItem req carts) !! uid
  = Some (CartModel.mkCart [] 0 0 0)
  /\ CartController.cart (fst (CartController.removeItem req carts))
     = Some (Some (CartModel.mkCart [] 0 0 0))
  /\ CartController.getItems req (snd (CartController.removeItem req carts))
     = CartController.mkResponse 200 (Some true) "No items in cart" (Some None).
Proof.
  intros Hreach Hc Hrest req.
  pose proof (removeItem_computed carts uid c pid role bodyId bodyQty Hreach Hc)
    as Heq.
  cbv zeta in Heq.
  rewrite Hrest in Heq. unfold req. rewrite Heq. simpl.
  unfold CartController.getItems. simpl. rewrite lookup_insert_eq. auto.
Qed.

Lemma removeItem_last_product_witness :
  snd (CartController.removeItem (Scenario.remove_product 7)
         Scenario.two_chairs) !! 1%N
  = Some (CartModel.mkCart [] 0 0 0)
  /\ CartController.cart
       (fst (CartController.removeItem (Scenario.remove_product 7)
               Scenario.two_chairs))
     = Some (Some (CartModel.mkCart [] 0 0 0))
  /\ CartController.getItems (Scenario.remove_product 7)
       (snd (CartController.removeItem (Scenario.remove_product 7)
               Scenario.two_chairs))
     = CartController.mkResponse 200 (Some true) "No items in cart" (Some None).
Proof.
  assert (Hc : Scenario.two_chairs !! 1%N
               = Some (CartModel.mkCart [CartModel.mkCartItem 7 2 1000]
                         2000 1500 3500))
    by (vm_compute; reflexivity).
  exact (removeItem_last_product Scenario.two_chairs 1%N _ 7%N
           (Some "buyer"%string) None None two_chairs_reachable Hc eq_refl).
Defined.

(** X12.  [removeItem] is idempotent: in a reachable collection, repeating
    a removal that answered 200 gives the same response and leaves the
    collection as the first removal left it. *)
Theorem removeItem_idempotent req carts :
  CartController.Reachable carts ->
  CartController.status (fst (CartController.removeItem req carts)) = 200 ->
  CartController.removeItem req (snd (CartController.removeItem req carts))
  = CartController.removeItem req carts.
Proof.
  intros Hreach Hok.
  pose proof (CartController.Reachable_step CartController.RemoveItem req
                carts Hreach) as Hreach'.
  simpl in Hreach'.
  destruct (removeItem_cases req carts)
    as [[Hne _] | (u & uid & pid & c & Hu & Hid & Hpid & Hits & Heq & _)];
    [contradiction |].
  rewrite Heq in Hreach' |- *. simpl in Hreach' |- *.
  rewrite (well_formed_request req u uid pid Hu Hid Hpid).
  rewrite (removeItem_absent_noop _ uid c pid).
  - reflexivity.
  - apply reachable_carts_ok, Hreach'.
  - apply lookup_insert_eq.
  - rewrite Hits. apply other_lines_absent.
Qed.

Lemma removeItem_idempotent_witness :
  CartController.removeItem (Scenario.remove_product 7)
    (snd (CartController.removeItem (Scenario.remove_product 7)
            Scenario.two_chairs))
  = CartController.removeItem (Scenario.remove_product 7) Scenario.two_chairs.
Proof.
  apply (removeItem_idempotent (Scenario.remove_product 7) Scenario.two_chairs
           two_chairs_reachable).
  vm_compute. reflexivity.
Defined.

(** X13.  Adding a product that the user's existing cart does not hold and
    then removing it undoes the add: in a reachable collection the whole
    collection is back to what it was, totals included. *)
Theorem addToCart_then_removeItem products req carts u uid pid c role bodyId
    bodyQty :
  CartController.Reachable carts ->
  CartController.req_user req = Some u ->
  CartController.id u = CartController.WellFormed uid ->
  CartController.req_body_productId req = Some (CartController.WellFormed pid) ->
  carts !! uid = Some c ->
  ~ In pid (map CartModel.product (CartModel.items c)) ->
  CartController.status (fst (CartController.addToCart products req carts))
  = 200 ->
  snd (CartController.removeItem
         (CartController.mkRequest
            (Some (CartController.mkAuthUser (CartController.WellFormed uid)
                     role))
            (Some (CartController.WellFormed pid)) bodyId bodyQty)
         (snd (CartController.addToCart products req carts)))
  = carts.
Proof.
  intros Hreach Hu Hid Hpid Hc Habs Hok.
  pose proof (CartController.Reachable_step
                (CartController.AddToCart products) req carts Hreach)
    as Hreach'.
  simpl in Hreach'.
  destruct (addToCart_cases products req carts)
    as [[_ Hne] | (u' & uid' & pid' & prod & pp & c' & Hu' & Hid' & Hpid' & _
                   & _ & _ & Hits & Heq & _)]; [contradiction |].
  assert (u' = u) by congruence. subst u'.
  assert (uid' = uid) by congruence. subst uid'.
  assert (pid' = pid) by congruence. subst pid'.
  rewrite Heq in Hreach' |- *. simpl in Hreach' |- *.
  pose proof (removeItem_computed _ uid c' pid role bodyId bodyQty Hreach'
                (lookup_insert_eq carts uid c')) as Hrem.
  cbv zeta in Hrem.
  rewrite Hrem. simpl. rewrite insert_insert_eq.
  unfold CartController.cart_lines in Hits. rewrite Hc in Hits.
  unfold CartController.add_line in Hits.
  destruct (list_find _ (CartModel.items c)) as [[i item] |] eqn:Hfind.
  - exfalso. destruct (found_line pid _ i item 0 Hfind) as (Hprod & Hin & _).
    apply Habs. rewrite <- Hprod. apply in_map, Hin.
  - destruct (no_line pid _ Hfind) as (_ & Hnone & _).
    destruct (find_app_new pid (CartModel.items c)
                (CartModel.mkCartItem pid
                   (CartController.requested_quantity req) pp) Hnone)
      as [_ Hrest]; [apply N.eqb_refl |].
    rewrite Hits, Hrest.
    destruct (reachable_carts_ok carts Hreach uid c Hc)
      as [(Hs & Hsh & Ht) _].
    rewrite <- Hs, <- Hsh, <- Ht.
    replace (CartModel.mkCart (CartModel.items c) (CartModel.subTotal c)
               (CartModel.shipping c) (CartModel.total c))
      with c by (destruct c; reflexivity).
    apply insert_id, Hc.
Qed.

Lemma addToCart_then_removeItem_witness :
  snd (CartController.removeItem (Scenario.remove_product 8)
         (snd (CartController.addToCart Scenario.catalog_with_table
                 (Scenario.add_table 1) Scenario.two_chairs)))
  = Scenario.two_chairs.
Proof.
  assert (Hc : Scenario.two_chairs !! 1%N
               = Some (CartModel.mkCart [CartModel.mkCartItem 7 2 1000]
                         2000 1500 3500))
    by (vm_compute; reflexivity).
  apply (addToCart_then_removeItem Scenario.catalog_with_table
           (Scenario.add_table 1) Scenario.two_chairs Scenario.buyer 1%N 8%N
           _ (Some "buyer"%string) None None two_chairs_reachable
           eq_refl eq_refl eq_refl Hc).
  - intros [H | []]. discriminate H.
  - vm_compute. reflexivity.
Defined.

(** * Whole numbers in the exact range *)

Section WholeRefinement.

Import CartModel CartController.

Lemma fold_ge (its : list PriceQuantity) : forall acc,
  Forall (fun it => 0 <= pq_price it /\ 0 <= pq_quantity it) its ->
  acc <= fold_left (fun sum it => sum + pq_price it * pq_quantity it) its acc.
Proof.
  induction its as [| it its IH]; intros acc Hall; simpl; [lia |].
  apply Forall_cons in Hall as [[Hp Hq] Hall].
  specialize (IH (acc + pq_price it * pq_quantity it) Hall). nia.
Qed.

Lemma fold_whole (its : list PriceQuantity) : forall acc,
  0 <= acc ->
  Forall (fun it => 0 <= pq_price it /\ 0 <= pq_quantity it) its ->
  fold_left (fun sum it => sum + pq_price it * pq_quantity it) its acc
  <= 2 ^ 53 ->
  fold_left
    (fun sum it =>
       Binary64.add sum
         (Binary64.mul (CartController64.pq_price it)
            (CartController64.pq_quantity it)))
    (map (fun it => CartController64.mkPQ (Binary64.whole (pq_price it))
                      (Binary64.whole (pq_quantity it))) its)
    (Binary64.whole acc)
  = Binary64.whole
      (fold_left (fun sum it => sum + pq_price it * pq_quantity it) its acc).
Proof.
  induction its as [| it its IH]; intros acc Hacc Hall Hb; [reflexivity |].
  pose proof (fold_ge (it :: its) acc Hall) as Hge0.
  apply Forall_cons in Hall as [[Hp Hq] Hall].
  pose proof (fold_ge its (acc + pq_price it * pq_quantity it) Hall) as Hge.
  simpl in Hb, Hge |- *.
  rewrite mul_whole by nia. rewrite add_whole by nia.
  apply IH; [nia | exact Hall | exact Hb].
Qed.

Lemma calculateShipping_whole s :
  CartController64.calculateShipping (Binary64.whole s)
  = Binary64.whole (calculateShipping s).
Proof.
  unfold CartController64.calculateShipping, calculateShipping,
    CartController64.FREE_DELIVERY_THRESHOLD, FREE_DELIVERY_THRESHOLD,
    CartController64.NORMAL_SHIPPING_FEE, NORMAL_SHIPPING_FEE.
  rewrite !leb_whole.
  destruct (s <=? 0); [reflexivity |].
  destruct (50000 <=? s); reflexivity.
Qed.

Lemma calculateTotals_whole (its : list PriceQuantity) :
  Forall (fun it => 0 <= pq_price it /\ 0 <= pq_quantity it) its ->
  totals_subTotal (calculateTotals its) + NORMAL_SHIPPING_FEE <= 2 ^ 53 ->
  CartController64.calculateTotals
    (map (fun it => CartController64.mkPQ (Binary64.whole (pq_price it))
                      (Binary64.whole (pq_quantity it))) its)
  = CartController64.mkTotals
      (Binary64.whole (totals_subTotal (calculateTotals its)))
      (Binary64.whole (totals_shipping (calculateTotals its)))
      (Binary64.whole (totals_total (calculateTotals its))).
Proof.
  intros Hall Hb. unfold CartController64.calculateTotals.
  unfold calculateTotals in Hb |- *.
  cbn [totals_subTotal totals_shipping totals_total] in Hb |- *.
  pose proof (fold_ge its 0 Hall) as Hge.
  unfold NORMAL_SHIPPING_FEE in Hb.
  set (s := fold_left (fun sum it => sum + pq_price it * pq_quantity it) its 0)
    in *.
  assert (Hs : s <= 2 ^ 53) by lia.
  rewrite (fold_whole its 0 (Z.le_refl 0) Hall Hs). fold s.
  rewrite calculateShipping_whole.
  assert (Hsh : 0 <= calculateShipping s <= 1500).
  { unfold calculateShipping, FREE_DELIVERY_THRESHOLD, NORMAL_SHIPPING_FEE.
    destruct (s <=? 0); [lia |]. destruct (50000 <=? s); lia. }
  rewrite add_whole by lia. reflexivity.
Qed.

Lemma list_find_item pid (its : list CartItem) :
  list_find (fun it => CartController64.is_product pid it = true)
    (map WholeNumbers.item its)
  = option_map (fun found => (fst found, WholeNumbers.item (snd found)))
      (list_find (fun it => is_product pid it = true) its).
Proof.
  induction its as [| it its IH]; [reflexivity |].
  cbn [map list_find].
  change (CartController64.is_product pid (WholeNumbers.item it))
    with (is_product pid it).
  destruct (decide (is_product pid it = true)); [reflexivity |].
  rewrite IH.
  destruct (list_find (fun it0 => is_product pid it0 = true) its)
    as [[i found] |]; reflexivity.
Qed.

Lemma insert_item i x (its : list CartItem) :
  <[i := WholeNumbers.item x]> (map WholeNumbers.item its)
  = map WholeNumbers.item (<[i := x]> its).
Proof.
  revert i. induction its as [| it its IH]; intros [| i]; simpl;
    try reflexivity.
  f_equal. apply IH.
Qed.

Lemma schema_ok_cart c :
  CartModel64.schema_ok (WholeNumbers.cart c) = schema_ok c.
Proof.
  unfold CartModel64.schema_ok, schema_ok, WholeNumbers.cart,
    CartModel64.at_least.
  cbn [CartModel64.items CartModel64.subTotal CartModel64.shipping
       CartModel64.total].
  rewrite !leb_whole. do 3 f_equal.
  induction (items c) as [| it its IH]; [reflexivity |].
  cbn [map forallb]. rewrite IH. f_equal.
  unfold CartModel64.item_ok, item_ok, CartModel64.at_least, WholeNumbers.item.
  cbn [CartModel64.quantity CartModel64.price]. rewrite !leb_whole.
  reflexivity.
Qed.

Lemma valid_lines_nonneg (its : list CartItem) :
  forallb item_ok its = true ->
  Forall (fun it => 0 <= pq_price it /\ 0 <= pq_quantity it)
    (map (fun it => mkPQ (price it) (quantity it)) its).
Proof.
  induction its as [| it its IH]; simpl; intros H; [constructor |].
  apply andb_prop in H as [Hit H]. unfold item_ok in Hit.
  apply andb_prop in Hit as [Hq Hp].
  apply Z.leb_le in Hq, Hp.
  constructor; [simpl; lia | apply IH, H].
Qed.

(** The totals of whole-number lines inside the exact range, computed in
    doubles with or without the [|| 0] guards: the whole-number totals. *)
Lemma totals_of_lines (its : list CartItem) :
  forallb item_ok its = true ->
  line_sum its + NORMAL_SHIPPING_FEE <= 2 ^ 53 ->
  CartController64.with_totals (map WholeNumbers.item its)
    (CartController64.calculateTotals
       (map (fun it =>
               CartController64.mkPQ
                 (Binary64.or_zero (CartModel64.price it))
                 (Binary64.or_zero (CartModel64.quantity it)))
          (map WholeNumbers.item its)))
  = WholeNumbers.cart
      (with_totals its
         (calculateTotals (map (fun it => mkPQ (price it) (quantity it)) its)))
  /\ CartController64.with_totals (map WholeNumbers.item its)
       (CartController64.calculateTotals
          (map (fun it =>
                  CartController64.mkPQ (CartModel64.price it)
                    (CartModel64.quantity it))
             (map WholeNumbers.item its)))
     = WholeNumbers.cart
         (with_totals its
            (calculateTotals
               (map (fun it => mkPQ (price it) (quantity it)) its))).
Proof.
  intros Hvalid Hb.
  assert (Hsub : totals_subTotal
                   (calculateTotals
                      (map (fun it => mkPQ (price it) (quantity it)) its))
                 = line_sum its).
  { unfold calculateTotals, line_sum. cbn [totals_subTotal].
    apply fold_left_price_quantity. intros it. split; reflexivity. }
  pose proof (calculateTotals_whole _ (valid_lines_nonneg its Hvalid)
                ltac:(rewrite Hsub; exact Hb)) as Htot.
  rewrite map_map in Htot. cbn [pq_price pq_quantity] in Htot.
  split.
  - rewrite map_map.
    rewrite (map_ext _
               (fun it => CartController64.mkPQ (Binary64.whole (price it))
                            (Binary64.whole (quantity it)))).
    + rewrite Htot. reflexivity.
    + intros it. unfold WholeNumbers.item.
      cbn [CartModel64.price CartModel64.quantity].
      rewrite !or_zero_whole. reflexivity.
  - rewrite map_map.
    rewrite (map_ext _
               (fun it => CartController64.mkPQ (Binary64.whole (price it))
                            (Binary64.whole (quantity it)))).
    + rewrite Htot. reflexivity.
    + intros it. reflexivity.
Qed.

Lemma add_line_valid pid q pp (lines : list CartItem) :
  forallb item_ok lines = true -> 0 < q -> 0 <= pp ->
  forallb item_ok (add_line pid q pp lines) = true.
Proof.
  intros Hvalid Hq Hpp. unfold add_line.
  destruct (list_find (fun it => is_product pid it = true) lines)
    as [[i item] |] eqn:Hfind.
  - destruct (found_line pid lines i item (quantity item + q) Hfind)
      as (_ & Hin & _ & _ & _ & _ & _ & _ & Hall).
    apply lines_valid_forallb, Hall; [apply lines_valid_forallb, Hvalid |].
    apply lines_valid_forallb in Hvalid.
    unfold CartFacts.lines_valid in Hvalid.
    rewrite List.Forall_forall in Hvalid.
    destruct (Hvalid item Hin) as [Hq1 Hp1]. simpl. lia.
  - rewrite forallb_app, Hvalid. simpl. unfold item_ok. simpl.
    rewrite (proj2 (Z.leb_le 1 q)) by lia.
    rewrite (proj2 (Z.leb_le 0 pp)) by lia. reflexivity.
Qed.

(** The cart [addToCart] prepares from whole-number lines inside the exact
    range is the whole-number cart: the lines after [add_line], with their
    totals. *)
Lemma build_whole pid q pp (lines : list CartItem) found :
  0 < q -> 0 <= pp ->
  match found with
  | Some c0 => CartModel64.items c0
  | None => []
  end = map WholeNumbers.item lines ->
  forallb item_ok lines = true ->
  WholeNumbers.in_exact_range (add_line pid q pp lines) ->
  CartController64.build pid (Binary64.whole q) (Binary64.whole pp) found
  = inl (WholeNumbers.cart
           (with_totals (add_line pid q pp lines)
              (calculateTotals
                 (map (fun it => mkPQ (price it) (quantity it))
                    (add_line pid q pp lines))))).
Proof.
  intros Hq Hpp Hlines Hvalid [Hquant Hsum].
  pose proof (add_line_valid pid q pp lines Hvalid Hq Hpp) as Hvalid'.
  destruct (totals_of_lines _ Hvalid' Hsum) as [Hguarded Hplain].
  assert (Hlt : Binary64.ltb (Binary64.whole pp) (Binary64.whole 0) = false)
    by (rewrite ltb_whole; apply Z.ltb_ge; exact Hpp).
  assert (Hle : Binary64.leb (Binary64.whole q) (Binary64.whole 0) = false)
    by (rewrite leb_whole; apply Z.leb_gt; exact Hq).
  unfold CartController64.build.
  destruct found as [c0 |].
  - rewrite Hlines, list_find_item.
    unfold add_line in Hquant, Hguarded |- *.
    destruct (list_find (fun it => is_product pid it = true) lines)
      as [[i item] |] eqn:Hfind; cbn [option_map fst snd].
    + assert (Hexact : Binary64.add (Binary64.whole (quantity item))
                         (Binary64.whole q)
                       = Binary64.whole (quantity item + q)).
      { apply add_whole.
        destruct (found_line pid lines i item (quantity item + q) Hfind)
          as (_ & Hin & _ & _ & _ & Hnew & _).
        apply find_some in Hnew as [Hin' _].
        rewrite List.Forall_forall in Hquant.
        specialize (Hquant _ Hin'). simpl in Hquant.
        apply lines_valid_forallb in Hvalid.
        unfold CartFacts.lines_valid in Hvalid.
        rewrite List.Forall_forall in Hvalid.
        destruct (Hvalid item Hin) as [Hq1 _]. lia. }
      cbn [CartModel64.quantity WholeNumbers.item].
      rewrite Hexact.
      change (CartController64.set_quantity (WholeNumbers.item item)
                (Binary64.whole (quantity item + q)))
        with (WholeNumbers.item (set_quantity item (quantity item + q))).
      rewrite insert_item, Hguarded. reflexivity.
    + cbn [CartModel64.price]. rewrite Hlt.
      change [CartModel64.mkCartItem pid (Binary64.whole q) (Binary64.whole pp)]
        with (map WholeNumbers.item [mkCartItem pid q pp]).
      rewrite <- map_app, Hguarded. reflexivity.
  - destruct lines as [| it lines]; [| discriminate Hlines].
    cbn [CartModel64.price CartModel64.quantity]. rewrite Hlt, Hle.
    f_equal. exact Hplain.
Qed.

(** An add that is in order, of whole numbers inside the exact range and
    with no call failing, answers 200 and stores the whole-number cart. *)
Lemma addToCart_whole_numbers products req carts64 u uid pid q prod pp lines :
  CartController64.req_user req = Some u ->
  id u = WellFormed uid ->
  (role u = None \/ role u = Some "buyer"%string) ->
  CartController64.req_body_productId req = Some (WellFormed pid) ->
  CartController64.requested_quantity req = Binary64.whole q ->
  0 < q ->
  products !! pid = Some prod ->
  ProductModel64.price prod = Some (Binary64.whole pp) ->
  0 <= pp ->
  CartController64.cart_lines carts64 uid = map WholeNumbers.item lines ->
  forallb item_ok lines = true ->
  WholeNumbers.in_exact_range (add_line pid q pp lines) ->
  CartController64.addToCart products CartController64.NoFault req carts64
  = (CartController64.mkResponse 200 (Some true) "Item added to cart"
       (Some (WholeNumbers.cart
                (with_totals (add_line pid q pp lines)
                   (calculateTotals
                      (map (fun it => mkPQ (price it) (quantity it))
                         (add_line pid q pp lines)))))),
     <[uid := WholeNumbers.cart
                (with_totals (add_line pid q pp lines)
                   (calculateTotals
                      (map (fun it => mkPQ (price it) (quantity it))
                         (add_line pid q pp lines))))]> carts64).
Proof.
  intros Hu Hid Hrole Hpid Hqty Hq Hprod Hprice Hpp Hlines Hvalid Hrange.
  unfold CartController64.cart_lines in Hlines.
  pose proof (build_whole pid q pp lines _ Hq Hpp Hlines Hvalid Hrange)
    as Hbuild.
  pose proof (add_line_valid pid q pp lines Hvalid Hq Hpp) as Hvalid'.
  unfold CartController64.addToCart. rewrite Hu, Hpid. cbv zeta.
  change (default (Binary64.whole 1) (CartController64.req_body_quantity req))
    with (CartController64.requested_quantity req).
  rewrite Hqty, leb_whole, (proj2 (Z.leb_gt q 0) Hq).
  change (Binary64.isNaN (Binary64.whole q)) with false. cbn [orb].
  assert (Hr : match role u with
               | Some r => negb (r =? "")%string && negb (r =? "buyer")%string
               | None => false
               end = false)
    by (destruct Hrole as [-> | ->]; reflexivity).
  rewrite Hr.
  unfold CartController64.addToCart_try.
  cbn [CartController64.is_fault]. rewrite Hprod, Hprice, Hid.
  change (Binary64.whole pp) with (Binary64.Finite (inject_Z pp)).
  cbv iota.
  change (Binary64.Finite (inject_Z pp)) with (Binary64.whole pp).
  rewrite Hbuild.
  unfold CartModel64.validateSync.
  rewrite schema_ok_cart.
  rewrite (computed_schema_ok (fun it => mkPQ (price it) (quantity it)) _
             (fun it => conj eq_refl eq_refl) Hvalid').
  reflexivity.
Qed.

End WholeRefinement.

(** X8.  [addToCart] cannot fail for a request that is in order, on whole
    numbers inside the exact range and with no awaited call failing: an
    authenticated user whose role is absent or "buyer", a whole quantity of
    at least 1, a product of the catalog whose price is a whole number and
    not negative, and a cart (if the user has one) whose lines are whole
    numbers that pass the item schema, such that after the add every
    quantity is at most 2^53 and the line amounts plus the shipping fee add
    up to at most 2^53.  The answer is 200. *)
Theorem addToCart_succeeds_in_range products req carts64 u uid pid q prod pp
    lines :
  CartController64.req_user req = Some u ->
  CartController.id u = CartController.WellFormed uid ->
  (CartController.role u = None
   \/ CartController.role u = Some "buyer"%string) ->
  CartController64.req_body_productId req
  = Some (CartController.WellFormed pid) ->
  CartController64.requested_quantity req = Binary64.whole q ->
  1 <= q ->
  products !! pid = Some prod ->
  ProductModel64.price prod = Some (Binary64.whole pp) ->
  0 <= pp ->
  CartController64.cart_lines carts64 uid = map WholeNumbers.item lines ->
  forallb CartModel.item_ok lines = true ->
  WholeNumbers.in_exact_range (CartController.add_line pid q pp lines) ->
  CartController64.status
    (fst (CartController64.addToCart products CartController64.NoFault req
            carts64)) = 200.
Proof.
  intros Hu Hid Hrole Hpid Hqty Hq Hprod Hprice Hpp Hlines Hvalid Hrange.
  rewrite (addToCart_whole_numbers products req carts64 u uid pid q prod pp
             lines Hu Hid Hrole Hpid Hqty ltac:(lia) Hprod Hprice Hpp Hlines
             Hvalid Hrange).
  reflexivity.
Qed.

Lemma addToCart_succeeds_in_range_witness :
  CartController64.status
    (fst (CartController64.addToCart Scenario.catalog64
            CartController64.NoFault
            (Scenario.add_chair64 (Binary64.whole 3)) Scenario.two_chairs64))
  = 200.
Proof.
  apply (addToCart_succeeds_in_range Scenario.catalog64
           (Scenario.add_chair64 (Binary64.whole 3)) Scenario.two_chairs64
           Scenario.buyer 1%N 7%N 3
           (ProductModel64.mkProduct "Oak chair" (Some (Binary64.whole 1000)))
           1000 [CartModel.mkCartItem 7 2 1000]).
  - reflexivity.
  - reflexivity.
  - right. reflexivity.
  - reflexivity.
  - reflexivity.
  - lia.
  - vm_compute. reflexivity.
  - reflexivity.
  - lia.
  - vm_compute. reflexivity.
  - reflexivity.
  - split.
    + change (Forall (fun it => CartModel.quantity it <= 2 ^ 53)
                [CartModel.mkCartItem 7 5 1000]).
      apply List.Forall_cons; [| apply List.Forall_nil].
      apply Z.leb_le. vm_compute. reflexivity.
    + apply Z.leb_le. vm_compute. reflexivity.
Defined.

(** X4.  What a successful [addToCart] does to the cart, on whole numbers
    inside the exact range (the conditions of X8).  The stored cart, which
    is also the one in the answer, is a whole-number cart that holds of
    the product the quantity held before plus the requested quantity.  The
    unit price of the line is the price the cart already remembered for
    the product, and the catalog price only when the product had no line;
    the lines of the other products are the same, in the same order; the
    subtotal grows by unit price times requested quantity; and the carts
    of the other users are untouched. *)
Theorem addToCart_effect_in_range products req carts64 u uid pid q prod pp
    lines :
  CartController64.req_user req = Some u ->
  CartController.id u = CartController.WellFormed uid ->
  (CartController.role u = None
   \/ CartController.role u = Some "buyer"%string) ->
  CartController64.req_body_productId req
  = Some (CartController.WellFormed pid) ->
  CartController64.requested_quantity req = Binary64.whole q ->
  1 <= q ->
  products !! pid = Some prod ->
  ProductModel64.price prod = Some (Binary64.whole pp) ->
  0 <= pp ->
  CartController64.cart_lines carts64 uid = map WholeNumbers.item lines ->
  forallb CartModel.item_ok lines = true ->
  WholeNumbers.in_exact_range (CartController.add_line pid q pp lines) ->
  exists c',
    snd (CartController64.addToCart products CartController64.NoFault req
           carts64) !! uid = Some (WholeNumbers.cart c')
    /\ CartController64.cart
         (fst (CartController64.addToCart products CartController64.NoFault
                 req carts64)) = Some (WholeNumbers.cart c')
    /\ (forall uid', uid' <> uid ->
          snd (CartController64.addToCart products CartController64.NoFault
                 req carts64) !! uid' = carts64 !! uid')
    /\ let unit_price := default pp (CartFacts.price_of pid lines) in
       CartFacts.quantity_of pid (CartModel.items c')
       = CartFacts.quantity_of pid lines + q
       /\ CartFacts.price_of pid (CartModel.items c') = Some unit_price
       /\ CartFacts.other_lines pid (CartModel.items c')
          = CartFacts.other_lines pid lines
       /\ CartModel.subTotal c'
          = CartController.line_sum lines + unit_price * q.
Proof.
  intros Hu Hid Hrole Hpid Hqty Hq Hprod Hprice Hpp Hlines Hvalid Hrange.
  rewrite (addToCart_whole_numbers products req carts64 u uid pid q prod pp
             lines Hu Hid Hrole Hpid Hqty ltac:(lia) Hprod Hprice Hpp Hlines
             Hvalid Hrange).
  eexists. cbn [fst snd CartController64.cart].
  split; [apply lookup_insert_eq |]. split; [reflexivity |].
  split; [intros uid' Hne; apply lookup_insert_ne; congruence |].
  cbn zeta. unfold CartController.with_totals.
  cbn [CartModel.items CartModel.subTotal].
  assert (Hsub : CartController.totals_subTotal
                   (CartController.calculateTotals
                      (map (fun it => CartController.mkPQ (CartModel.price it)
                                        (CartModel.quantity it))
                         (CartController.add_line pid q pp lines)))
                 = CartController.line_sum
                     (CartController.add_line pid q pp lines)).
  { unfold CartController.calculateTotals, CartController.line_sum.
    cbn [CartController.totals_subTotal].
    apply fold_left_price_quantity. intros it. split; reflexivity. }
  rewrite Hsub. clear Hsub.
  unfold CartController.add_line, CartFacts.quantity_of, CartFacts.price_of.
  destruct (list_find (fun it => CartController.is_product pid it = true)
              lines) as [[i item] |] eqn:Hfind.
  - destruct (found_line pid lines i item (CartModel.quantity item + q) Hfind)
      as (_ & _ & -> & _ & _ & -> & -> & -> & _).
    simpl. repeat split; try reflexivity. f_equal. ring.
  - destruct (no_line pid lines Hfind) as (_ & Hnone & Hoth & _).
    destruct (find_app_new pid lines (CartModel.mkCartItem pid q pp) Hnone)
      as [-> ->]; [apply N.eqb_refl |].
    rewrite Hnone, Hoth, line_sum_app, line_sum_cons. simpl.
    repeat split; try reflexivity.
    unfold CartController.line_sum. simpl. ring.
Qed.

Lemma addToCart_effect_in_range_witness :
  exists c',
    snd (CartController64.addToCart Scenario.catalog64_repriced
           CartController64.NoFault
           (Scenario.add_chair64 (Binary64.whole 3)) Scenario.two_chairs64)
    !! 1%N = Some (WholeNumbers.cart c')
    /\ CartController64.cart
         (fst (CartController64.addToCart Scenario.catalog64_repriced
                 CartController64.NoFault
                 (Scenario.add_chair64 (Binary64.whole 3))
                 Scenario.two_chairs64)) = Some (WholeNumbers.cart c')
    /\ (forall uid', uid' <> 1%N ->
          snd (CartController64.addToCart Scenario.catalog64_repriced
                 CartController64.NoFault
                 (Scenario.add_chair64 (Binary64.whole 3))
                 Scenario.two_chairs64) !! uid'
          = Scenario.two_chairs64 !! uid')
    /\ let unit_price :=
         default 1200
           (CartFacts.price_of 7 [CartModel.mkCartItem 7 2 1000]) in
       CartFacts.quantity_of 7 (CartModel.items c')
       = CartFacts.quantity_of 7 [CartModel.mkCartItem 7 2 1000] + 3
       /\ CartFacts.price_of 7 (CartModel.items c') = Some unit_price
       /\ CartFacts.other_lines 7 (CartModel.items c')
          = CartFacts.other_lines 7 [CartModel.mkCartItem 7 2 1000]
       /\ CartModel.subTotal c'
          = CartController.line_sum [CartModel.mkCartItem 7 2 1000]
            + unit_price * 3.
Proof.
  apply (addToCart_effect_in_range Scenario.catalog64_repriced
           (Scenario.add_chair64 (Binary64.whole 3)) Scenario.two_chairs64
           Scenario.buyer 1%N 7%N 3
           (ProductModel64.mkProduct "Oak chair" (Some (Binary64.whole 1200)))
           1200 [CartModel.mkCartItem 7 2 1000]).
  - reflexivity.
  - reflexivity.
  - right. reflexivity.
  - reflexivity.
  - reflexivity.
  - lia.
  - vm_compute. reflexivity.
  - reflexivity.
  - lia.
  - vm_compute. reflexivity.
  - reflexivity.
  - split.
    + change (Forall (fun it => CartModel.quantity it <= 2 ^ 53)
                [CartModel.mkCartItem 7 5 1000]).
      apply List.Forall_cons; [| apply List.Forall_nil].
      apply Z.leb_le. vm_compute. reflexivity.
    + apply Z.leb_le. vm_compute. reflexivity.
Defined.

(** * Further properties of the distance and fee functions *)

Lemma fee_range d :
  500 <= DistanceUtils.calculateShippingByDistance d <= 2500.
Proof.
  unfold DistanceUtils.calculateShippingByDistance. split_bands; lia.
Qed.

(** X15.  [getShippingInfo] gives a quote exactly when every lookup it
    performed was answered: together with C6, null means that some lookup
    failed and nothing else.  It performs at most two lookups.  A quote
    carries the distance from the seller's coordinates (the hint when both
    its numbers are non-zero, else the ones looked up) to the coordinates
    found for the buyer city, and the server fee of that distance, which
    lies between 500 and 2500. *)
Theorem getShippingInfo_quote service sellerCity buyerCity sellerLat sellerLon :
  let out :=
    DistanceUtils.run service 0
      (DistanceUtils.getShippingInfo sellerCity buyerCity sellerLat sellerLon) in
  (fst out <> None <-> Forall (fun l => snd l <> None) (snd out))
  /\ (length (snd out) <= 2)%nat
  /\ forall quote,
       fst out = Some quote ->
       exists seller buyer,
         quote
         = DistanceUtils.mkShippingInfo
             (DistanceUtils.calculateDistance seller buyer)
             (DistanceUtils.calculateShippingByDistance
                (DistanceUtils.calculateDistance seller buyer))
         /\ 500 <= DistanceUtils.fee quote <= 2500
         /\ In (buyerCity, Some buyer) (snd out)
         /\ (if DistanceUtils.truthy sellerLat && DistanceUtils.truthy sellerLon
             then Some (DistanceUtils.latitude seller) = sellerLat
                  /\ Some (DistanceUtils.longitude seller) = sellerLon
             else In (sellerCity, Some seller) (snd out)).
Proof.
  assert (Hok : forall (c : DistanceUtils.Coordinates), Some c <> None)
    by discriminate.
  assert (Hbad : forall A (x : A) l,
             Forall (fun l => snd l <> @None DistanceUtils.Coordinates)
               ((x, None) :: l) -> False).
  { intros A x l H. apply Forall_cons in H as [H _]. apply H. reflexivity. }
  unfold DistanceUtils.getShippingInfo.
  destruct sellerLat as [lat |], sellerLon as [lon |]; simpl;
    try destruct (negb (Qeq_bool lat 0)); simpl;
    try destruct (negb (Qeq_bool lon 0)); simpl;
    try (destruct (service 0%nat buyerCity) as [b |]; simpl;
         [ split; [split; [repeat constructor; discriminate | discriminate] |];
           split; [lia |];
           intros quote [= <-]; eexists _, b;
           split; [reflexivity |]; split; [apply fee_range |];
           split; [left; reflexivity | split; reflexivity]
         | split; [split; [congruence | intros H; exfalso; exact (Hbad _ _ _ H)] |];
           split; [lia | discriminate] ]);
    (destruct (service 0%nat sellerCity) as [s |]; simpl;
     [| split; [split; [congruence | intros H; exfalso; exact (Hbad _ _ _ H)] |];
        split; [lia | discriminate] ]);
    (destruct (service 1%nat buyerCity) as [b |]; simpl;
     [ split; [split; [repeat constructor; discriminate | discriminate] |];
       split; [lia |];
       intros quote [= <-]; exists s, b;
       split; [reflexivity |]; split; [apply fee_range |];
       split; [right; left; reflexivity | left; reflexivity]
     | split; [split; [congruence |
                       intros H; apply Forall_cons in H as [_ H];
                       exfalso; exact (Hbad _ _ _ H)] |];
       split; [lia | discriminate] ]).
Qed.

Lemma getShippingInfo_quote_witness :
  exists quote,
    fst (DistanceUtils.run Scenario.nairobi_only 0
           (DistanceUtils.getShippingInfo "Nairobi" "Nairobi" None None))
    = Some quote
    /\ 500 <= DistanceUtils.fee quote <= 2500.
Proof.
  destruct (getShippingInfo_quote Scenario.nairobi_only "Nairobi" "Nairobi"
              None None) as (_ & _ & Hquote).
  eexists. split; [reflexivity |].
  destruct (Hquote _ eq_refl) as (seller & buyer & _ & Hfee & _).
  exact Hfee.
Defined.

(** X16.  The seven-tier client table is a step function that never
    decreases with distance.  Against the server table it charges the same
    exactly for distances above 70 km and up to 200 km, less for every
    distance up to 70 km, and more (3000 against 2500) above 200 km. *)
Theorem seven_tier_against_server :
  (forall d1 d2 : Q,
      (d1 <= d2)%Q ->
      ShippingTiers7.calculateShipping d1 <= ShippingTiers7.calculateShipping d2)
  /\ (forall d : Q,
        ((d <= 70)%Q ->
         ShippingTiers7.calculateShipping d
         < DistanceUtils.calculateShippingByDistance d)
        /\ ((70 < d)%Q -> (d <= 200)%Q ->
            ShippingTiers7.calculateShipping d
            = DistanceUtils.calculateShippingByDistance d)
        /\ ((200 < d)%Q ->
            ShippingTiers7.calculateShipping d = 3000
            /\ DistanceUtils.calculateShippingByDistance d = 2500)).
Proof.
  unfold ShippingTiers7.calculateShipping,
    DistanceUtils.calculateShippingByDistance.
  split.
  - intros d1 d2 Hle. split_bands; try lia; exfalso; Lqa.lra.
  - intros d. repeat split; intros; split_bands;
      try reflexivity; try lia; exfalso; Lqa.lra.
Qed.

Lemma seven_tier_against_server_witness :
  (60 <= 70)%Q
  /\ ShippingTiers7.calculateShipping 60
     < DistanceUtils.calculateShippingByDistance 60.
Proof.
  assert (H : (60 <= 70)%Q) by (unfold Qle; simpl; lia).
  split; [exact H |].
  destruct seven_tier_against_server as [_ Hcmp].
  exact (proj1 (Hcmp 60%Q) H).
Defined.

(** X17.  The fee a description shows is the fee its table charges: for
    every distance and however the rounded distance is printed, the text of
    [getShippingDescription] ends in the fee [calculateShipping] returns
    for that distance, followed by " KES"; this holds for the table of
    SERVICE/shippingUtils.ts and for the seven-tier table alike. *)
Theorem descriptions_show_the_fee (rounded : Q -> string) (d : Q) :
  (exists label,
      ShippingDescriptions.getShippingDescription rounded d
      = (rounded d ++ "km (" ++ label ++ ") - "
         ++ pretty (ShippingUtils.calculateShipping d) ++ " KES")%string)
  /\ (exists label,
        ShippingDescriptions.getShippingDescription7 rounded d
        = (rounded d ++ "km (" ++ label ++ ") - "
           ++ pretty (ShippingTiers7.calculateShipping d) ++ " KES")%string).
Proof.
  unfold ShippingDescriptions.getShippingDescription,
    ShippingDescriptions.getShippingDescription7,
    ShippingUtils.calculateShipping, ShippingTiers7.calculateShipping.
  split.
  - destruct (Qle_bool d 10); [exists "Local"%string; reflexivity |].
    destruct (Qle_bool d 25); [exists "Regional"%string; reflexivity |].
    destruct (Qle_bool d 50); [exists "Regional+"%string; reflexivity |].
    destruct (Qle_bool d 100); [exists "Long Distance"%string; reflexivity |].
    exists "Extra Long"%string. reflexivity.
  - destruct (Qle_bool d 10); [exists "Local"%string; reflexivity |].
    destruct (Qle_bool d 30); [exists "Regional"%string; reflexivity |].
    destruct (Qle_bool d 50); [exists "Regional+"%string; reflexivity |].
    destruct (Qle_bool d 70); [exists "Regional+"%string; reflexivity |].
    destruct (Qle_bool d 100); [exists "Long Distance"%string; reflexivity |].
    destruct (Qle_bool d 200); [exists "Extra Long"%string; reflexivity |].
    exists "Ultra Long"%string. reflexivity.
Qed.

(** * Properties of the client cart store *)

Section MirrorLemmas.

Import CartStore CartStoreOps Mirror.

Variable key : N -> string.
Hypothesis key_inj : forall a b, key a = key b -> a = b.

(** The items [addItem] shows optimistically, as a function of the list. *)
Lemma addItem_optimistic_cons product_ qty i tl st st' :
  items st = i :: tl -> items st' = tl ->
  items (addItem_optimistic product_ qty st)
  = if decide (id (product i) = id product_)
    then mkCartItem (product i) (or_zero (quantity i) + qty) :: tl
    else i :: items (addItem_optimistic product_ qty st').
Proof.
  intros Hst Hst'. unfold addItem_optimistic. rewrite Hst, Hst'. cbn.
  destruct (decide (id (product i) = id product_)); [reflexivity |].
  destruct (list_find _ tl) as [[idx found] |]; reflexivity.
Qed.

Lemma add_line_cons pid qty pp it tl :
  CartController.add_line pid qty pp (it :: tl)
  = if CartController.is_product pid it
    then CartController.set_quantity it (CartModel.quantity it + qty) :: tl
    else it :: CartController.add_line pid qty pp tl.
Proof.
  unfold CartController.add_line. cbn.
  destruct (decide (CartController.is_product pid it = true)) as [-> | Hn];
    [reflexivity |].
  apply not_true_is_false in Hn. rewrite Hn.
  destruct (list_find _ tl) as [[idx found] |]; reflexivity.
Qed.

Lemma CartStore_or_zero_id x : CartStore.or_zero x = x.
Proof. unfold CartStore.or_zero. destruct (Z.eqb_spec x 0); congruence. Qed.

Lemma mirror_add product_ pid qty pp lines : forall st,
  client_view (items st) = server_view key lines ->
  id product_ = key pid ->
  client_view (items (addItem_optimistic product_ qty st))
  = server_view key (CartController.add_line pid qty pp lines).
Proof.
  induction lines as [| it lines IH]; intros st Hview Hid.
  - destruct (items st) as [| i tl] eqn:Hst; [| discriminate].
    unfold addItem_optimistic. rewrite Hst. cbn. rewrite Hid. reflexivity.
  - destruct (items st) as [| i tl] eqn:Hst; [discriminate |].
    cbn in Hview. injection Hview as Hi Hq Htl.
    rewrite (addItem_optimistic_cons product_ qty i tl st (set_items tl st)
               Hst eq_refl).
    rewrite add_line_cons. unfold CartController.is_product.
    destruct (decide (id (product i) = id product_)) as [Heq | Hne].
    + assert (Hp : CartModel.product it = pid)
        by (apply key_inj; congruence).
      rewrite Hp, N.eqb_refl. cbn.
      rewrite CartStore_or_zero_id, Hi, Hq, Hp. f_equal. exact Htl.
    + destruct (N.eqb_spec (CartModel.product it) pid) as [Hp | Hp].
      * exfalso. apply Hne. congruence.
      * cbn. rewrite Hi, Hq. f_equal. apply IH; assumption.
Qed.

Lemma mirror_remove pid lines : forall its,
  client_view its = server_view key lines ->
  client_view (List.filter (fun i => negb (has_id (key pid) i)) its)
  = server_view key (CartFacts.other_lines pid lines).
Proof.
  unfold CartFacts.other_lines, has_id, CartController.is_product.
  induction lines as [| it lines IH]; intros its Hview.
  - destruct its; [reflexivity | discriminate].
  - destruct its as [| i tl]; [discriminate |].
    cbn in Hview. injection Hview as Hi Hq Htl. cbn [List.filter].
    destruct (String.eqb_spec (id (product i)) (key pid)) as [Heq | Hne];
      destruct (N.eqb_spec (CartModel.product it) pid) as [Hp | Hp]; cbn.
    + apply IH, Htl.
    + exfalso. apply Hp, key_inj. congruence.
    + exfalso. apply Hne. congruence.
    + rewrite Hi, Hq. f_equal. apply IH, Htl.
Qed.

Lemma mirror_set pid q lines : forall its,
  client_view its = server_view key lines ->
  client_view
    (map (fun i => if has_id (key pid) i
                   then mkCartItem (product i) q else i) its)
  = server_view key (CartFacts.set_line pid q lines).
Proof.
  unfold CartFacts.set_line, has_id, CartController.is_product.
  induction lines as [| it lines IH]; intros its Hview.
  - destruct its; [reflexivity | discriminate].
  - destruct its as [| i tl]; [discriminate |].
    cbn in Hview. injection Hview as Hi Hq Htl. cbn [map].
    destruct (String.eqb_spec (id (product i)) (key pid)) as [Heq | Hne];
      destruct (N.eqb_spec (CartModel.product it) pid) as [Hp | Hp]; cbn.
    + rewrite Hi. f_equal. apply IH, Htl.
    + exfalso. apply Hp, key_inj. congruence.
    + exfalso. apply Hne. congruence.
    + rewrite Hi, Hq. f_equal. apply IH, Htl.
Qed.

End MirrorLemmas.

(** X18.  The optimistic add shows what the server stores.  Let the client
    list agree with the user's server lines on product ids and quantities,
    in order ([key] being the injective text of an id).  If the server
    answers 200 to the add, then the list [addItem] put in the store before
    the request agrees in the same way with the lines the server stored:
    keeping the optimistic state on success is sound. *)
Theorem optimistic_add_mirrors_server (key : N -> string) products req carts
    uid pid product_ state :
  (forall a b, key a = key b -> a = b) ->
  Mirror.client_view (CartStore.items state)
  = Mirror.server_view key (CartController.cart_lines carts uid) ->
  CartController.request_of uid pid req ->
  CartStore.id product_ = key pid ->
  CartController.status (fst (CartController.addToCart products req carts))
  = 200 ->
  exists c',
    snd (CartController.addToCart products req carts) !! uid = Some c'
    /\ Mirror.client_view
         (CartStore.items
            (fst (CartStore.addItem_begin product_
                    (Some (CartController.requested_quantity req)) state)))
       = Mirror.server_view key (CartModel.items c').
Proof.
  intros Hinj Hview (u & Hu & Hid & Hpid) Hkey Hok.
  destruct (addToCart_cases products req carts)
    as [[_ Hne] | (u' & uid' & pid' & prod & pp & c' & Hu' & Hid' & Hpid' & _
                   & _ & _ & Hits & Heq & _)]; [contradiction |].
  assert (u' = u) by congruence. subst u'.
  assert (uid' = uid) by congruence. subst uid'.
  assert (pid' = pid) by congruence. subst pid'.
  exists c'. rewrite Heq. simpl. rewrite lookup_insert_eq.
  split; [reflexivity |].
  rewrite Hits. apply mirror_add; assumption.
Qed.

Lemma optimistic_add_mirrors_server_witness :
  exists c',
    snd (CartController.addToCart Scenario.catalog (Scenario.add_chair 3)
           Scenario.two_chairs) !! 1%N = Some c'
    /\ Mirror.client_view
         (CartStore.items
            (fst (CartStore.addItem_begin Scenario.chair
                    (Some (CartController.requested_quantity
                             (Scenario.add_chair 3)))
                    Scenario.store_two_chairs)))
       = Mirror.server_view pretty (CartModel.items c').
Proof.
  apply (optimistic_add_mirrors_server pretty Scenario.catalog
           (Scenario.add_chair 3) Scenario.two_chairs 1%N 7%N Scenario.chair
           Scenario.store_two_chairs).
  - intros a b H. exact (pretty_N_inj a b H).
  - vm_compute. reflexivity.
  - exists Scenario.buyer. repeat split; reflexivity.
  - vm_compute. reflexivity.
  - vm_compute. reflexivity.
Defined.

(** X19.  The optimistic quantity change shows what the server stores.
    The client clamps the quantity to at least 1 and sends the clamped
    value; in a reachable collection, if the server answers 200 to that
    update, the list [setQuantity] put in the store agrees with the stored
    lines on product ids and quantities. *)
Theorem optimistic_setQuantity_mirrors_server (key : N -> string) req carts
    u uid pid qty state :
  (forall a b, key a = key b -> a = b) ->
  CartController.Reachable carts ->
  Mirror.client_view (CartStore.items state)
  = Mirror.server_view key (CartController.cart_lines carts uid) ->
  CartController.req_user req = Some u ->
  CartController.id u = CartController.WellFormed uid ->
  CartController.req_params_id req = Some (CartController.WellFormed pid) ->
  CartController.req_body_quantity req
  = Some (CartController.Num
            (snd (snd (CartStoreOps.setQuantity_begin (key pid) qty state)))) ->
  CartController.status (fst (CartController.updateCart req carts)) = 200 ->
  1 <= snd (snd (CartStoreOps.setQuantity_begin (key pid) qty state))
  /\ exists c',
       snd (CartController.updateCart req carts) !! uid = Some c'
       /\ Mirror.client_view
            (CartStore.items
               (fst (CartStoreOps.setQuantity_begin (key pid) qty state)))
          = Mirror.server_view key (CartModel.items c').
Proof.
  intros Hinj Hreach Hview Hu Hid Hpid Hqty Hok.
  split; [simpl; lia |].
  destruct (updateCart_detail req carts Hok)
    as (u' & uid' & pid' & stored & i & item & q & c' & Hu' & Hid' & Hpid'
        & Hq & Hst & Hfind & Hits & Heq & _).
  assert (u' = u) by congruence. subst u'.
  assert (uid' = uid) by congruence. subst uid'.
  assert (pid' = pid) by congruence. subst pid'.
  exists c'. rewrite Heq. simpl. rewrite lookup_insert_eq.
  split; [reflexivity |].
  rewrite Hits.
  rewrite (insert_found_set_line pid q _ i item Hfind
             (reachable_distinct carts Hreach uid stored Hst)).
  unfold CartController.cart_lines in Hview. rewrite Hst in Hview.
  assert (q = Z.max 1 qty) by (simpl in Hqty; congruence). subst q.
  apply mirror_set; assumption.
Qed.

Lemma optimistic_setQuantity_mirrors_server_witness :
  1 <= snd (snd (CartStoreOps.setQuantity_begin (pretty 7%N) 0
                   Scenario.store_two_chairs))
  /\ exists c',
       snd (CartController.updateCart
              (CartController.mkRequest (Some Scenario.buyer)
                 (Some (CartController.WellFormed 7)) None
                 (Some (CartController.Num 1)))
              Scenario.two_chairs) !! 1%N = Some c'
       /\ Mirror.client_view
            (CartStore.items
               (fst (CartStoreOps.setQuantity_begin (pretty 7%N) 0
                       Scenario.store_two_chairs)))
          = Mirror.server_view pretty (CartModel.items c').
Proof.
  apply (optimistic_setQuantity_mirrors_server pretty
           (CartController.mkRequest (Some Scenario.buyer)
              (Some (CartController.WellFormed 7)) None
              (Some (CartController.Num 1)))
           Scenario.two_chairs Scenario.buyer 1%N 7%N 0
           Scenario.store_two_chairs).
  - intros a b H. exact (pretty_N_inj a b H).
  - exact two_chairs_reachable.
  - vm_compute. reflexivity.
  - reflexivity.
  - reflexivity.
  - reflexivity.
  - vm_compute. reflexivity.
  - vm_compute. reflexivity.
Defined.

(** X20.  The optimistic removal shows what the server stores: if the
    server answers 200 to the removal, the list the store's [removeItem]
    left agrees with the stored lines on product ids and quantities. *)
Theorem optimistic_removeItem_mirrors_server (key : N -> string) req carts
    u uid pid state :
  (forall a b, key a = key b -> a = b) ->
  Mirror.client_view (CartStore.items state)
  = Mirror.server_view key (CartController.cart_lines carts uid) ->
  CartController.req_user req = Some u ->
  CartController.id u = CartController.WellFormed uid ->
  CartController.req_params_id req = Some (CartController.WellFormed pid) ->
  CartController.status (fst (CartController.removeItem req carts)) = 200 ->
  exists c',
    snd (CartController.removeItem req carts) !! uid = Some c'
    /\ Mirror.client_view
         (CartStore.items (fst (CartStoreOps.removeItem_begin (key pid) state)))
       = Mirror.server_view key (CartModel.items c').
Proof.
  intros Hinj Hview Hu Hid Hpid Hok.
  destruct (removeItem_cases req carts)
    as [[Hne _] | (u' & uid' & pid' & c' & Hu' & Hid' & Hpid' & Hits & Heq & _)];
    [contradiction |].
  assert (u' = u) by congruence. subst u'.
  assert (uid' = uid) by congruence. subst uid'.
  assert (pid' = pid) by congruence. subst pid'.
  exists c'. rewrite Heq. simpl. rewrite lookup_insert_eq.
  split; [reflexivity |].
  rewrite Hits. apply (mirror_remove key Hinj). exact Hview.
Qed.

Lemma optimistic_removeItem_mirrors_server_witness :
  exists c',
    snd (CartController.removeItem (Scenario.remove_product 7)
           Scenario.two_chairs) !! 1%N = Some c'
    /\ Mirror.client_view
         (CartStore.items
            (fst (CartStoreOps.removeItem_begin (pretty 7%N)
                    Scenario.store_two_chairs)))
       = Mirror.server_view pretty (CartModel.items c').
Proof.
  apply (optimistic_removeItem_mirrors_server pretty
           (Scenario.remove_product 7) Scenario.two_chairs Scenario.buyer
           1%N 7%N Scenario.store_two_chairs).
  - intros a b H. exact (pretty_N_inj a b H).
  - vm_compute. reflexivity.
  - reflexivity.
  - reflexivity.
  - reflexivity.
  - vm_compute. reflexivity.
Defined.

(** X21.  [setQuantity] in the store.  The quantity it writes and sends is
    the requested one clamped to at least 1.  Optimistically every item of
    the product carries that quantity, the products listed and their order
    are unchanged, and the items of other products are untouched.  When the
    request is rejected the handler puts back exactly the items remembered
    before the change, whatever the store holds by then, and records the
    error's message (or "Failed to update cart" when the thrown value is
    not an error object); when it is fulfilled nothing more is written. *)
Theorem setQuantity_optimistic_and_rollback productId qty state :
  let st1 := fst (CartStoreOps.setQuantity_begin productId qty state) in
  let prev := fst (snd (CartStoreOps.setQuantity_begin productId qty state)) in
  let sent := snd (snd (CartStoreOps.setQuantity_begin productId qty state)) in
  sent = Z.max 1 qty /\ 1 <= sent
  /\ map (fun i => CartStore.id (CartStore.product i)) (CartStore.items st1)
     = map (fun i => CartStore.id (CartStore.product i)) (CartStore.items state)
  /\ (forall i,
        In i (CartStore.items st1) ->
        CartStore.id (CartStore.product i) = productId ->
        CartStore.quantity i = sent)
  /\ List.filter (fun i => negb (CartStoreOps.has_id productId i))
       (CartStore.items st1)
     = List.filter (fun i => negb (CartStoreOps.has_id productId i))
         (CartStore.items state)
  /\ (forall err mid,
        CartStore.items
          (CartStoreOps.setQuantity_resume prev
             (CartStoreOps.UpdateRejected err) mid)
        = CartStore.items state
        /\ CartStore.error
             (CartStoreOps.setQuantity_resume prev
                (CartStoreOps.UpdateRejected err) mid)
           = Some match err with
                  | CartStoreOps.CaughtError m => m
                  | CartStoreOps.CaughtOther => "Failed to update cart"%string
                  end)
  /\ (forall mid,
        CartStoreOps.setQuantity_resume prev CartStoreOps.UpdateFulfilled mid
        = mid).
Proof.
  cbn zeta. unfold CartStoreOps.setQuantity_begin. simpl.
  split; [reflexivity |]. split; [lia |].
  split; [| split; [| split; [| split; [auto | auto]]]].
  - induction (CartStore.items state) as [| i tl IH]; [reflexivity |].
    simpl. rewrite IH. destruct (CartStoreOps.has_id productId i) eqn:Hid;
      reflexivity.
  - intros i Hin Hid. apply in_map_iff in Hin as (x & Hx & _).
    destruct (CartStoreOps.has_id productId x) eqn:Hx'.
    + subst i. reflexivity.
    + subst i. unfold CartStoreOps.has_id in Hx'.
      apply String.eqb_neq in Hx'. contradiction.
  - induction (CartStore.items state) as [| i tl IH]; [reflexivity |].
    simpl. destruct (CartStoreOps.has_id productId i) eqn:Hid; simpl.
    + unfold CartStoreOps.has_id in *. simpl. rewrite Hid. simpl. exact IH.
    + rewrite Hid. simpl. rewrite IH. reflexivity.
Qed.

Lemma setQuantity_optimistic_and_rollback_witness :
  CartStore.items
    (fst (CartStoreOps.setQuantity_begin "7" (-3) Scenario.store_two_chairs))
  = [CartStore.mkCartItem Scenario.chair 1]
  /\ CartStore.items
       (CartStoreOps.setQuantity_resume
          (fst (snd (CartStoreOps.setQuantity_begin "7" (-3)
                       Scenario.store_two_chairs)))
          (CartStoreOps.UpdateRejected (CartStoreOps.CaughtError "Server Error"))
          (fst (CartStoreOps.setQuantity_begin "7" (-3)
                  Scenario.store_two_chairs)))
     = CartStore.items Scenario.store_two_chairs.
Proof.
  destruct (setQuantity_optimistic_and_rollback "7" (-3)
              Scenario.store_two_chairs)
    as (_ & _ & _ & _ & _ & Hback & _).
  split; [vm_compute; reflexivity |].
  exact (proj1 (Hback (CartStoreOps.CaughtError "Server Error") _)).
Defined.

(** X22.  [removeItem] in the store.  Optimistically no item of the product
    is left and the other items stay as they were, in order; removing again
    changes nothing more.  When the request is rejected the handler puts
    back exactly the items remembered before the removal and records the
    failure reason; when it is fulfilled nothing more is written. *)
Theorem store_removeItem_optimistic_and_rollback productId state :
  let st1 := fst (CartStoreOps.removeItem_begin productId state) in
  let prev := snd (CartStoreOps.removeItem_begin productId state) in
  (forall i,
      In i (CartStore.items st1) <->
      In i (CartStore.items state)
      /\ CartStore.id (CartStore.product i) <> productId)
  /\ CartStore.items (fst (CartStoreOps.removeItem_begin productId st1))
     = CartStore.items st1
  /\ (forall message_ mid,
        CartStore.items
          (CartStoreOps.removeItem_resume prev (CartStore.Rejected message_) mid)
        = CartStore.items state
        /\ CartStore.error
             (CartStoreOps.removeItem_resume prev
                (CartStore.Rejected message_) mid)
           = Some (CartStore.or_string message_ "Failed to remove from cart"))
  /\ (forall mid,
        CartStoreOps.removeItem_resume prev CartStore.Fulfilled mid = mid).
Proof.
  cbn zeta. unfold CartStoreOps.removeItem_begin. simpl.
  split; [| split; [| split; [auto | auto]]].
  - intros i. rewrite filter_In. unfold CartStoreOps.has_id.
    rewrite negb_true_iff, String.eqb_neq. reflexivity.
  - induction (CartStore.items state) as [| i tl IH]; [reflexivity |].
    simpl. destruct (negb (CartStoreOps.has_id productId i)) eqn:Hid; simpl.
    + rewrite Hid, IH. reflexivity.
    + exact IH.
Qed.



Section StoreReads.

Import CartStore CartStoreOps.

Lemma mapped_items_have_ids data :
  Forall (fun i => id (product i) <> ""%string) (mapServerCartToItems data).
Proof.
  unfold mapServerCartToItems. apply List.Forall_forall. intros i Hin.
  apply filter_In in Hin as [_ Hid].
  apply negb_true_iff, String.eqb_neq in Hid. exact Hid.
Qed.

Lemma mapped_items_length l other :
  (length (mapServerCartToItems (mkServerPayload (Some l) other))
   <= length l)%nat.
Proof.
  unfold mapServerCartToItems. simpl.
  etransitivity; [apply filter_length_le |]. rewrite length_map. lia.
Qed.





End StoreReads.

(** X24.  [fetchCart] replaces the mirror and never keeps stale items.  On
    failure the list is emptied, the loading flag dropped and the reason
    recorded.  On success the list is the mapped payload whatever was shown
    before; every item in it has a product id; it is no longer than the
    server's list; and a payload with neither [cart.items] nor [items] (the
    server's answer for an absent or emptied cart) gives the empty list. *)
Theorem fetchCart_replaces_mirror state :
  (forall message_,
      let s := CartStoreOps.fetchCart (CartStoreOps.FetchRejected message_) state in
      CartStore.items s = [] /\ CartStore.isLoading s = false
      /\ CartStore.error s
         = Some (CartStore.or_string message_ "Failed to fetch cart"))
  /\ (forall data,
        let s := CartStoreOps.fetchCart (CartStoreOps.FetchFulfilled data) state in
        CartStore.items s = CartStoreOps.mapServerCartToItems data
        /\ CartStore.isLoading s = false /\ CartStore.error s = None
        /\ Forall (fun i => CartStore.id (CartStore.product i) <> ""%string)
             (CartStore.items s))
  /\ (forall l other,
        (length (CartStoreOps.mapServerCartToItems
                   (CartStoreOps.mkServerPayload (Some l) other))
         <= length l)%nat)
  /\ CartStoreOps.mapServerCartToItems (CartStoreOps.mkServerPayload None None)
     = [].
Proof.
  split; [intros message_; simpl; auto |].
  split; [| split; [apply mapped_items_length | reflexivity]].
  intros data. simpl. repeat split. apply mapped_items_have_ids.
Qed.

Section SubtotalAfterAdd.

Import CartStore CartStoreOps.



End SubtotalAfterAdd.

(** * The flat shipping rule of the cart *)



Lemma store_removeItem_optimistic_and_rollback_witness :
  In (CartStore.mkCartItem Scenario.chair 2)
    (CartStore.items
       (fst (CartStoreOps.removeItem_begin "9" Scenario.store_two_chairs))).
Proof.
  destruct (store_removeItem_optimistic_and_rollback "9"
              Scenario.store_two_chairs) as (Hmem & _).
  apply Hmem. split; [left; reflexivity | discriminate].
Defined.

(** * Geocoding answers that are not numbers *)

(** X27.  [geocodeCity] gives not-found exactly when the request throws,
    responds with a falsy or empty body, or with a body whose first
    element is null or undefined (the failed property read is caught).  A
    first element whose [lat] or [lon] does not parse to a finite number is
    not treated as not-found: coordinates are returned all the same, and a
    quote built from them, in either role and whatever the other point,
    has a distance that is NaN and the top fee of 2500.  The fee function
    itself gives 2500 to NaN and to +Infinity, 500 to -Infinity, and the
    fee of the table to a finite distance. *)
Theorem geocode_unparsable_result (parseFloat : string -> Binary64.Number)
    (on_finite : DistanceUtils.Coordinates -> DistanceUtils.Coordinates
                 -> Binary64.Number) :
  (forall outcome,
      GeocodeResponse.geocodeCity_from parseFloat outcome = None
      <-> outcome = GeocodeResponse.Threw
          \/ outcome = GeocodeResponse.Responded GeocodeResponse.Falsy
          \/ outcome = GeocodeResponse.Responded GeocodeResponse.Empty
          \/ outcome
             = GeocodeResponse.Responded
                 (GeocodeResponse.NonEmpty GeocodeResponse.NullOrUndefined))
  /\ (forall lat lon,
        Binary64.isFinite (parseFloat lat) = false
        \/ Binary64.isFinite (parseFloat lon) = false ->
        exists c,
          GeocodeResponse.geocodeCity_from parseFloat
            (GeocodeResponse.Responded
               (GeocodeResponse.NonEmpty (GeocodeResponse.Value lat lon)))
          = Some c
          /\ forall other,
               GeocodeResponse.quote_js on_finite c other
               = (Binary64.NaN, 2500)
               /\ GeocodeResponse.quote_js on_finite other c
                  = (Binary64.NaN, 2500))
  /\ GeocodeResponse.calculateShippingByDistance_js Binary64.NaN = 2500
  /\ GeocodeResponse.calculateShippingByDistance_js (Binary64.Infinity false)
     = 2500
  /\ GeocodeResponse.calculateShippingByDistance_js (Binary64.Infinity true)
     = 500
  /\ (forall d,
        GeocodeResponse.calculateShippingByDistance_js (Binary64.Finite d)
        = DistanceUtils.calculateShippingByDistance d).
Proof.
  split; [| split; [| repeat split]].
  - intros [| [| | [| lat lon]]]; simpl; split;
      try discriminate; try tauto;
      intros [H | [H | [H | H]]]; discriminate H.
  - intros lat lon Hbad. eexists. split; [reflexivity |].
    intros other.
    unfold GeocodeResponse.quote_js, GeocodeResponse.calculateDistance_js,
      GeocodeResponse.finite_coordinates.
    cbn [GeocodeResponse.js_latitude GeocodeResponse.js_longitude].
    destruct Hbad as [Hbad | Hbad].
    + destruct (parseFloat lat); [| | discriminate Hbad];
        (split; [reflexivity |]);
        destruct (GeocodeResponse.js_latitude other),
          (GeocodeResponse.js_longitude other); reflexivity.
    + destruct (parseFloat lon); [| | discriminate Hbad];
        destruct (parseFloat lat);
        (split; [reflexivity |]);
        destruct (GeocodeResponse.js_latitude other),
          (GeocodeResponse.js_longitude other); reflexivity.
Qed.

Lemma geocode_unparsable_result_witness :
  exists c,
    GeocodeResponse.geocodeCity_from (fun _ => Binary64.NaN)
      (GeocodeResponse.Responded
         (GeocodeResponse.NonEmpty (GeocodeResponse.Value "n/a" "n/a")))
    = Some c
    /\ GeocodeResponse.quote_js (fun _ _ => Binary64.whole 0) c
         (GeocodeResponse.mkJsCoordinates (Binary64.Finite (-1.2921))
            (Binary64.Finite 36.8219))
       = (Binary64.NaN, 2500).
Proof.
  destruct (geocode_unparsable_result (fun _ => Binary64.NaN)
              (fun _ _ => Binary64.whole 0))
    as (_ & Hbad & _).
  destruct (Hbad "n/a"%string "n/a"%string (or_introl eq_refl))
    as (c & Hc & Hquote).
  exists c. split; [exact Hc |]. exact (proj1 (Hquote _)).
Defined.
